(** * Seat booking and payment lifecycle of the movie booking backend

    A shallow embedding of [bookings/models.py], [bookings/serializers.py],
    [bookings/signals.py], [bookings/views.py], the notification tasks and
    the sweeper of [bookings/tasks.py], the actions of [bookings/admin.py]
    and the seat and showtime models of [movies/models.py].

    Conventions of the embedding:
    - the database is a record of tables, each table a list of rows in
      insertion order; primary keys ([uuid.uuid4]) are drawn from a counter;
    - a model instance is its row together with the ad hoc Python attributes
      the code hangs on it ([_status_changed], [_old_status],
      [_timer_extended]) and, for a transaction, the cached [booking] object;
    - [timezone.now()] is the time of the request, in microseconds, the same
      at every call inside one request;
    - the receivers of [bookings/signals.py] are connected, as their
      [@receiver] decorators say, and run inside [save] in the order of the
      file;
    - calls that leave the process (the order that the gateway creates, its
      verdict on a payment) are inputs of the request;
    - text is a sequence of characters below 256, one [ascii] each;
    - [task.delay(...)] appends the task to the broker queue;
    - requests are processed one after the other, so the row locks
      ([select_for_update]) have nobody to keep out; [transaction.atomic]
      has nothing to undo, because an exception that leaves a function
      under it is raised before the first write of that function. *)

From Stdlib Require Import ZArith List String Ascii Bool Arith Lia QArith.
From Stdlib Require Import DecimalString.
Import ListNotations.
Close Scope Q_scope.

Set Implicit Arguments.

(* ================================================================= *)
(** ** Python's [decimal.Decimal], as far as the code uses it *)

Module Decimal.

(** [mk c p] is the number [c * 10^-p]. *)
Record t := mk { coef : Z; places : nat }.

Definition pow10 (n : nat) : Z := (10 ^ Z.of_nat n)%Z.

(** The coefficient of [d] written with [p >= places d] decimal places. *)
Definition rescale (d : t) (p : nat) : Z :=
(coef d * pow10 (p - places d))%Z.

Definition of_int (z : Z) : t := mk z 0.

Definition add (a b : t) : t :=
let p := Nat.max (places a) (places b) in
mk (rescale a p + rescale b p) p.

Definition sub (a b : t) : t :=
let p := Nat.max (places a) (places b) in
mk (rescale a p - rescale b p) p.

Definition mul (a b : t) : t :=
mk (coef a * coef b) (places a + places b).

(** [n / d] rounded to the nearest integer, ties to even ([d > 0]). *)
Definition round_half_even (n d : Z) : Z :=
let q := (n / d)%Z in
let r := (n mod d)%Z in
if (2 * r <? d)%Z then q
else if (d <? 2 * r)%Z then (q + 1)%Z
else if Z.even q then q else (q + 1)%Z.

(** [round(d, n)], that is [d.quantize(Decimal(10) ** -n)] under the
  default context (ROUND_HALF_EVEN). *)
Definition round (d : t) (n : nat) : t :=
if (places d <=? n)%nat then mk (rescale d n) n
else mk (round_half_even (coef d) (pow10 (places d - n))) n.

(** [d / 100]: the quotient is exact, and the result keeps the exponent of
  [d] when the coefficient allows it. *)
Definition div100 (d : t) : t :=
if (coef d mod 100 =? 0)%Z then mk (coef d / 100) (places d)
else if (coef d mod 10 =? 0)%Z then mk (coef d / 10) (S (places d))
else mk (coef d) (S (S (places d))).

(** Truth value of a Decimal. *)
Definition truthy (d : t) : bool := negb (coef d =? 0)%Z.

(** [sum(...)] of Python, which starts from the int [0]. *)
Definition sum (l : list t) : t := fold_left add l (of_int 0).

End Decimal.

Definition Decimal : Type := Decimal.t.

(** A [DecimalField(decimal_places=2)] column holds hundredths; reading it
    gives a Decimal with two places, writing it quantizes to two places. *)
Definition from_db (hundredths : Z) : Decimal := Decimal.mk hundredths 2.
Definition to_db (d : Decimal) : Z := Decimal.coef (Decimal.round d 2).

(* ================================================================= *)
(** ** Time *)

Definition seconds (n : Z) : Z := (n * 1000000)%Z.
Definition minutes (n : Z) : Z := seconds (n * 60).
Definition hours (n : Z) : Z := minutes (n * 60).

(** [delta.total_seconds() / 3600].  The float of the source is the exact
    quotient here; the two have the same integer part and the same sign for
    every time span of less than a century. *)
Definition hours_of (delta : Z) : Q := Qmake delta 3600000000.

(* ================================================================= *)
(** ** movies/models.py *)

Inductive SeatType := regular | premium | recliner | couple.

Record Seat := mkSeat {
  seat_id : nat;
  seat_screen : nat;
  seat_row : string;
  seat_number : nat;
  seat_type : SeatType;
  seat_base_price : Z;
  is_available : bool;
  is_blocked : bool
}.

Record Showtime := mkShowtime {
  showtime_id : nat;
  showtime_movie : nat;
  showtime_screen : nat;
  (** [make_aware(datetime.combine(show_date, show_time))] *)
  show_datetime : Z;
  base_price : Z;
  premium_price : Z;
  recliner_price : Z;
  showtime_is_active : bool;
  is_housefull : bool
}.

Definition get_price_for_seat (self : Showtime) (seat : Seat) : Decimal :=
  match seat_type seat with
  | recliner => from_db (recliner_price self)
  | premium => from_db (premium_price self)
  | _ => from_db (base_price self)
  end.

(* ================================================================= *)
(** ** bookings/models.py *)

Inductive BookingStatus := Pending | Confirmed | Cancelled | Expired | Failed.

Definition BookingStatus_eqb (a b : BookingStatus) : bool :=
  match a, b with
  | Pending, Pending | Confirmed, Confirmed | Cancelled, Cancelled
  | Expired, Expired | Failed, Failed => true
  | _, _ => false
  end.

Definition BookingStatus_str (s : BookingStatus) : string :=
  match s with
  | Pending => "pending" | Confirmed => "confirmed" | Cancelled => "cancelled"
  | Expired => "expired" | Failed => "failed"
  end.

Record Booking := mkBooking {
  booking_id : nat;
  booking_user : nat;
  booking_showtime : nat;
  (** [None] is the empty string of a reference not generated yet. *)
  booking_reference : option nat;
  subtotal : Z;
  tax_amount : Z;
  convenience_fee : Z;
  total_amount : Z;
  status : BookingStatus;
  booked_at : Z;
  expires_at : Z;
  confirmed_at : option Z;
  cancelled_at : option Z;
  special_requests : string
}.

Inductive Gateway := razorpay | stripe | paytm | phonepe | gpay.

Inductive TransactionStatus :=
  TInitiated | TPending | TSuccess | TFailed | TCancelled | TRefunded.

Definition TransactionStatus_eqb (a b : TransactionStatus) : bool :=
  match a, b with
  | TInitiated, TInitiated | TPending, TPending | TSuccess, TSuccess
  | TFailed, TFailed | TCancelled, TCancelled | TRefunded, TRefunded => true
  | _, _ => false
  end.

Record Transaction := mkTransaction {
  txn_pk : nat;
  txn_booking : nat;
  (** [None] is the empty string of an identifier not generated yet. *)
  transaction_id : option nat;
  gateway : Gateway;
  gateway_transaction_id : string;
  reference_id : string;
  amount : Z;
  currency : string;
  txn_status : TransactionStatus;
  initiated_at : Z;
  completed_at : option Z;
  gateway_response : string;
  failure_reason : string
}.

Record BookingHistory := mkBookingHistory {
  history_pk : nat;
  history_booking : nat;
  (** [None] is the empty string written when a booking is created. *)
  previous_status : option BookingStatus;
  new_status : BookingStatus;
  changed_by : option nat;
  history_reason : string;
  changed_at : Z
}.

Inductive RefundStatus := RInitiated | RProcessing | RCompleted | RFailed.

Record Refund := mkRefund {
  refund_pk : nat;
  refund_booking : nat;
  refund_transaction : nat;
  refund_id : nat;
  refund_total : Z;          (* the column [amount] *)
  refund_amount : Z;
  cancellation_fee : Z;
  refund_status : RefundStatus;
  refund_reason : string;
  refund_initiated_at : Z
}.

Record CancellationPolicy := mkPolicy {
  policy_name : string;
  hours_before_show : nat;
  cancellation_fee_percentage : Z;   (* hundredths of a percent point *)
  is_refundable : bool;
  policy_is_active : bool
}.

Inductive NotificationType :=
  booking_confirmed | payment_success | booking_cancelled
  | refund_initiated | show_reminder.

Record BookingNotification := mkNotification {
  notification_pk : nat;
  notification_booking : nat;
  notification_type : NotificationType;
  recipient : nat;
  scheduled_at : Z
}.

(** The tasks of [bookings/tasks.py] that the request handlers enqueue. *)
Inductive Task :=
| send_booking_confirmation_task (booking : nat)
| send_cancellation_confirmation_task (booking : nat)
| process_refund_task (refund : nat)
| send_show_reminders_task (eta : Z).

(* ================================================================= *)
(** ** The database *)

Record DB := mkDB {
  seats : list Seat;
  showtimes : list Showtime;
  bookings : list Booking;
  (** the join table of [Booking.seats]: (booking, seat) *)
  booking_seats : list (nat * nat);
  transactions : list Transaction;
  history : list BookingHistory;
  refunds : list Refund;
  policies : list CancellationPolicy;
  notifications : list BookingNotification;
  (** the broker queue *)
  celery : list Task;
  (** source of [uuid.uuid4()] and of the random references *)
  next_uuid : nat
}.

Definition set_seats (v : list Seat) (db : DB) : DB :=
  mkDB v (showtimes db) (bookings db) (booking_seats db) (transactions db)
       (history db) (refunds db) (policies db) (notifications db) (celery db)
       (next_uuid db).
Definition set_bookings (v : list Booking) (db : DB) : DB :=
  mkDB (seats db) (showtimes db) v (booking_seats db) (transactions db)
       (history db) (refunds db) (policies db) (notifications db) (celery db)
       (next_uuid db).
Definition set_booking_seats (v : list (nat * nat)) (db : DB) : DB :=
  mkDB (seats db) (showtimes db) (bookings db) v (transactions db)
       (history db) (refunds db) (policies db) (notifications db) (celery db)
       (next_uuid db).
Definition set_transactions (v : list Transaction) (db : DB) : DB :=
  mkDB (seats db) (showtimes db) (bookings db) (booking_seats db) v
       (history db) (refunds db) (policies db) (notifications db) (celery db)
       (next_uuid db).
Definition set_history (v : list BookingHistory) (db : DB) : DB :=
  mkDB (seats db) (showtimes db) (bookings db) (booking_seats db)
       (transactions db) v (refunds db) (policies db) (notifications db)
       (celery db) (next_uuid db).
Definition set_refunds (v : list Refund) (db : DB) : DB :=
  mkDB (seats db) (showtimes db) (bookings db) (booking_seats db)
       (transactions db) (history db) v (policies db) (notifications db)
       (celery db) (next_uuid db).
Definition set_notifications (v : list BookingNotification) (db : DB) : DB :=
  mkDB (seats db) (showtimes db) (bookings db) (booking_seats db)
       (transactions db) (history db) (refunds db) (policies db) v
       (celery db) (next_uuid db).
Definition set_celery (v : list Task) (db : DB) : DB :=
  mkDB (seats db) (showtimes db) (bookings db) (booking_seats db)
       (transactions db) (history db) (refunds db) (policies db)
       (notifications db) v (next_uuid db).
Definition set_next_uuid (v : nat) (db : DB) : DB :=
  mkDB (seats db) (showtimes db) (bookings db) (booking_seats db)
       (transactions db) (history db) (refunds db) (policies db)
       (notifications db) (celery db) v.

(** [uuid.uuid4()], and the random references retried until unused. *)
Definition uuid4 (db : DB) : nat * DB :=
  (next_uuid db, set_next_uuid (S (next_uuid db)) db).

(** [task.delay(...)] and [task.apply_async(...)] *)
Definition delay (t : Task) (db : DB) : DB :=
  set_celery (celery db ++ [t]) db.

(** *** Query helpers *)

Definition mem (x : nat) (l : list nat) : bool := existsb (Nat.eqb x) l.

Definition get_seat (db : DB) (pk : nat) : option Seat :=
  find (fun s => seat_id s =? pk) (seats db).
Definition get_showtime (db : DB) (pk : nat) : option Showtime :=
  find (fun s => showtime_id s =? pk) (showtimes db).
Definition get_booking (db : DB) (pk : nat) : option Booking :=
  find (fun b => booking_id b =? pk) (bookings db).

(** [booking.seats]: the primary keys of the seats of a booking. *)
Definition seats_of (db : DB) (booking : nat) : list nat :=
  map snd (filter (fun p => fst p =? booking) (booking_seats db)).

(** [booking.seats.update(is_available=v)] *)
Definition seats_update (booking : nat) (v : bool) (db : DB) : DB :=
  let ids := seats_of db booking in
  set_seats
    (map (fun s =>
            if mem (seat_id s) ids
            then mkSeat (seat_id s) (seat_screen s) (seat_row s)
                        (seat_number s) (seat_type s) (seat_base_price s)
                        v (is_blocked s)
            else s)
         (seats db))
    db.

(** [queryset.order_by('-key').first()]: a row of greatest key, the earliest
    such row of the table. *)
Fixpoint first_desc {A : Type} (key : A -> Z) (l : list A) : option A :=
  match l with
  | [] => None
  | x :: r =>
      match first_desc key r with
      | None => Some x
      | Some y => if (key x <? key y)%Z then Some y else Some x
      end
  end.

(** *** Field updates *)

Definition with_status (v : BookingStatus) (b : Booking) : Booking :=
  mkBooking (booking_id b) (booking_user b) (booking_showtime b)
            (booking_reference b) (subtotal b) (tax_amount b)
            (convenience_fee b) (total_amount b) v (booked_at b)
            (expires_at b) (confirmed_at b) (cancelled_at b)
            (special_requests b).
Definition with_expires_at (v : Z) (b : Booking) : Booking :=
  mkBooking (booking_id b) (booking_user b) (booking_showtime b)
            (booking_reference b) (subtotal b) (tax_amount b)
            (convenience_fee b) (total_amount b) (status b) (booked_at b)
            v (confirmed_at b) (cancelled_at b) (special_requests b).
Definition with_confirmed_at (v : option Z) (b : Booking) : Booking :=
  mkBooking (booking_id b) (booking_user b) (booking_showtime b)
            (booking_reference b) (subtotal b) (tax_amount b)
            (convenience_fee b) (total_amount b) (status b) (booked_at b)
            (expires_at b) v (cancelled_at b) (special_requests b).
Definition with_cancelled_at (v : option Z) (b : Booking) : Booking :=
  mkBooking (booking_id b) (booking_user b) (booking_showtime b)
            (booking_reference b) (subtotal b) (tax_amount b)
            (convenience_fee b) (total_amount b) (status b) (booked_at b)
            (expires_at b) (confirmed_at b) v (special_requests b).
Definition with_booking_reference (v : option nat) (b : Booking) : Booking :=
  mkBooking (booking_id b) (booking_user b) (booking_showtime b)
            v (subtotal b) (tax_amount b)
            (convenience_fee b) (total_amount b) (status b) (booked_at b)
            (expires_at b) (confirmed_at b) (cancelled_at b)
            (special_requests b).

Definition with_txn_status (v : TransactionStatus) (t : Transaction)
  : Transaction :=
  mkTransaction (txn_pk t) (txn_booking t) (transaction_id t) (gateway t)
                (gateway_transaction_id t) (reference_id t) (amount t)
                (currency t) v (initiated_at t) (completed_at t)
                (gateway_response t) (failure_reason t).
Definition with_transaction_id (v : option nat) (t : Transaction)
  : Transaction :=
  mkTransaction (txn_pk t) (txn_booking t) v (gateway t)
                (gateway_transaction_id t) (reference_id t) (amount t)
                (currency t) (txn_status t) (initiated_at t) (completed_at t)
                (gateway_response t) (failure_reason t).
Definition with_gateway_transaction_id (v : string) (t : Transaction)
  : Transaction :=
  mkTransaction (txn_pk t) (txn_booking t) (transaction_id t) (gateway t)
                v (reference_id t) (amount t)
                (currency t) (txn_status t) (initiated_at t) (completed_at t)
                (gateway_response t) (failure_reason t).
Definition with_completed_at (v : option Z) (t : Transaction) : Transaction :=
  mkTransaction (txn_pk t) (txn_booking t) (transaction_id t) (gateway t)
                (gateway_transaction_id t) (reference_id t) (amount t)
                (currency t) (txn_status t) (initiated_at t) v
                (gateway_response t) (failure_reason t).
Definition with_gateway_response (v : string) (t : Transaction)
  : Transaction :=
  mkTransaction (txn_pk t) (txn_booking t) (transaction_id t) (gateway t)
                (gateway_transaction_id t) (reference_id t) (amount t)
                (currency t) (txn_status t) (initiated_at t) (completed_at t)
                v (failure_reason t).
Definition with_failure_reason (v : string) (t : Transaction) : Transaction :=
  mkTransaction (txn_pk t) (txn_booking t) (transaction_id t) (gateway t)
                (gateway_transaction_id t) (reference_id t) (amount t)
                (currency t) (txn_status t) (initiated_at t) (completed_at t)
                (gateway_response t) v.

(** *** Model instances *)

(** A [Booking] object of Python: the field values and the attributes that
    the signal handlers and [extend_booking_timer] set on the object.  An
    attribute that is [None] here does not exist ([hasattr] is false). *)
Record BookingInstance := mkBookingInstance {
  fields : Booking;
  _status_changed : option bool;
  _old_status : option BookingStatus;
  _timer_extended : option bool
}.

(** An object as a query returns it: no ad hoc attribute. *)
Definition from_row (b : Booking) : BookingInstance :=
  mkBookingInstance b None None None.

Definition on_fields (f : Booking -> Booking) (i : BookingInstance)
  : BookingInstance :=
  mkBookingInstance (f (fields i)) (_status_changed i) (_old_status i)
                    (_timer_extended i).

(** A [Transaction] object: the field values and the related [booking]
    object once it has been fetched or assigned (Django caches it on the
    instance, so later accesses give the same object). *)
Record TransactionInstance := mkTransactionInstance {
  txn_fields : Transaction;
  booking_cache : option BookingInstance
}.

Definition on_txn_fields (f : Transaction -> Transaction)
           (i : TransactionInstance) : TransactionInstance :=
  mkTransactionInstance (f (txn_fields i)) (booking_cache i).

(** [instance.booking] *)
Definition instance_booking (self : TransactionInstance) (db : DB)
  : option BookingInstance * TransactionInstance :=
  match booking_cache self with
  | Some b => (Some b, self)
  | None =>
      match get_booking db (txn_booking (txn_fields self)) with
      | Some r =>
          (Some (from_row r), mkTransactionInstance (txn_fields self)
                                                    (Some (from_row r)))
      | None => (None, self)
      end
  end.

(** *** Writing rows *)

Definition has_row {A : Type} (pk : A -> nat) (k : nat) (l : list A) : bool :=
  existsb (fun x => pk x =? k) l.

Definition update_row {A : Type} (pk : A -> nat) (r : A) (l : list A)
  : list A :=
  map (fun x => if pk x =? pk r then r else x) l.

Definition save_row {A : Type} (pk : A -> nat) (r : A) (l : list A)
  : list A :=
  if has_row pk (pk r) l then update_row pk r l else l ++ [r].

Definition BookingHistory_create (booking : nat)
           (previous : option BookingStatus) (new : BookingStatus)
           (by_user : option nat) (reason : string) (now : Z) (db : DB) : DB :=
  let '(pk, db) := uuid4 db in
  set_history
    (history db ++ [mkBookingHistory pk booking previous new by_user reason now])
    db.

(* ================================================================= *)
(** ** bookings/signals.py and the [save] methods *)

(** [pre_save] of Booking.  The primary key has a default, so
    [instance.pk] is set on every instance. *)
Definition track_booking_status_change (instance : BookingInstance) (db : DB)
  : BookingInstance :=
  match get_booking db (booking_id (fields instance)) with
  | Some old_instance =>
      if negb (BookingStatus_eqb (status old_instance)
                                 (status (fields instance)))
      then mkBookingInstance (fields instance) (Some true)
                             (Some (status old_instance))
                             (_timer_extended instance)
      else instance
  | None => instance            (* Booking.DoesNotExist: pass *)
  end.

(** [post_save] of Booking, first receiver. *)
Definition create_booking_history (now : Z) (instance : BookingInstance)
           (created : bool) (db : DB) : BookingInstance * DB :=
  if created then
    (instance,
     BookingHistory_create (booking_id (fields instance)) None
                           (status (fields instance)) None
                           "Booking created" now db)
  else
    match _status_changed instance, _old_status instance with
    | Some true, Some old =>
        let db :=
          BookingHistory_create
            (booking_id (fields instance)) (Some old)
            (status (fields instance)) None
            ("Status changed from " ++ BookingStatus_str old ++ " to "
               ++ BookingStatus_str (status (fields instance)))%string
            now db in
        (mkBookingInstance (fields instance) None None
                           (_timer_extended instance), db)
    | _, _ => (instance, db)
    end.

Inductive BookingField := field_confirmed_at | field_cancelled_at.

Definition is_none {A : Type} (o : option A) : bool :=
  match o with None => true | Some _ => false end.

Section BookingSignals.

(** [instance.save(update_fields=[...])] as the handlers call it. *)
Variable save :
option BookingField -> Z -> BookingInstance -> DB -> BookingInstance * DB.

(** [post_save] of Booking, second receiver. *)
Definition handle_booking_confirmation (now : Z) (instance : BookingInstance)
         (db : DB) : BookingInstance * DB :=
if BookingStatus_eqb (status (fields instance)) Confirmed
   && is_none (confirmed_at (fields instance))
then
  let instance := on_fields (with_confirmed_at (Some now)) instance in
  let '(instance, db) := save (Some field_confirmed_at) now instance db in
  match get_showtime db (booking_showtime (fields instance)) with
  | Some showtime =>
      let reminder_time := (show_datetime showtime - hours 4)%Z in
      if (now <? reminder_time)%Z
      then (instance, delay (send_show_reminders_task reminder_time) db)
      else (instance, db)
  | None => (instance, db)
  end
else (instance, db).

(** [post_save] of Booking, third receiver. *)
Definition handle_booking_cancellation (now : Z) (instance : BookingInstance)
         (db : DB) : BookingInstance * DB :=
if BookingStatus_eqb (status (fields instance)) Cancelled then
  let db := seats_update (booking_id (fields instance)) true db in
  if is_none (cancelled_at (fields instance)) then
    let instance := on_fields (with_cancelled_at (Some now)) instance in
    save (Some field_cancelled_at) now instance db
  else (instance, db)
else (instance, db).

End BookingSignals.

(** [generate_booking_reference], [generate_transaction_id] and
    [generate_refund_id]: a random reference, drawn again while it is in
    use. *)
Definition generate_reference (db : DB) : nat * DB := uuid4 db.

(** The UPDATE or INSERT of [Model.save]. *)
Definition write_booking (update_fields : option BookingField) (b : Booking)
           (db : DB) : DB :=
  match update_fields with
  | None => set_bookings (save_row booking_id b (bookings db)) db
  | Some field_confirmed_at =>
      set_bookings
        (map (fun r => if booking_id r =? booking_id b
                       then with_confirmed_at (confirmed_at b) r else r)
             (bookings db)) db
  | Some field_cancelled_at =>
      set_bookings
        (map (fun r => if booking_id r =? booking_id b
                       then with_cancelled_at (cancelled_at b) r else r)
             (bookings db)) db
  end.

(** [Booking.save].  The receivers of [post_save] save the instance again;
    [fuel] bounds that nesting (see [Booking_save_fuel_enough]: two levels
    are all a save ever uses). *)
Fixpoint Booking_save_fuel (fuel : nat) (update_fields : option BookingField)
         (now : Z) (self : BookingInstance) (db : DB)
  : BookingInstance * DB :=
  match fuel with
  | O => (self, db)
  | S fuel' =>
      let '(self, db) :=
        match booking_reference (fields self) with
        | Some _ => (self, db)
        | None =>
            let '(ref, db) := generate_reference db in
            (on_fields (with_booking_reference (Some ref)) self, db)
        end in
      let self := track_booking_status_change self db in
      let created :=
        is_none update_fields
        && negb (has_row booking_id (booking_id (fields self)) (bookings db)) in
      let db := write_booking update_fields (fields self) db in
      let '(self, db) := create_booking_history now self created db in
      let '(self, db) :=
        handle_booking_confirmation (Booking_save_fuel fuel') now self db in
      handle_booking_cancellation (Booking_save_fuel fuel') now self db
  end.

Definition Booking_save : Z -> BookingInstance -> DB -> BookingInstance * DB :=
  Booking_save_fuel 3 None.

(** [post_save] of Transaction, first receiver. *)
Definition handle_successful_payment (now : Z) (instance : TransactionInstance)
           (db : DB) : TransactionInstance * DB :=
  if TransactionStatus_eqb (txn_status (txn_fields instance)) TSuccess then
    match instance_booking instance db with
    | (Some booking, instance) =>
        if BookingStatus_eqb (status (fields booking)) Pending then
          let booking := on_fields (with_status Confirmed) booking in
          let booking := on_fields (with_confirmed_at (Some now)) booking in
          let '(booking, db) := Booking_save now booking db in
          (mkTransactionInstance (txn_fields instance) (Some booking),
           delay (send_booking_confirmation_task (booking_id (fields booking)))
                 db)
        else (instance, db)
    | (None, instance) => (instance, db)
    end
  else (instance, db).

(** [booking.transactions.filter(status='success').exists()] *)
Definition has_successful_transaction (db : DB) (booking : nat) : bool :=
  existsb (fun t => (txn_booking t =? booking)
                    && TransactionStatus_eqb (txn_status t) TSuccess)
          (transactions db).

(** [post_save] of Transaction, second receiver. *)
Definition handle_failed_payment (now : Z) (instance : TransactionInstance)
           (db : DB) : TransactionInstance * DB :=
  if TransactionStatus_eqb (txn_status (txn_fields instance)) TFailed then
    match instance_booking instance db with
    | (Some booking, instance) =>
        if negb (has_successful_transaction db (booking_id (fields booking)))
        then
          let db := seats_update (booking_id (fields booking)) true db in
          if (now <? expires_at (fields booking))%Z then
            let booking :=
              on_fields (with_expires_at (now + minutes 15)%Z) booking in
            let '(booking, db) := Booking_save now booking db in
            (mkTransactionInstance (txn_fields instance) (Some booking), db)
          else (instance, db)
        else (instance, db)
    | (None, instance) => (instance, db)
    end
  else (instance, db).

(** [Transaction.save] *)
Definition Transaction_save (now : Z) (self : TransactionInstance) (db : DB)
  : TransactionInstance * DB :=
  let '(self, db) :=
    match transaction_id (txn_fields self) with
    | Some _ => (self, db)
    | None =>
        let '(ref, db) := generate_reference db in
        (on_txn_fields (with_transaction_id (Some ref)) self, db)
    end in
  let db :=
    set_transactions (save_row txn_pk (txn_fields self) (transactions db)) db in
  let '(self, db) := handle_successful_payment now self db in
  handle_failed_payment now self db.

(* ================================================================= *)
(** ** Responses *)

Inductive Error :=
| Http404                                (* get_object_or_404 *)
| Http400 (error : string)               (* Response({'error': ...}, 400) *)
| ValidationError (detail : string)      (* serializers.ValidationError *)
(* the answer 400 of [is_valid(raise_exception=True)] to refused fields:
   the messages of each of them *)
| FieldErrors (errors : list (string * list string))
| Http500 (error : string).

Inductive Response (A : Type) :=
| Ok (data : A)
| Fail (e : Error).
Arguments Ok {A} data.
Arguments Fail {A} e.

(** [get_object_or_404(Booking, id=..., user=request.user)] *)
Definition get_user_booking (db : DB) (pk user : nat) : option Booking :=
  find (fun b => (booking_id b =? pk) && (booking_user b =? user)) (bookings db).

(* ================================================================= *)
(** ** bookings/utils/payment.py *)

(** [PaymentGatewayFactory.get_gateway] raises [ValueError] for a gateway
    that is not registered. *)
Definition get_gateway (gateway_name : Gateway) : bool :=
  match gateway_name with
  | razorpay | stripe => true
  | _ => false
  end.

(* ================================================================= *)
(** ** bookings/serializers.py *)

Definition str_nat (n : nat) : string := NilZero.string_of_uint (Nat.to_uint n).

(** *** The fields of the serializers

    [serializers.CharField] and [serializers.JSONField] of Django REST
    framework, with the options that the serializers of the module leave at
    their defaults: required, not null, not blank, whitespace trimmed. *)

(** [str.isspace] *)
Definition isspace (c : ascii) : bool :=
  let n := nat_of_ascii c in
  ((9 <=? n) && (n <=? 13)) || ((28 <=? n) && (n <=? 32))
  || (n =? 133) || (n =? 160).

Fixpoint lstrip (s : string) : string :=
  match s with
  | EmptyString => EmptyString
  | String c r => if isspace c then lstrip r else s
  end.

Fixpoint rstrip (s : string) : string :=
  match s with
  | EmptyString => EmptyString
  | String c r =>
      match rstrip r with
      | EmptyString => if isspace c then EmptyString else String c EmptyString
      | r' => String c r'
      end
  end.

(** [str.strip()] *)
Definition strip (s : string) : string := rstrip (lstrip s).

Fixpoint has_null (s : string) : bool :=
  match s with
  | EmptyString => false
  | String c r => (nat_of_ascii c =? 0) || has_null r
  end.

(** The value that a [CharField] makes of a text. *)
Definition CharField_value (data : string) : string := strip data.

(** The messages of a [CharField] for a text [data]: a text that is blank
    once trimmed is refused; otherwise the validators run on the trimmed
    value, the length first. *)
Definition CharField_errors (max_length : option nat) (data : string)
  : list string :=
  let value := CharField_value data in
  if String.eqb value EmptyString
  then ["This field may not be blank."%string]
  else
    List.app
      match max_length with
      | Some n =>
          if n <? String.length value
          then [("Ensure this field has no more than " ++ str_nat n
                   ++ " characters.")%string]
          else []
      | None => []
      end
      (if has_null value then ["Null characters are not allowed."%string]
       else []).

(** The messages of a [JSONField]: every JSON value but [null] is taken
    as it is.  [None] is [null]. *)
Definition JSONField_errors (data : option string) : list string :=
  match data with
  | None => ["This field may not be null."%string]
  | Some _ => []
  end.

(** The fields that were refused, with their messages. *)
Definition refused (fields : list (string * list string))
  : list (string * list string) :=
  filter (fun f => negb (List.length (snd f) =? 0)) fields.

(** [BookingCreateSerializer.validate_seat_ids].  After the count of the
    seats on the screen, the method builds its availability filter from
    [models.Q(...)]; [bookings/serializers.py] imports the model classes by
    name and never the name [models], so reading it raises
    [NameError: name 'models' is not defined].  [is_valid] lets that
    exception pass (it catches validation errors only), the view does not
    catch it, and the request is answered with status 500.  The filter and
    the error message built from it (lines 53 to 63) are never evaluated. *)
Definition validate_seat_ids (db : DB) (showtime : Showtime) (value : list nat)
  : Response (list nat) :=
  let seats_qs :=
    filter (fun s => mem (seat_id s) value
                     && (seat_screen s =? showtime_screen showtime))
           (seats db) in
  if negb (List.length seats_qs =? List.length value) then
    Fail (ValidationError
            "Some seats do not exist or don't belong to this screen")
  else
    Fail (Http500 "name 'models' is not defined").

(** [serializer.is_valid]: the [ListField(min_length=1, max_length=10)] of
    [seat_ids], then [validate_seat_ids]. *)
Definition BookingCreateSerializer_is_valid (db : DB) (showtime : Showtime)
           (seat_ids : list nat) : Response (list nat) :=
  if List.length seat_ids <? 1 then
    Fail (ValidationError "Ensure this field has at least 1 elements.")
  else if 10 <? List.length seat_ids then
    Fail (ValidationError "Ensure this field has no more than 10 elements.")
  else validate_seat_ids db showtime seat_ids.

(** The filter of the queryset [seats] of [BookingCreateSerializer.create]
    (called [seats_qs] below). *)
Definition lockable (showtime : Showtime) (seat_ids : list nat) (s : Seat)
  : bool :=
  mem (seat_id s) seat_ids
  && (seat_screen s =? showtime_screen showtime)
  && is_available s && negb (is_blocked s).

Definition hold (s : Seat) : Seat :=
  mkSeat (seat_id s) (seat_screen s) (seat_row s) (seat_number s)
         (seat_type s) (seat_base_price s) false (is_blocked s).

(** [BookingCreateSerializer.create].  It runs under
    [transaction.atomic]; its one [raise] comes before any write. *)
Definition BookingCreateSerializer_create (now : Z) (user showtime_id : nat)
           (seat_ids : list nat) (special : string) (db : DB)
  : Response BookingInstance * DB :=
  match get_showtime db showtime_id with
  | None => (Fail (Http500 "Showtime matching query does not exist."), db)
  | Some showtime =>
      let seats_qs := filter (lockable showtime seat_ids) (seats db) in
      (* Double-check availability with lock *)
      if negb (List.length seats_qs =? List.length seat_ids) then
        (Fail (ValidationError "Some seats are no longer available"), db)
      else
        (* Calculate pricing *)
        let subtotal :=
          Decimal.sum (map (get_price_for_seat showtime) seats_qs) in
        let tax_amount :=
          Decimal.round (Decimal.mul subtotal (Decimal.mk 18 2)) 2 in
        let convenience_fee := Decimal.mk 2000 2 in
        let total_amount :=
          Decimal.add (Decimal.add subtotal tax_amount) convenience_fee in
        (* Create booking *)
        let '(pk, db) := uuid4 db in
        let booking :=
          from_row (mkBooking pk user showtime_id None
                              (to_db subtotal) (to_db tax_amount)
                              (to_db convenience_fee) (to_db total_amount)
                              Pending now (now + minutes 15)%Z None None
                              special) in
        let '(booking, db) := Booking_save now booking db in
        (* Add seats to booking *)
        let db :=
          set_booking_seats
            (booking_seats db
               ++ map (fun s => (booking_id (fields booking), seat_id s))
                      seats_qs)
            db in
        (* Update seat availability (temporary lock) *)
        let db :=
          set_seats
            (map (fun s => if lockable showtime seat_ids s then hold s else s)
                 (seats db))
            db in
        (Ok booking, db)
  end.

(** Python's [int(x)] on a float: the fraction is dropped, so the result is
    rounded toward zero. *)
Definition int_of_float (x : Q) : Z := Z.quot (Qnum x) (Zpos (Qden x)).

(** [CancellationPolicy.get_applicable_policy].  [hours_before_show] is a
    [PositiveIntegerField]: Django prepares the value of the lookup
    [hours_before_show__lte] for the column with [int(...)], so the
    thresholds are compared with the hours rounded toward zero. *)
Definition get_applicable_policy (db : DB) (hours_before : Q)
  : option CancellationPolicy :=
  first_desc
    (fun p => Z.of_nat (hours_before_show p))
    (filter (fun p => (Z.of_nat (hours_before_show p)
                       <=? int_of_float hours_before)%Z
                      && policy_is_active p)
            (policies db)).

(** [BookingCancelSerializer.validate] *)
Definition BookingCancelSerializer_validate (db : DB) (now : Z)
           (booking : Booking) : Response CancellationPolicy :=
  (* Check if booking can be cancelled *)
  if negb (BookingStatus_eqb (status booking) Confirmed
           || BookingStatus_eqb (status booking) Pending) then
    Fail (ValidationError "This booking cannot be cancelled")
  else
    match get_showtime db (booking_showtime booking) with
    | None => Fail (Http500 "Showtime matching query does not exist.")
    | Some showtime =>
        (* Check cancellation policy *)
        let hours_before := hours_of (show_datetime showtime - now) in
        match get_applicable_policy db hours_before with
        | Some policy =>
            if is_refundable policy then Ok policy
            else Fail (ValidationError "Cancellation not allowed at this time")
        | None => Fail (ValidationError "Cancellation not allowed at this time")
        end
    end.

(* ================================================================= *)
(** ** bookings/views.py

    A request carries its identifiers and its choice of a gateway as the
    fields of the serializers parse them, its texts as they were sent; the
    outcome of each call to the payment gateway is part of the request.
    Every field that a serializer requires is present and a text field
    holds text: a request that leaves a required field out is refused by
    the same field checks and is not represented. *)

Record CreateBookingRequest := mkCreateBookingRequest {
  create_user : nat;
  create_showtime_id : nat;
  seat_ids : list nat;
  create_special_requests : string
}.

(** [CreateBookingView.create] *)
Definition CreateBookingView_create (now : Z) (request : CreateBookingRequest)
           (db : DB) : Response Booking * DB :=
  match get_showtime db (create_showtime_id request) with
  | None => (Fail Http404, db)
  | Some showtime =>
      (* Check if showtime is active and not in the past *)
      if negb (showtime_is_active showtime) then
        (Fail (Http400 "This showtime is not available for booking"), db)
      else if (show_datetime showtime <=? now)%Z then
        (Fail (Http400 "Cannot book seats for past showtimes"), db)
      else
        (* Create booking *)
        match BookingCreateSerializer_is_valid db showtime (seat_ids request)
        with
        | Fail e => (Fail e, db)
        | Ok validated =>
            match BookingCreateSerializer_create
                    now (create_user request) (create_showtime_id request)
                    validated (create_special_requests request) db
            with
            | (Fail e, _) => (Fail e, db)
            | (Ok booking, db) =>
                (* Log booking creation *)
                let db :=
                  BookingHistory_create
                    (booking_id (fields booking)) None Pending
                    (Some (create_user request)) "Booking created" now db in
                (Ok (fields booking), db)
            end
        end
  end.

(** What [payment_gateway.create_order] returns: a dictionary with the
    order of the gateway and, under ['amount'], [transaction.amount]. *)
Record PaymentData := mkPaymentData {
  order_id : string;
  payment_payload : string
}.

(** The request of [InitiatePaymentView], with the fields of
    [PaymentInitiateSerializer] parsed: a gateway among the choices of
    [Transaction.GATEWAY_CHOICES]; the optional [return_url] and
    [cancel_url] are well-formed and not represented. *)
Record InitiatePaymentRequest := mkInitiatePaymentRequest {
  initiate_user : nat;
  initiate_booking_id : nat;
  initiate_gateway : Gateway;
  (** the result of [create_order], [None] when the call raises *)
  initiate_order : option PaymentData
}.

(** [InitiatePaymentView.create].  The view is not atomic: the row that
    [Transaction.objects.create] has written stays when a later statement
    raises. *)
Definition InitiatePaymentView_create (now : Z)
           (request : InitiatePaymentRequest) (db : DB)
  : Response Transaction * DB :=
  match get_user_booking db (initiate_booking_id request)
                         (initiate_user request) with
  | None => (Fail Http404, db)
  | Some row =>
      let booking := from_row row in
      (* Validate booking status *)
      if negb (BookingStatus_eqb (status (fields booking)) Pending) then
        (Fail (Http400 "Payment can only be made for pending bookings"), db)
      (* Check if booking has expired *)
      else if (expires_at (fields booking) <=? now)%Z then
        let booking := on_fields (with_status Expired) booking in
        let '(booking, db) := Booking_save now booking db in
        (* Release seats *)
        let db := seats_update (booking_id (fields booking)) true db in
        (Fail (Http400 "Booking has expired"), db)
      else
        (* Create transaction record *)
        let '(pk, db) := uuid4 db in
        let transaction_obj :=
          mkTransactionInstance
            (mkTransaction pk (booking_id (fields booking)) None
                           (initiate_gateway request) EmptyString EmptyString
                           (total_amount (fields booking)) "INR" TInitiated
                           now None "{}" EmptyString)
            (Some booking) in
        let '(transaction_obj, db) := Transaction_save now transaction_obj db in
        (* Initialize payment gateway *)
        if negb (get_gateway (initiate_gateway request)) then
          (Fail (Http500 "Payment initiation failed. Please try again."), db)
        else
          (* Create payment order *)
          match initiate_order request with
          | None =>
              (Fail (Http500 "Payment initiation failed. Please try again."),
               db)
          | Some payment_data =>
              (* Update transaction with gateway response: [payment_data]
                 holds [transaction.amount], a [Decimal], which the
                 JSONField [gateway_response] cannot serialize;
                 [transaction_obj.save()] raises [TypeError] before it
                 writes, and the view answers as for any exception *)
              (Fail (Http500 "Payment initiation failed. Please try again."),
               db)
          end
  end.

(** The request of [ConfirmPaymentView]: [transaction_id] as the
    identifier it names, the two other fields of [PaymentConfirmSerializer]
    as they were sent. *)
Record ConfirmPaymentRequest := mkConfirmPaymentRequest {
  confirm_user : nat;
  confirm_booking_id : nat;
  confirm_transaction_id : nat;
  confirm_gateway_transaction_id : string;
  (** [None] is [null] *)
  confirm_gateway_response : option string;
  (** the result of [verify_payment] *)
  is_valid : bool
}.

(** [serializer.is_valid] of [PaymentConfirmSerializer]: the messages of
    the refused fields, or the validated [gateway_transaction_id] and
    [gateway_response].  The text of [transaction_id] names an identifier,
    so it is not blank. *)
Definition PaymentConfirmSerializer_is_valid (request : ConfirmPaymentRequest)
  : Response (string * string) :=
  match refused
          [("gateway_transaction_id"%string,
            CharField_errors None (confirm_gateway_transaction_id request));
           ("gateway_response"%string,
            JSONField_errors (confirm_gateway_response request))],
        confirm_gateway_response request
  with
  | [], Some gateway_response =>
      Ok (CharField_value (confirm_gateway_transaction_id request),
          gateway_response)
  | errors, _ => Fail (FieldErrors errors)
  end.

(** [Transaction.objects.get(transaction_id=..., booking=booking)] *)
Definition get_booking_transaction (db : DB) (tid booking : nat)
  : option Transaction :=
  find (fun t => match transaction_id t with
                 | Some i => (i =? tid) && (txn_booking t =? booking)
                 | None => false
                 end)
       (transactions db).

(** [ConfirmPaymentView.update] *)
Definition ConfirmPaymentView_update (now : Z) (request : ConfirmPaymentRequest)
           (db : DB) : Response Booking * DB :=
  match get_user_booking db (confirm_booking_id request)
                         (confirm_user request) with
  | None => (Fail Http404, db)
  | Some row =>
      let booking := from_row row in
      match PaymentConfirmSerializer_is_valid request with
      | Fail e => (Fail e, db)
      | Ok (gateway_transaction_id, gateway_response) =>
      match get_booking_transaction db (confirm_transaction_id request)
                                    (booking_id (fields booking)) with
      | None => (Fail (Http400 "Invalid transaction"), db)
      | Some trow =>
          let transaction_obj := mkTransactionInstance trow None in
          (* Verify payment with gateway *)
          if negb (get_gateway (gateway (txn_fields transaction_obj))) then
            (Fail (Http500
                     "Payment confirmation failed. Please contact support."),
             db)
          else if is_valid request then
            (* Payment successful *)
            let transaction_obj :=
              on_txn_fields (with_txn_status TSuccess) transaction_obj in
            let transaction_obj :=
              on_txn_fields
                (with_gateway_transaction_id gateway_transaction_id)
                transaction_obj in
            let transaction_obj :=
              on_txn_fields (with_completed_at (Some now)) transaction_obj in
            let transaction_obj :=
              on_txn_fields
                (with_gateway_response gateway_response)
                transaction_obj in
            let '(transaction_obj, db) :=
              Transaction_save now transaction_obj db in
            (* Update booking status *)
            let booking := on_fields (with_status Confirmed) booking in
            let booking := on_fields (with_confirmed_at (Some now)) booking in
            let '(booking, db) := Booking_save now booking db in
            (* Log status change *)
            let db :=
              BookingHistory_create
                (booking_id (fields booking)) (Some Pending) Confirmed
                (Some (confirm_user request)) "Payment completed successfully"
                now db in
            (* Send confirmation email (async) *)
            let db :=
              delay (send_booking_confirmation_task
                       (booking_id (fields booking))) db in
            (Ok (fields booking), db)
          else
            (* Payment failed *)
            let transaction_obj :=
              on_txn_fields (with_txn_status TFailed) transaction_obj in
            let transaction_obj :=
              on_txn_fields (with_failure_reason "Payment verification failed")
                            transaction_obj in
            let transaction_obj :=
              on_txn_fields
                (with_gateway_response gateway_response)
                transaction_obj in
            let '(transaction_obj, db) :=
              Transaction_save now transaction_obj db in
            (Fail (Http400 "Payment verification failed"), db)
      end
      end
  end.

Record CancelBookingRequest := mkCancelBookingRequest {
  cancel_user : nat;
  cancel_booking_id : nat;
  reason : string
}.

(** The field [reason = CharField(max_length=500)] of
    [BookingCancelSerializer]. *)
Definition reason_errors (request : CancelBookingRequest) : list string :=
  CharField_errors (Some 500) (reason request).

Record CancelResponse := mkCancelResponse {
  cancelled_booking : Booking;
  response_refund_amount : Decimal;
  response_cancellation_fee : Decimal
}.

(** [booking.transactions.filter(status='success').first()], under the
    ordering [-initiated_at] of [Transaction]. *)
Definition successful_transaction (db : DB) (booking : nat)
  : option Transaction :=
  first_desc initiated_at
             (filter (fun t => (txn_booking t =? booking)
                               && TransactionStatus_eqb (txn_status t) TSuccess)
                     (transactions db)).

(** [Refund.objects.create(...)] *)
Definition Refund_create (booking transaction : nat)
           (amount refund_amount cancellation_fee : Decimal) (reason : string)
           (now : Z) (db : DB) : nat * DB :=
  let '(pk, db) := uuid4 db in
  let '(ref, db) := generate_reference db in
  (pk,
   set_refunds
     (refunds db
        ++ [mkRefund pk booking transaction ref (to_db amount)
                     (to_db refund_amount) (to_db cancellation_fee)
                     RInitiated reason now])
     db).

(** [CancelBookingView.update].  [is_valid] checks the field [reason]
    first and calls [validate] only when the field is accepted. *)
Definition CancelBookingView_update (now : Z) (request : CancelBookingRequest)
           (db : DB) : Response CancelResponse * DB :=
  match get_user_booking db (cancel_booking_id request) (cancel_user request)
  with
  | None => (Fail Http404, db)
  | Some row =>
      let booking := from_row row in
      match refused [("reason"%string, reason_errors request)] with
      | (_ :: _) as errors => (Fail (FieldErrors errors), db)
      | [] =>
      match BookingCancelSerializer_validate db now row with
      | Fail e => (Fail e, db)
      | Ok policy =>
          let reason := CharField_value (reason request) in
          (* Calculate refund amount *)
          let cancellation_fee_amount :=
            Decimal.div100
              (Decimal.mul (from_db (total_amount (fields booking)))
                           (from_db (cancellation_fee_percentage policy))) in
          let refund_amount :=
            Decimal.sub (from_db (total_amount (fields booking)))
                        cancellation_fee_amount in
          (* Update booking status *)
          let previous_status := status (fields booking) in
          let booking := on_fields (with_status Cancelled) booking in
          let booking := on_fields (with_cancelled_at (Some now)) booking in
          let '(booking, db) := Booking_save now booking db in
          (* Release seats *)
          let db := seats_update (booking_id (fields booking)) true db in
          (* Log status change *)
          let db :=
            BookingHistory_create
              (booking_id (fields booking)) (Some previous_status) Cancelled
              (Some (cancel_user request)) reason now db in
          (* Create refund record if booking was paid *)
          let db :=
            if BookingStatus_eqb (status (fields booking)) Confirmed then
              match successful_transaction db (booking_id (fields booking))
              with
              | Some successful =>
                  let '(refund, db) :=
                    Refund_create
                      (booking_id (fields booking)) (txn_pk successful)
                      (from_db (total_amount (fields booking)))
                      refund_amount cancellation_fee_amount reason now db in
                  (* Initiate refund with payment gateway (async) *)
                  delay (process_refund_task refund) db
              | None => db
              end
            else db in
          (* Send cancellation confirmation (async) *)
          let db :=
            delay (send_cancellation_confirmation_task
                     (booking_id (fields booking))) db in
          (Ok (mkCancelResponse
                 (fields booking)
                 (if Decimal.truthy refund_amount then refund_amount
                  else Decimal.of_int 0)
                 cancellation_fee_amount),
           db)
      end
      end
  end.

(** What [payment_gateway.handle_webhook] returns: a dictionary with
    ['success': False], or an event with its status, the transaction
    identifier found in the payload and a failure reason. *)
Inductive WebhookStatus := wh_success | wh_failed.

Inductive WebhookResult :=
| webhook_rejected
| webhook_event (status : WebhookStatus) (transaction : option nat)
                (failure : string).

Record WebhookRequest := mkWebhookRequest {
  (** the parameter [gateway] of the query string *)
  webhook_gateway : Gateway;
  (** [request.data], the parsed body *)
  webhook_data : string
}.

(** [payment_gateway.handle_webhook(request.data, request.META)], the call
    of [payment_webhook].  The gateways expect the headers of the request;
    [request.META] holds a header under the name that WSGI gives it
    ([HTTP_X_RAZORPAY_SIGNATURE], [HTTP_STRIPE_SIGNATURE]), so looking up
    the name of the header finds nothing.
    - [RazorpayGateway]: the signature is the default [''].
      [payload.encode('utf-8')] raises on the parsed body unless the body
      is a JSON string, and then [compare_digest] compares [''] with the 64
      digits of the expected signature.
    - [StripeGateway]: [construct_event] is called with the signature
      header [None] and raises.
    Either way the method returns [{'success': False, ...}]: no event
    reaches the view. *)
Definition handle_webhook (gateway : Gateway) (payload : string)
  : WebhookResult :=
  webhook_rejected.

(** [Transaction.objects.get(transaction_id=transaction_id)] *)
Definition get_transaction (db : DB) (tid : option nat) : option Transaction :=
  match tid with
  | None => None
  | Some i =>
      find (fun t => match transaction_id t with
                     | Some j => j =? i
                     | None => false
                     end)
           (transactions db)
  end.

(** An assignment to a field of [transaction_obj.booking]: the view's
    [booking] is that cached object. *)
Definition on_booking (f : Booking -> Booking) (i : TransactionInstance)
  : TransactionInstance :=
  mkTransactionInstance
    (txn_fields i)
    (match booking_cache i with
     | Some b => Some (on_fields f b)
     | None => None
     end).

(** [payment_webhook] *)
Definition payment_webhook (now : Z) (request : WebhookRequest) (db : DB)
  : Response unit * DB :=
  if negb (get_gateway (webhook_gateway request)) then
    (Fail (Http500 "error"), db)
  else
    match handle_webhook (webhook_gateway request) (webhook_data request) with
    | webhook_rejected => (Ok tt, db)
    | webhook_event event_status tid failure =>
        match get_transaction db tid with
        | None => (Fail (Http500 "error"), db)
        | Some trow =>
            match instance_booking (mkTransactionInstance trow None) db with
            | (None, _) => (Fail (Http500 "error"), db)
            | (Some _, transaction_obj) =>
                (* Update transaction status based on webhook *)
                let '(transaction_obj, db) :=
                  match event_status with
                  | wh_success =>
                      let transaction_obj :=
                        on_txn_fields (with_txn_status TSuccess)
                                      transaction_obj in
                      let transaction_obj :=
                        on_txn_fields (with_completed_at (Some now))
                                      transaction_obj in
                      let transaction_obj :=
                        on_booking (with_status Confirmed) transaction_obj in
                      let transaction_obj :=
                        on_booking (with_confirmed_at (Some now))
                                   transaction_obj in
                      (* Send confirmation email *)
                      (transaction_obj,
                       delay (send_booking_confirmation_task (txn_booking trow))
                             db)
                  | wh_failed =>
                      let transaction_obj :=
                        on_txn_fields (with_txn_status TFailed)
                                      transaction_obj in
                      let transaction_obj :=
                        on_txn_fields (with_failure_reason failure)
                                      transaction_obj in
                      (* Release seats if payment failed *)
                      (transaction_obj,
                       seats_update (txn_booking trow) true db)
                  end in
                let transaction_obj :=
                  on_txn_fields (with_gateway_response (webhook_data request))
                                transaction_obj in
                let '(transaction_obj, db) :=
                  Transaction_save now transaction_obj db in
                match booking_cache transaction_obj with
                | Some booking =>
                    let '(_, db) := Booking_save now booking db in
                    (Ok tt, db)
                | None => (Ok tt, db)
                end
            end
        end
    end.

(** [extend_booking_timer] *)
Definition extend_booking_timer (now : Z) (user pk : nat) (db : DB)
  : Response Z * DB :=
  match find (fun b => (booking_id b =? pk)
                       && (booking_user b =? user)
                       && BookingStatus_eqb (status b) Pending)
             (bookings db) with
  | None => (Fail Http404, db)
  | Some row =>
      let booking := from_row row in
      (* Check if already extended *)
      if negb (is_none (_timer_extended booking)) then
        (Fail (Http400 "Booking timer can only be extended once"), db)
      else
        (* Check if booking is close to expiry (within 2 minutes) *)
        let time_remaining := (expires_at (fields booking) - now)%Z in
        if (seconds 120 <? time_remaining)%Z then
          (Fail (Http400
                   "Timer extension only available when booking is about to expire"),
           db)
        else
          (* Extend by 10 minutes *)
          let booking :=
            on_fields (with_expires_at (now + minutes 10)%Z) booking in
          let booking :=
            mkBookingInstance (fields booking) (_status_changed booking)
                              (_old_status booking) (Some true) in
          let '(booking, db) := Booking_save now booking db in
          (Ok (expires_at (fields booking)), db)
  end.

(* ================================================================= *)
(** ** bookings/tasks.py *)

(** [send_booking_confirmation], in the branch where the mail is sent: the
    task records a notification for the booking. *)
Definition send_booking_confirmation (now : Z) (booking_id : nat) (db : DB)
  : DB :=
  match get_booking db booking_id with
  | Some booking =>
      let '(pk, db) := uuid4 db in
      set_notifications
        (notifications db
           ++ [mkNotification pk booking_id booking_confirmed
                              (booking_user booking) now])
        db
  | None => db
  end.

(* ================================================================= *)
(** ** Vocabulary of the statements *)

(** *** Integrity of the stored data

    What the database constraints and [save] guarantee: primary keys are
    unique and were drawn from the key source, and a stored booking or
    transaction has its reference. *)

Fixpoint distinct (l : list nat) : bool :=
  match l with
  | [] => true
  | x :: r => negb (mem x r) && distinct r
  end.

Definition consistent (db : DB) : bool :=
  distinct (map seat_id (seats db))
  && distinct (map booking_id (bookings db))
  && distinct (map txn_pk (transactions db))
  && forallb (fun b => booking_id b <? next_uuid db) (bookings db)
  && forallb (fun p => fst p <? next_uuid db) (booking_seats db)
  && forallb (fun h => history_booking h <? next_uuid db) (history db)
  && forallb (fun b => negb (is_none (booking_reference b))) (bookings db)
  && forallb (fun t => negb (is_none (transaction_id t))) (transactions db).

(** A booking whose receivers have nothing to complete: a confirmed
    booking has [confirmed_at], a cancelled one has [cancelled_at]. *)
Definition quiet (b : Booking) : bool :=
  negb (BookingStatus_eqb (status b) Confirmed && is_none (confirmed_at b))
  && negb (BookingStatus_eqb (status b) Cancelled && is_none (cancelled_at b)).

(** The part of [Booking.save] that comes before the last two receivers. *)
Definition save_prefix (update_fields : option BookingField) (now : Z)
           (self : BookingInstance) (db : DB) : BookingInstance * DB :=
  let '(self, db) :=
    match booking_reference (fields self) with
    | Some _ => (self, db)
    | None =>
        let '(ref, db) := generate_reference db in
        (on_fields (with_booking_reference (Some ref)) self, db)
    end in
  let self := track_booking_status_change self db in
  let created :=
    is_none update_fields
    && negb (has_row booking_id (booking_id (fields self)) (bookings db)) in
  let db := write_booking update_fields (fields self) db in
  create_booking_history now self created db.

(** The reason that the receiver writes for a status change. *)
Definition status_change_reason (old new : BookingStatus) : string :=
  ("Status changed from " ++ BookingStatus_str old ++ " to "
     ++ BookingStatus_str new)%string.

(** The booking row that [BookingCreateSerializer.create] builds from the
    seats it locks. *)
Definition created_booking (now : Z) (request : CreateBookingRequest)
           (showtime : Showtime) (held : list Seat) (pk : nat) : Booking :=
  let subtotal := Decimal.sum (map (get_price_for_seat showtime) held) in
  let tax_amount := Decimal.round (Decimal.mul subtotal (Decimal.mk 18 2)) 2 in
  let convenience_fee := Decimal.mk 2000 2 in
  let total_amount :=
    Decimal.add (Decimal.add subtotal tax_amount) convenience_fee in
  mkBooking pk (create_user request) (create_showtime_id request)
            (Some (S pk)) (to_db subtotal) (to_db tax_amount)
            (to_db convenience_fee) (to_db total_amount) Pending now
            (now + minutes 15)%Z None None (create_special_requests request).

(** *** Amounts and history *)

Definition sumZ (l : list Z) : Z := fold_right Z.add 0%Z l.

Definition previous_eqb (a b : option BookingStatus) : bool :=
  match a, b with
  | None, None => true
  | Some x, Some y => BookingStatus_eqb x y
  | _, _ => false
  end.

(** The history rows of a booking for one transition; the creation of the
    booking is the transition from no status to pending. *)
Definition transition_rows (db : DB) (booking : nat)
           (previous : option BookingStatus) (new : BookingStatus)
  : list BookingHistory :=
  filter (fun h => (history_booking h =? booking)
                   && previous_eqb (previous_status h) previous
                   && BookingStatus_eqb (new_status h) new)
         (history db).

(** The history rows of a booking that end in a given status. *)
Definition rows_to (db : DB) (booking : nat) (new : BookingStatus)
  : list BookingHistory :=
  filter (fun h => (history_booking h =? booking)
                   && BookingStatus_eqb (new_status h) new)
         (history db).

(* ================================================================= *)
(** ** Vocabulary of the statements: time and prices *)

(** A policy whose threshold is within the time [delta] (in microseconds)
    left before the show, as the lookup of [get_applicable_policy] sees it:
    the threshold in hours is at most the time left, or the threshold is
    zero and the show began less than an hour ago. *)
Definition in_time (delta : Z) (p : CancellationPolicy) : Prop :=
  (hours (Z.of_nat (hours_before_show p)) <= delta)%Z
  \/ (hours_before_show p = 0 /\ (- hours 1 < delta)%Z).

(** The price of a seat type at a showtime, in hundredths: recliner and
    premium seats have their own price, every other seat the base price. *)
Definition type_price (showtime : Showtime) (type : SeatType) : Z :=
  match type with
  | recliner => recliner_price showtime
  | premium => premium_price showtime
  | regular | couple => base_price showtime
  end.

(* ================================================================= *)
(** ** A worked scenario

    One screen with three seats, one showtime two days ahead at 150.00,
    200.00 and 300.00, one policy that refunds until four hours before the
    show.  User 42 asks for seats 1 and 2 at time 0. *)

(** The rows of a booking as the endpoint stores them once the seats are
    validated: what [serializer.save()], that is
    [BookingCreateSerializer.create], and the creation entry of
    [CreateBookingView.create] write. *)
Definition store_booking (now : Z) (request : CreateBookingRequest) (db : DB)
  : DB :=
  match BookingCreateSerializer_create
          now (create_user request) (create_showtime_id request)
          (seat_ids request) (create_special_requests request) db
  with
  | (Ok booking, db') =>
      BookingHistory_create (booking_id (fields booking)) None Pending
                            (Some (create_user request)) "Booking created"
                            now db'
  | (Fail _, _) => db
  end.

Module Scenario.

Definition user : nat := 42.

Definition seat1 := mkSeat 1 7 "A" 1 regular 10000 true false.
Definition seat2 := mkSeat 2 7 "A" 2 regular 10000 true false.
Definition seat3 := mkSeat 3 7 "A" 3 premium 10000 true false.

Definition show :=
  mkShowtime 10 5 7 (hours 48) 15000 20000 30000 true false.

Definition four_hours :=
  mkPolicy "Refund until four hours before the show" 4 1000 true true.

Definition initial : DB :=
  mkDB [seat1; seat2; seat3] [show] [] [] [] [] [] [four_hours] [] [] 100.

(** The request for seats 1 and 2, which the endpoint answers with an
    error (see [validate_seat_ids]). *)
Definition create_request := mkCreateBookingRequest user 10 [1; 2] EmptyString.
Definition created := CreateBookingView_create 0 create_request initial.

(** The booking of the scenario, stored with the key 100; it expires at
    minute 15. *)
Definition booked : DB := store_booking 0 create_request initial.

(** The first transaction gets the key 104 and the identifier 105; it
    stays in the table although the request is answered with an error. *)
Definition initiate_request :=
  mkInitiatePaymentRequest user 100 razorpay
                           (Some (mkPaymentData "order_1" "{}")).
Definition initiated :=
  InitiatePaymentView_create (minutes 1) initiate_request booked.

Definition confirm_request :=
  mkConfirmPaymentRequest user 100 105 "pay_1" (Some "{}"%string) true.
Definition confirmed :=
  ConfirmPaymentView_update (minutes 2) confirm_request (snd initiated).
Definition paid : DB := snd confirmed.
Definition confirmed_again :=
  ConfirmPaymentView_update (minutes 3) confirm_request paid.

(** The same confirmation, sent at the very time the booking expires. *)
Definition confirmed_late :=
  ConfirmPaymentView_update (minutes 15) confirm_request (snd initiated).
Definition initiated_late :=
  InitiatePaymentView_create (minutes 15) initiate_request booked.

Definition cancel_request :=
  mkCancelBookingRequest user 100 "Change of plans".
Definition cancelled :=
  CancelBookingView_update (minutes 5) cancel_request paid.
(** Two hours before the show. *)
Definition cancelled_late :=
  CancelBookingView_update (hours 46) cancel_request paid.

(** The gateway announces the payment of transaction 105. *)
Definition webhook_request := mkWebhookRequest razorpay "payment.captured".
Definition notified :=
  payment_webhook (minutes 2) webhook_request (snd initiated).
Definition notified_again :=
  payment_webhook (minutes 3) webhook_request paid.

Definition extended := extend_booking_timer (minutes 14) user 100 booked.
Definition extended_again :=
  extend_booking_timer (minutes 23) user 100 (snd extended).

(** A second payment attempt: key 106, identifier 107. *)
Definition retried :=
  InitiatePaymentView_create (minutes 2) initiate_request (snd initiated).
Definition retry_request :=
  mkConfirmPaymentRequest user 100 107 "pay_2" (Some "{}"%string) true.
Definition first_paid :=
  ConfirmPaymentView_update (minutes 3) confirm_request (snd retried).
Definition second_paid :=
  ConfirmPaymentView_update (minutes 4) retry_request (snd first_paid).

End Scenario.

(* ================================================================= *)
(** ** bookings/tasks.py: the sweeper *)

(** [queryset.order_by('-key')]: the rows by decreasing key, rows of equal
    key in the order of the table. *)
Fixpoint insert_desc {A : Type} (key : A -> Z) (x : A) (l : list A) : list A :=
  match l with
  | [] => [x]
  | y :: r => if (key x <? key y)%Z then y :: insert_desc key x r
              else x :: y :: r
  end.

Definition order_desc {A : Type} (key : A -> Z) (l : list A) : list A :=
  fold_right (insert_desc key) [] l.

(** The body of the loop of [expire_pending_bookings] for one booking of
    the queryset. *)
Definition expire_booking (now : Z) (db : DB) (row : Booking) : DB :=
  (* Update booking status *)
  let booking := on_fields (with_status Expired) (from_row row) in
  let '(booking, db) := Booking_save now booking db in
  (* Release seats *)
  let db := seats_update (booking_id (fields booking)) true db in
  (* Create history record *)
  BookingHistory_create (booking_id (fields booking)) (Some Pending) Expired
                        None "Booking expired due to timeout" now db.

(** The filter [status='pending', expires_at__lt=timezone.now()]. *)
Definition overdue (now : Z) (b : Booking) : bool :=
  BookingStatus_eqb (status b) Pending && (expires_at b <? now)%Z.

(** The queryset of [expire_pending_bookings], in the default ordering
    [-booked_at] of [Booking]. *)
Definition expired_bookings (now : Z) (db : DB) : list Booking :=
  order_desc booked_at (filter (overdue now) (bookings db)).

(** [expire_pending_bookings]: the number of bookings expired and the
    database after the run. *)
Definition expire_pending_bookings (now : Z) (db : DB) : nat * DB :=
  let queryset := expired_bookings now db in
  (List.length queryset, fold_left (expire_booking now) queryset db).

(** [send_cancellation_confirmation], in the branch where the mail is
    sent. *)
Definition send_cancellation_confirmation (now : Z) (booking_id : nat)
           (db : DB) : DB :=
  match get_booking db booking_id with
  | Some booking =>
      let '(pk, db) := uuid4 db in
      set_notifications
        (notifications db
           ++ [mkNotification pk booking_id booking_cancelled
                              (booking_user booking) now])
        db
  | None => db
  end.

(* ================================================================= *)
(** ** bookings/serializers.py: [BookingDetailSerializer] *)

(** [get_cancellation_allowed]; [None] is the [None] that
    [policy and policy.is_refundable] gives when there is no policy. *)
Definition get_cancellation_allowed (db : DB) (now : Z) (obj : Booking)
  : option bool :=
  if negb (BookingStatus_eqb (status obj) Confirmed
           || BookingStatus_eqb (status obj) Pending) then Some false
  else
    match get_showtime db (booking_showtime obj) with
    | None => None
    | Some showtime =>
        let hours_before := hours_of (show_datetime showtime - now) in
        match get_applicable_policy db hours_before with
        | Some policy => Some (is_refundable policy)
        | None => None
        end
    end.

(* ================================================================= *)
(** ** bookings/admin.py: the actions of [BookingAdmin]

    [queryset.update(...)] writes the columns of the selected rows and sends
    no signal. *)

(** [mark_confirmed] on the rows selected in the change list. *)
Definition mark_confirmed (now : Z) (selected : list nat) (db : DB)
  : nat * DB :=
  let hit b := mem (booking_id b) selected
               && BookingStatus_eqb (status b) Pending in
  (List.length (filter hit (bookings db)),
   set_bookings
     (map (fun b => if hit b
                    then with_confirmed_at (Some now) (with_status Confirmed b)
                    else b)
          (bookings db))
     db).

(** [mark_cancelled] on the rows selected in the change list. *)
Definition mark_cancelled (now : Z) (selected : list nat) (db : DB)
  : nat * DB :=
  let hit b := mem (booking_id b) selected
               && (BookingStatus_eqb (status b) Pending
                   || BookingStatus_eqb (status b) Confirmed) in
  (List.length (filter hit (bookings db)),
   set_bookings
     (map (fun b => if hit b
                    then with_cancelled_at (Some now) (with_status Cancelled b)
                    else b)
          (bookings db))
     db).

(* ================================================================= *)
(** ** bookings/urls.py: the requests of the application *)

Inductive Request :=
| create_booking (request : CreateBookingRequest)
| initiate_payment (request : InitiatePaymentRequest)
| confirm_payment (request : ConfirmPaymentRequest)
| cancel_booking (request : CancelBookingRequest)
| extend_timer (user booking : nat)
| webhook_payment (request : WebhookRequest)
(** the periodic task and the workers of the queue *)
| sweep
| deliver_confirmation (booking : nat)
| deliver_cancellation (booking : nat)
(** the actions of the administrator *)
| admin_mark_confirmed (selected : list nat)
| admin_mark_cancelled (selected : list nat).

(** The database after a request. *)
Definition handle (now : Z) (r : Request) (db : DB) : DB :=
  match r with
  | create_booking request => snd (CreateBookingView_create now request db)
  | initiate_payment request => snd (InitiatePaymentView_create now request db)
  | confirm_payment request => snd (ConfirmPaymentView_update now request db)
  | cancel_booking request => snd (CancelBookingView_update now request db)
  | extend_timer user booking => snd (extend_booking_timer now user booking db)
  | webhook_payment request => snd (payment_webhook now request db)
  | sweep => snd (expire_pending_bookings now db)
  | deliver_confirmation booking => send_booking_confirmation now booking db
  | deliver_cancellation booking => send_cancellation_confirmation now booking db
  | admin_mark_confirmed selected => snd (mark_confirmed now selected db)
  | admin_mark_cancelled selected => snd (mark_cancelled now selected db)
  end.

(** The database after a sequence of requests, each with its time. *)
Definition run (requests : list (Z * Request)) (db : DB) : DB :=
  fold_left (fun db r => handle (fst r) (snd r) db) requests db.

(* ================================================================= *)
(** ** Vocabulary of the statements, continued *)

(** A seat made available. *)
Definition release (s : Seat) : Seat :=
  mkSeat (seat_id s) (seat_screen s) (seat_row s) (seat_number s)
         (seat_type s) (seat_base_price s) true (is_blocked s).

(** What a history row records, apart from its key. *)
Definition history_facts (h : BookingHistory) :=
  (history_booking h, previous_status h, new_status h, changed_by h,
   history_reason h, changed_at h).

(** The two entries of the expiry of a booking at time [now]: the one of
    the receiver and the one of the sweeper, both without a user. *)
Definition expiry_facts (now : Z) (booking : nat) :=
  [(booking, Some Pending, Expired, @None nat,
    "Status changed from pending to expired"%string, now);
   (booking, Some Pending, Expired, @None nat,
    "Booking expired due to timeout"%string, now)].

(** What identifies a seat, a booking and a transaction and is fixed when
    the row is written first. *)
Definition seat_static (s : Seat) :=
  (seat_id s, seat_screen s, seat_row s, seat_number s, seat_type s,
   seat_base_price s, is_blocked s).

Definition booking_static (b : Booking) :=
  (booking_id b, booking_user b, booking_showtime b, booking_reference b,
   (subtotal b, tax_amount b, convenience_fee b, total_amount b),
   booked_at b, special_requests b).

Definition txn_static (t : Transaction) :=
  (txn_pk t, txn_booking t, transaction_id t, gateway t, amount t, currency t,
   initiated_at t).

(** How a request may change the database: rows are added at the end of
    their table and never removed; of a stored row only the fields outside
    its static part change; prices, showtimes and policies stay. *)
Record Evolves (db db' : DB) : Prop := mkEvolves {
  ev_seats : map seat_static (seats db') = map seat_static (seats db);
  ev_showtimes : showtimes db' = showtimes db;
  ev_policies : policies db' = policies db;
  ev_bookings :
    exists l, map booking_static (bookings db')
              = map booking_static (bookings db) ++ l;
  ev_booking_seats : exists l, booking_seats db' = booking_seats db ++ l;
  ev_transactions :
    exists l, map txn_static (transactions db')
              = map txn_static (transactions db) ++ l;
  ev_history : exists l, history db' = history db ++ l;
  ev_refunds : exists l, refunds db' = refunds db ++ l;
  ev_notifications : exists l, notifications db' = notifications db ++ l;
  ev_celery : exists l, celery db' = celery db ++ l;
  ev_uuid : next_uuid db <= next_uuid db'
}.

(** The integrity of the stored data, with the keys of the transactions
    drawn from the key source as well. *)
Definition sound (db : DB) : bool :=
  consistent db
  && forallb (fun t => txn_pk t <? next_uuid db) (transactions db).

(** A request kept the data sound. *)
Definition Kept (db db' : DB) : Prop :=
  sound db' = true /\ Evolves db db'.

(** The object corresponds to a stored row. *)
Definition stored (b : Booking) (db : DB) : Prop :=
  In (booking_static b) (map booking_static (bookings db)).

Definition txn_stored (t : Transaction) (db : DB) : Prop :=
  In (txn_static t) (map txn_static (transactions db)).

(** The object cached on a transaction corresponds to a stored booking. *)
Definition cache_stored (t : TransactionInstance) (db : DB) : Prop :=
  forall b, booking_cache t = Some b -> stored (fields b) db.

(** What the save of a booking or of one of its transactions, and a request
    about one booking, may do to the database beside writing their own rows
    and the history: release the seats of the booking and queue tasks other
    than refunds.  No other booking is touched. *)
Record SaveFrame (pk : nat) (db db' : DB) : Prop := mkSaveFrame {
  sf_booking_seats : booking_seats db' = booking_seats db;
  sf_refunds : refunds db' = refunds db;
  sf_notifications : notifications db' = notifications db;
  sf_seats :
    seats db' = seats db \/ seats db' = seats (seats_update pk true db);
  sf_celery :
    forall refund, In (process_refund_task refund) (celery db') ->
                   In (process_refund_task refund) (celery db);
  sf_bookings :
    forall x, booking_id x <> pk -> In x (bookings db) -> In x (bookings db')
}.

(** Every stored booking has the timestamp of its status: a confirmed one
    its confirmation time, a cancelled one its cancellation time. *)
Definition settled (db : DB) : bool := forallb quiet (bookings db).

(** A request left the bookings settled and scheduled no show reminder. *)
Definition Calm (db db' : DB) : Prop :=
  settled db' = true
  /\ forall eta, In (send_show_reminders_task eta) (celery db') ->
                 In (send_show_reminders_task eta) (celery db).

(** Every seat that is on sale stays on sale. *)
Definition on_sale (db db' : DB) : Prop :=
  forall s, In s (seats db) -> is_available s = true -> In s (seats db').

Definition is_creation (r : Request) : bool :=
  match r with
  | create_booking _ => true
  | _ => false
  end.

(** The user on whose behalf a request acts. *)
Definition acting_user (r : Request) : option nat :=
  match r with
  | create_booking request => Some (create_user request)
  | initiate_payment request => Some (initiate_user request)
  | confirm_payment request => Some (confirm_user request)
  | cancel_booking request => Some (cancel_user request)
  | extend_timer user _ => Some user
  | _ => None
  end.

(* ================================================================= *)
(** ** A day of requests

    The scenario above as a sequence of requests on the stored booking: it
    is paid, announced by the gateway, cancelled, and the sweeper runs;
    another user asks for seats in between. *)

Module Day.

Definition requests : list (Z * Request) :=
  [(minutes 1, initiate_payment Scenario.initiate_request);
   (minutes 2, confirm_payment Scenario.confirm_request);
   (minutes 3, webhook_payment Scenario.webhook_request);
   (minutes 4, deliver_confirmation 100);
   (minutes 4,
    create_booking (mkCreateBookingRequest 43 10 [3] EmptyString));
   (minutes 5, cancel_booking Scenario.cancel_request);
   (minutes 6, deliver_cancellation 100);
   (minutes 20, sweep)].

(** The state after the first request and what follows it. *)
Definition morning : DB := run (firstn 1 requests) Scenario.booked.
Definition afternoon : list (Z * Request) := skipn 1 requests.

End Day.

(** Another user asks for seats 2 and 3 while the first booking holds
    seats 1 and 2. *)
Module Rival.

Definition create_request := mkCreateBookingRequest 43 10 [2; 3] EmptyString.
Definition held_seat : Seat := mkSeat 2 7 "A" 2 regular 10000 false false.

(** The booking of the other user for seat 3, stored with the key 104. *)
Definition other_request := mkCreateBookingRequest 43 10 [3] EmptyString.
Definition both_booked : DB :=
  store_booking (minutes 1) other_request Scenario.booked.

End Rival.

(** The user pays with a wallet that the serializer accepts and the
    gateway factory does not know. *)
Module Wallet.

Definition initiate_request :=
  mkInitiatePaymentRequest Scenario.user 100 paytm None.

(** The gateway reports that the payment of transaction 105 is not
    valid. *)
Definition refused_request :=
  mkConfirmPaymentRequest Scenario.user 100 105 "pay_1" (Some "{}"%string) false.

(** The gateway announces that the payment failed. *)
Definition failed_event := mkWebhookRequest razorpay "payment.failed".

(** A confirmation without the identifier and the response of the
    gateway, and a cancellation with a blank reason. *)
Definition blank_request :=
  mkConfirmPaymentRequest Scenario.user 100 105 EmptyString None true.
Definition blank_cancel := mkCancelBookingRequest Scenario.user 100 " ".

End Wallet.

(** The show has begun half an hour ago, and the cinema refunds until the
    show starts. *)
Module Late.

Definition until_start :=
  mkPolicy "Refund until the show starts" 0 0 true true.

Definition stored : DB :=
  mkDB (seats Scenario.paid) (showtimes Scenario.paid)
       (bookings Scenario.paid) (booking_seats Scenario.paid)
       (transactions Scenario.paid) (history Scenario.paid)
       (refunds Scenario.paid) [Scenario.four_hours; until_start]
       (notifications Scenario.paid) (celery Scenario.paid)
       (next_uuid Scenario.paid).

Definition now : Z := (hours 48 + minutes 30)%Z.

Definition cancelled :=
  CancelBookingView_update now Scenario.cancel_request stored.

End Late.

(** A third user takes a regular and a premium seat. *)
Module Mixed.

Definition request := mkCreateBookingRequest 44 10 [1; 3] EmptyString.

Definition created :=
  BookingCreateSerializer_create 0 44 10 [1; 3] EmptyString Scenario.initial.

End Mixed.

(* ================================================================= *)
(** * Properties *)

(** * Lists and lookups *)

Lemma mem_In x l : mem x l = true <-> In x l.
Proof.
  unfold mem. rewrite existsb_exists. split.
  - intros [y [Hy E]]. apply Nat.eqb_eq in E. now subst.
  - intro H. exists x. split; [assumption | apply Nat.eqb_refl].
Qed.

Lemma distinct_NoDup l : distinct l = true -> NoDup l.
Proof.
  induction l as [|x r IH]; simpl; intro H.
  - constructor.
  - apply andb_prop in H. destruct H as [Hx Hr].
    constructor; [|auto].
    intro Hin. apply mem_In in Hin. rewrite Hin in Hx. discriminate.
Qed.

Section Keyed.
Variable A : Type.
Variable pk : A -> nat.

Lemma find_pk_In (l : list A) k r :
  find (fun x => pk x =? k) l = Some r -> In r l /\ pk r = k.
Proof.
  intro H. apply find_some in H. destruct H as [Hin E].
  apply Nat.eqb_eq in E. auto.
Qed.

Lemma find_pk_unique (l : list A) r :
  NoDup (map pk l) -> In r l -> find (fun x => pk x =? pk r) l = Some r.
Proof.
  induction l as [|x l IH]; simpl; intros Hnd Hin; [contradiction|].
  inversion Hnd as [|? ? Hx Hl]; subst.
  destruct Hin as [-> | Hin].
  - now rewrite Nat.eqb_refl.
  - destruct (pk x =? pk r) eqn:E.
    + apply Nat.eqb_eq in E. exfalso. apply Hx. rewrite E.
      now apply in_map.
    + auto.
Qed.

Lemma find_pk_fresh (l : list A) k :
  (forall x, In x l -> pk x <> k) -> find (fun x => pk x =? k) l = None.
Proof.
  induction l as [|x l IH]; simpl; intro H; [reflexivity|].
  destruct (pk x =? k) eqn:E.
  - apply Nat.eqb_eq in E. exfalso. apply (H x); auto.
  - apply IH. intros y Hy. apply H. auto.
Qed.

Lemma has_row_find (l : list A) k r :
  find (fun x => pk x =? k) l = Some r -> has_row pk k l = true.
Proof.
  intro H. apply find_some in H. unfold has_row.
  apply existsb_exists. exists r. exact H.
Qed.

Lemma has_row_fresh (l : list A) k :
  find (fun x => pk x =? k) l = None -> has_row pk k l = false.
Proof.
  intro H. unfold has_row. apply not_true_is_false. intro E.
  apply existsb_exists in E. destruct E as [x [Hin Hx]].
  apply (find_none _ _ H) in Hin. congruence.
Qed.

Lemma map_pk_update_row (r : A) (l : list A) :
  map pk (update_row pk r l) = map pk l.
Proof.
  unfold update_row. rewrite map_map. apply map_ext_in. intros x _.
  destruct (pk x =? pk r) eqn:E; [|reflexivity].
  apply Nat.eqb_eq in E. now symmetry.
Qed.

Lemma find_update_row_same (r : A) (l : list A) old :
  find (fun x => pk x =? pk r) l = Some old ->
  find (fun x => pk x =? pk r) (update_row pk r l) = Some r.
Proof.
  induction l as [|x l IH]; simpl; [discriminate|].
  destruct (pk x =? pk r) eqn:E.
  - intros _. now rewrite Nat.eqb_refl.
  - intro H. rewrite E. auto.
Qed.

Lemma find_update_row_other (r : A) (l : list A) k :
  k <> pk r ->
  find (fun x => pk x =? k) (update_row pk r l)
  = find (fun x => pk x =? k) l.
Proof.
  intro Hk. induction l as [|x l IH]; simpl; [reflexivity|].
  destruct (pk x =? pk r) eqn:E.
  - apply Nat.eqb_eq in E.
    destruct (pk r =? k) eqn:E1.
    + apply Nat.eqb_eq in E1. congruence.
    + rewrite E, E1. exact IH.
  - destruct (pk x =? k); [reflexivity | exact IH].
Qed.
End Keyed.

(** * [Booking.save] *)

Section Handlers.
Variable save :
  option BookingField -> Z -> BookingInstance -> DB -> BookingInstance * DB.

Lemma handle_booking_confirmation_quiet now i db :
  quiet (fields i) = true ->
  handle_booking_confirmation save now i db = (i, db).
Proof.
  unfold quiet, handle_booking_confirmation. intro H.
  apply andb_prop in H. destruct H as [H _].
  apply negb_true_iff in H. now rewrite H.
Qed.

Lemma handle_booking_cancellation_quiet now i db :
  quiet (fields i) = true ->
  handle_booking_cancellation save now i db
  = (i, if BookingStatus_eqb (status (fields i)) Cancelled
        then seats_update (booking_id (fields i)) true db else db).
Proof.
  unfold quiet, handle_booking_cancellation. intro H.
  apply andb_prop in H. destruct H as [_ H].
  apply negb_true_iff in H.
  destruct (BookingStatus_eqb (status (fields i)) Cancelled); [|reflexivity].
  simpl in H. now rewrite H.
Qed.
End Handlers.

Lemma track_fields i db : fields (track_booking_status_change i db) = fields i.
Proof.
  unfold track_booking_status_change.
  destruct (get_booking db (booking_id (fields i))); [|reflexivity].
  now destruct (negb _).
Qed.

Lemma create_booking_history_fields now i c db :
  fields (fst (create_booking_history now i c db)) = fields i.
Proof.
  unfold create_booking_history. destruct c; [reflexivity|].
  destruct (_status_changed i) as [[|]|]; try reflexivity.
  now destruct (_old_status i).
Qed.

Lemma Booking_save_fuel_unfold fuel uf now self db :
  Booking_save_fuel (S fuel) uf now self db =
  let '(self, db) := save_prefix uf now self db in
  let '(self, db) :=
    handle_booking_confirmation (Booking_save_fuel fuel) now self db in
  handle_booking_cancellation (Booking_save_fuel fuel) now self db.
Proof.
  unfold save_prefix. simpl.
  destruct (booking_reference (fields self)); reflexivity.
Qed.

Lemma save_prefix_quiet uf now self db :
  quiet (fields self) = true ->
  quiet (fields (fst (save_prefix uf now self db))) = true.
Proof.
  unfold save_prefix. intro H.
  destruct (booking_reference (fields self)) eqn:R.
  - rewrite create_booking_history_fields, track_fields. exact H.
  - simpl. rewrite create_booking_history_fields, track_fields. exact H.
Qed.

(** A save of a booking whose timestamps are in place runs no nested save. *)
Lemma Booking_save_fuel_quiet fuel uf now self db :
  quiet (fields self) = true ->
  Booking_save_fuel (S fuel) uf now self db =
  let '(self, db) := save_prefix uf now self db in
  (self, if BookingStatus_eqb (status (fields self)) Cancelled
         then seats_update (booking_id (fields self)) true db else db).
Proof.
  intro H. rewrite Booking_save_fuel_unfold.
  pose proof (save_prefix_quiet uf now self db H) as Hq.
  destruct (save_prefix uf now self db) as [i d]. simpl in Hq.
  rewrite handle_booking_confirmation_quiet by exact Hq.
  now rewrite handle_booking_cancellation_quiet.
Qed.

(** Two levels of nesting are all that [Booking.save] ever uses: more fuel
    changes nothing. *)
Lemma Booking_save_fuel_enough fuel uf now self db :
  Booking_save_fuel (S (S fuel)) uf now self db
  = Booking_save_fuel 2 uf now self db.
Proof.
  rewrite (Booking_save_fuel_unfold (S fuel)), (Booking_save_fuel_unfold 1).
  destruct (save_prefix uf now self db) as [i d].
  assert (Hc : handle_booking_confirmation (Booking_save_fuel (S fuel)) now i d
               = handle_booking_confirmation (Booking_save_fuel 1) now i d).
  { unfold handle_booking_confirmation.
    destruct (BookingStatus_eqb (status (fields i)) Confirmed
              && is_none (confirmed_at (fields i))) eqn:E; [|reflexivity].
    apply andb_prop in E. destruct E as [E _].
    rewrite (Booking_save_fuel_quiet fuel), (Booking_save_fuel_quiet 0).
    - reflexivity.
    - unfold quiet. simpl. rewrite E. simpl.
      destruct (status (fields i)); try discriminate; reflexivity.
    - unfold quiet. simpl. rewrite E. simpl.
      destruct (status (fields i)); try discriminate; reflexivity. }
  rewrite Hc.
  destruct (handle_booking_confirmation (Booking_save_fuel 1) now i d)
    as [i' d'].
  unfold handle_booking_cancellation.
  destruct (BookingStatus_eqb (status (fields i')) Cancelled) eqn:E;
    [|reflexivity].
  destruct (is_none (cancelled_at (fields i'))); [|reflexivity].
  rewrite (Booking_save_fuel_quiet fuel), (Booking_save_fuel_quiet 0).
  - reflexivity.
  - unfold quiet. simpl. rewrite E. simpl.
    destruct (status (fields i')); try discriminate; reflexivity.
  - unfold quiet. simpl. rewrite E. simpl.
    destruct (status (fields i')); try discriminate; reflexivity.
Qed.

(** Saving a booking that is already stored, with its timestamps in place:
    the row is replaced, the status change (if any) is logged by the
    receiver, and a cancelled booking gives its seats back. *)
Lemma Booking_save_existing now i db old :
  get_booking db (booking_id (fields i)) = Some old ->
  is_none (booking_reference (fields i)) = false ->
  quiet (fields i) = true ->
  _status_changed i = None ->
  _old_status i = None ->
  Booking_save now i db =
  (i,
   let db1 :=
     set_bookings (update_row booking_id (fields i) (bookings db)) db in
   let db2 :=
     if BookingStatus_eqb (status old) (status (fields i)) then db1
     else BookingHistory_create
            (booking_id (fields i)) (Some (status old)) (status (fields i))
            None (status_change_reason (status old) (status (fields i)))
            now db1 in
   if BookingStatus_eqb (status (fields i)) Cancelled
   then seats_update (booking_id (fields i)) true db2 else db2).
Proof.
  intros Hold Href Hq Hsc Hos.
  unfold Booking_save. rewrite Booking_save_fuel_quiet by exact Hq.
  unfold save_prefix.
  destruct (booking_reference (fields i)) eqn:R; [|discriminate].
  unfold track_booking_status_change. rewrite Hold.
  pose proof (has_row_find booking_id _ _ Hold) as Hrow.
  destruct (BookingStatus_eqb (status old) (status (fields i))) eqn:E; simpl.
  - rewrite Hrow. simpl. unfold create_booking_history.
    rewrite Hsc. unfold write_booking, save_row. rewrite Hrow. reflexivity.
  - rewrite Hrow. simpl. unfold write_booking, save_row. rewrite Hrow.
    destruct i as [f sc os te]. simpl in *. subst. reflexivity.
Qed.

(** Saving a new pending booking: a reference is drawn, the row is inserted
    and the receiver logs the creation. *)
Lemma Booking_save_new now b db :
  get_booking db (booking_id b) = None ->
  booking_reference b = None ->
  status b = Pending ->
  Booking_save now (from_row b) db =
  (from_row (with_booking_reference (Some (next_uuid db)) b),
   mkDB (seats db) (showtimes db)
        (bookings db ++ [with_booking_reference (Some (next_uuid db)) b])
        (booking_seats db) (transactions db)
        (history db
           ++ [mkBookingHistory (S (next_uuid db)) (booking_id b) None Pending
                                None "Booking created" now])
        (refunds db) (policies db) (notifications db) (celery db)
        (S (S (next_uuid db)))).
Proof.
  intros Hnone Href Hst.
  unfold Booking_save. rewrite Booking_save_fuel_quiet
    by (unfold quiet; simpl; now rewrite Hst).
  unfold save_prefix. simpl. rewrite Href. simpl.
  unfold track_booking_status_change. simpl.
  unfold get_booking in *. simpl. rewrite Hnone.
  cbn [fields on_fields from_row with_booking_reference booking_id].
  rewrite (has_row_fresh booking_id _ _ Hnone). simpl.
  unfold save_row. simpl. rewrite (has_row_fresh booking_id _ _ Hnone).
  rewrite Hst. reflexivity.
Qed.

(** * Booking creation *)

Lemma consistent_parts db :
  consistent db = true ->
  NoDup (map seat_id (seats db))
  /\ NoDup (map booking_id (bookings db))
  /\ NoDup (map txn_pk (transactions db))
  /\ (forall b, In b (bookings db) -> booking_id b < next_uuid db)
  /\ (forall p, In p (booking_seats db) -> fst p < next_uuid db)
  /\ (forall h, In h (history db) -> history_booking h < next_uuid db)
  /\ (forall b, In b (bookings db) -> is_none (booking_reference b) = false)
  /\ (forall t, In t (transactions db) -> is_none (transaction_id t) = false).
Proof.
  unfold consistent. intro H.
  repeat (apply andb_prop in H; let H' := fresh "H" in destruct H as [H H']).
  repeat split; try (apply distinct_NoDup; assumption).
  - intros b Hb. eapply forallb_forall in H4; [|exact Hb].
    now apply Nat.ltb_lt.
  - intros p Hp. eapply forallb_forall in H3; [|exact Hp].
    now apply Nat.ltb_lt.
  - intros h Hh. eapply forallb_forall in H2; [|exact Hh].
    now apply Nat.ltb_lt.
  - intros b Hb. eapply forallb_forall in H1; [|exact Hb].
    now apply negb_true_iff.
  - intros t Ht. eapply forallb_forall in H0; [|exact Ht].
    now apply negb_true_iff.
Qed.

(** The serializer accepts no list of seats: the field refuses it, the
    count of the seats on the screen does, or the availability filter
    raises. *)
Lemma is_valid_refused db showtime ids :
  exists e, BookingCreateSerializer_is_valid db showtime ids = Fail e.
Proof.
  unfold BookingCreateSerializer_is_valid, validate_seat_ids.
  destruct (List.length ids <? 1); [eauto|].
  destruct (10 <? List.length ids); [eauto|].
  destruct (negb _); eauto.
Qed.

(** So the endpoint answers every request with an error and writes
    nothing. *)
Lemma create_booking_refused now request db :
  exists e, CreateBookingView_create now request db = (Fail e, db).
Proof.
  unfold CreateBookingView_create.
  destruct (get_showtime db (create_showtime_id request)) as [showtime|];
    [|eauto].
  destruct (negb (showtime_is_active showtime)); [eauto|].
  destruct (show_datetime showtime <=? now)%Z; [eauto|].
  destruct (is_valid_refused db showtime (seat_ids request)) as [e ->].
  eauto.
Qed.

Lemma create_booking_unchanged now request db :
  snd (CreateBookingView_create now request db) = db.
Proof.
  destruct (create_booking_refused now request db) as [e ->]. reflexivity.
Qed.

(** What a successful [BookingCreateSerializer.create] leaves behind. *)
Lemma serializer_create_success now request db booking db' :
  consistent db = true ->
  BookingCreateSerializer_create
    now (create_user request) (create_showtime_id request) (seat_ids request)
    (create_special_requests request) db = (Ok booking, db') ->
  exists showtime,
    get_showtime db (create_showtime_id request) = Some showtime
    /\ let held := filter (lockable showtime (seat_ids request)) (seats db) in
       List.length held = List.length (seat_ids request)
       /\ fields booking
          = created_booking now request showtime held (next_uuid db)
       /\ db' =
          mkDB (map (fun s => if lockable showtime (seat_ids request) s
                              then hold s else s) (seats db))
               (showtimes db)
               (bookings db ++ [fields booking])
               (booking_seats db
                  ++ map (fun s => (next_uuid db, seat_id s)) held)
               (transactions db)
               (history db
                  ++ [mkBookingHistory (2 + next_uuid db) (next_uuid db) None
                                       Pending None "Booking created" now])
               (refunds db) (policies db) (notifications db) (celery db)
               (3 + next_uuid db).
Proof.
  intros Hc. unfold BookingCreateSerializer_create.
  destruct (get_showtime db (create_showtime_id request)) as [showtime|] eqn:Hs;
    [|discriminate].
  destruct (List.length (filter (lockable showtime (seat_ids request))
                                (seats db))
            =? List.length (seat_ids request)) eqn:Hlen; simpl negb; cbv iota;
    [|discriminate].
  apply Nat.eqb_eq in Hlen.
  unfold uuid4.
  rewrite Booking_save_new; try reflexivity.
  - cbn -[Decimal.sum Decimal.round Decimal.mul Decimal.add to_db minutes
          lockable].
    intro H. inversion H. exists showtime. repeat split; try assumption.
  - apply find_pk_fresh. cbn. intros b Hb.
    apply consistent_parts in Hc.
    destruct Hc as (_ & _ & _ & Hb' & _). apply Hb' in Hb. lia.
Qed.

Lemma serializer_create_failure now user showtime_id ids special db e db' :
  BookingCreateSerializer_create now user showtime_id ids special db
  = (Fail e, db') ->
  db' = db.
Proof.
  unfold BookingCreateSerializer_create.
  destruct (get_showtime db showtime_id) as [showtime|]; [|now inversion 1].
  destruct (negb _); [now inversion 1|].
  destruct (uuid4 db) as [pk d].
  destruct (Booking_save _ _ _) as [b d']. discriminate.
Qed.

Lemma NoDup_map_filter (A : Type) (f : A -> nat) (p : A -> bool) (l : list A) :
  NoDup (map f l) -> NoDup (map f (filter p l)).
Proof.
  induction l as [|x l IH]; simpl; intro H; [constructor|].
  inversion H as [|? ? Hx Hl]; subst.
  destruct (p x); simpl; [|auto].
  constructor; [|auto].
  intro Hin. apply Hx. apply in_map_iff in Hin.
  destruct Hin as [y [Hy Hin]]. apply filter_In in Hin.
  rewrite <- Hy. apply in_map. tauto.
Qed.

Lemma find_pk_map (A : Type) (pk : A -> nat) (g : A -> A) (l : list A) k :
  (forall x, pk (g x) = pk x) ->
  find (fun x => pk x =? k) (map g l)
  = option_map g (find (fun x => pk x =? k) l).
Proof.
  intro Hg. induction l as [|x l IH]; simpl; [reflexivity|].
  rewrite Hg. destruct (pk x =? k); [reflexivity | exact IH].
Qed.

Lemma find_app_fresh (A : Type) (p : A -> bool) (l r : list A) :
  find p l = None -> find p (l ++ r) = find p r.
Proof.
  induction l as [|x l IH]; simpl; [reflexivity|].
  destruct (p x); [discriminate | exact IH].
Qed.

Lemma filter_none (A : Type) (p : A -> bool) (l : list A) :
  (forall x, In x l -> p x = false) -> filter p l = [].
Proof.
  induction l as [|x l IH]; simpl; intro H; [reflexivity|].
  rewrite (H x) by auto. apply IH. intros y Hy. apply H. auto.
Qed.

(** Every requested seat is among the seats locked, once their number
    matches the number of identifiers requested. *)
Lemma locked_all_requested db showtime ids :
  NoDup (map seat_id (seats db)) ->
  List.length (filter (lockable showtime ids) (seats db)) = List.length ids ->
  forall s, In s ids <->
            In s (map seat_id (filter (lockable showtime ids) (seats db))).
Proof.
  intros Hnd Hlen s.
  set (held := filter (lockable showtime ids) (seats db)) in *.
  assert (Hincl : incl (map seat_id held) ids).
  { intros x Hx. apply in_map_iff in Hx. destruct Hx as [seat [<- Hin]].
    apply filter_In in Hin. destruct Hin as [_ Hl]. unfold lockable in Hl.
    repeat (apply andb_prop in Hl; destruct Hl as [Hl _]).
    now apply mem_In. }
  split; [|apply Hincl].
  apply (@NoDup_length_incl _ (map seat_id held) ids).
  - apply NoDup_map_filter. exact Hnd.
  - rewrite length_map. lia.
  - exact Hincl.
Qed.

(** C1.  A booking request is all or nothing: either the response is the
    new pending booking, which was not stored before, owns exactly the
    requested seats, and every requested seat was available and is now held;
    or the request fails and the database, so the availability of every
    seat, is what it was. *)
Theorem create_booking_all_or_nothing now request db res db' :
  consistent db = true ->
  seat_ids request <> [] ->
  CreateBookingView_create now request db = (res, db') ->
  (exists booking,
      res = Ok booking
      /\ status booking = Pending
      /\ get_booking db (booking_id booking) = None
      /\ get_booking db' (booking_id booking) = Some booking
      /\ (forall s, In s (seats_of db' (booking_id booking))
                    <-> In s (seat_ids request))
      /\ (forall s, In s (seat_ids request) ->
            exists seat seat',
              get_seat db s = Some seat /\ is_available seat = true
              /\ get_seat db' s = Some seat' /\ is_available seat' = false))
  \/ (exists e, res = Fail e /\ db' = db).
Proof.
  intros _ _ Hrun.
  destruct (create_booking_refused now request db) as [e He].
  rewrite He in Hrun. inversion Hrun. right. eauto.
Qed.

(** * The scenario *)

Lemma create_booking_all_or_nothing_witness :
  consistent Scenario.initial = true
  /\ seat_ids Scenario.create_request <> []
  /\ ((exists booking,
          fst Scenario.created = Ok booking
          /\ status booking = Pending
          /\ get_booking Scenario.initial (booking_id booking) = None
          /\ get_booking (snd Scenario.created) (booking_id booking)
             = Some booking
          /\ (forall s, In s (seats_of (snd Scenario.created)
                                       (booking_id booking))
                        <-> In s (seat_ids Scenario.create_request))
          /\ (forall s, In s (seat_ids Scenario.create_request) ->
                exists seat seat',
                  get_seat Scenario.initial s = Some seat
                  /\ is_available seat = true
                  /\ get_seat (snd Scenario.created) s = Some seat'
                  /\ is_available seat' = false))
      \/ (exists e, fst Scenario.created = Fail e
                    /\ snd Scenario.created = Scenario.initial)).
Proof.
  split; [vm_compute; reflexivity|]. split; [discriminate|].
  apply (@create_booking_all_or_nothing 0 Scenario.create_request
                                        Scenario.initial).
  - vm_compute; reflexivity.
  - discriminate.
  - vm_compute; reflexivity.
Defined.

(** * Prices *)

Lemma get_price_for_seat_from_db showtime seat :
  get_price_for_seat showtime seat
  = from_db (type_price showtime (seat_type seat)).
Proof.
  unfold type_price, get_price_for_seat. now destruct (seat_type seat).
Qed.

Lemma fold_add_from_db (l : list Z) (a : Z) :
  fold_left Decimal.add (map from_db l) (from_db a) = from_db (a + sumZ l).
Proof.
  revert a. induction l as [|c l IH]; intro a; cbn [map fold_left sumZ fold_right].
  - now rewrite Z.add_0_r.
  - assert (E : Decimal.add (from_db a) (from_db c) = from_db (a + c)).
    { unfold Decimal.add, Decimal.rescale, from_db. cbn.
      now rewrite !Z.mul_1_r. }
    rewrite E, IH. unfold sumZ. now rewrite Z.add_assoc.
Qed.

Lemma sum_from_db (l : list Z) :
  l <> [] -> Decimal.sum (map from_db l) = from_db (sumZ l).
Proof.
  destruct l as [|c l]; [congruence|]. intros _.
  unfold Decimal.sum. cbn [map fold_left].
  assert (E : Decimal.add (Decimal.of_int 0) (from_db c) = from_db c).
  { unfold Decimal.add, Decimal.rescale, from_db. cbn.
    now rewrite Z.mul_1_r. }
  rewrite E, fold_add_from_db. reflexivity.
Qed.

Lemma round_half_even_nearest (n d : Z) :
  (0 < d)%Z ->
  (2 * Z.abs (d * Decimal.round_half_even n d - n) <= d)%Z.
Proof.
  intro Hd. unfold Decimal.round_half_even.
  pose proof (Z.div_mod n d ltac:(lia)) as Hdm.
  pose proof (Z.mod_pos_bound n d Hd) as Hb.
  destruct (Z.ltb_spec (2 * (n mod d)) d).
  - lia.
  - destruct (Z.ltb_spec d (2 * (n mod d))).
    + lia.
    + destruct (Z.even (n / d)); lia.
Qed.

(** The amounts of a booking computed from a subtotal of [s] hundredths. *)
Lemma amounts_from_subtotal (s : Z) :
  let subtotal := from_db s in
  let tax := Decimal.round (Decimal.mul subtotal (Decimal.mk 18 2)) 2 in
  let fee := Decimal.mk 2000 2 in
  to_db subtotal = s
  /\ to_db tax = Decimal.round_half_even (18 * s) 100
  /\ to_db fee = 2000%Z
  /\ to_db (Decimal.add (Decimal.add subtotal tax) fee)
     = (s + Decimal.round_half_even (18 * s) 100 + 2000)%Z.
Proof.
  unfold to_db, from_db, Decimal.round, Decimal.mul, Decimal.add,
    Decimal.rescale.
  cbn -[Z.mul Z.add Decimal.round_half_even].
  change (Decimal.pow10 0) with 1%Z. change (Decimal.pow10 2) with 100%Z.
  rewrite !Z.mul_1_r, (Z.mul_comm s 18). auto.
Qed.



(** * Cancellation policy *)

Lemma first_desc_spec (A : Type) (key : A -> Z) (l : list A) :
  match first_desc key l with
  | Some p => In p l /\ forall q, In q l -> (key q <= key p)%Z
  | None => l = []
  end.
Proof.
  induction l as [|x r IH]; cbn; [reflexivity|].
  destruct (first_desc key r) as [y|].
  - destruct IH as [Hy Hmax].
    destruct (Z.ltb_spec (key x) (key y)).
    + split; [auto|]. intros q [<- | Hq]; [lia | auto].
    + split; [auto|]. intros q [<- | Hq]; [lia|].
      specialize (Hmax q Hq). lia.
  - subst r. split; [auto|]. intros q [<- | []]. lia.
Qed.

(** The hours that the lookup compares with, for a time span in
    microseconds. *)
Lemma int_of_float_hours (delta : Z) :
  int_of_float (hours_of delta) = Z.quot delta (hours 1).
Proof. reflexivity. Qed.

Lemma in_time_lookup (delta : Z) (p : CancellationPolicy) :
  (Z.of_nat (hours_before_show p) <=? int_of_float (hours_of delta))%Z = true
  <-> in_time delta p.
Proof.
  rewrite int_of_float_hours, Z.leb_le. unfold in_time.
  change (hours 1) with 3600000000%Z.
  replace (hours (Z.of_nat (hours_before_show p)))
    with (Z.of_nat (hours_before_show p) * 3600000000)%Z
    by (unfold hours, minutes, seconds; lia).
  set (n := hours_before_show p).
  pose proof (Z.quot_rem' delta 3600000000) as Hqr.
  destruct (Z_lt_le_dec delta 0) as [Hneg | Hpos].
  - pose proof (Z.rem_bound_pos (- delta) 3600000000 ltac:(lia) ltac:(lia))
      as Hr.
    rewrite Z.rem_opp_l in Hr by lia.
    split.
    + intro H1. right. split; lia.
    + intros [H1 | [H1 H2]]; lia.
  - pose proof (Z.rem_bound_pos delta 3600000000 Hpos ltac:(lia)).
    split.
    + intro H1. left. lia.
    + intros [H1 | [H1 H2]]; lia.
Qed.

Lemma applicable_filter delta p :
  (Z.of_nat (hours_before_show p) <=? int_of_float (hours_of delta))%Z
  && policy_is_active p = true
  <-> policy_is_active p = true /\ in_time delta p.
Proof.
  rewrite andb_true_iff, in_time_lookup. tauto.
Qed.

(** The policy that the lookup returns: an active policy in time with the
    greatest threshold, and none when no active policy is in time. *)
Lemma get_applicable_policy_spec db delta :
  match get_applicable_policy db (hours_of delta) with
  | Some p =>
      In p (policies db) /\ policy_is_active p = true /\ in_time delta p
      /\ forall q, In q (policies db) -> policy_is_active q = true ->
                   in_time delta q ->
                   hours_before_show q <= hours_before_show p
  | None =>
      forall q, In q (policies db) ->
                ~ (policy_is_active q = true /\ in_time delta q)
  end.
Proof.
  unfold get_applicable_policy.
  match goal with
  | |- context [first_desc ?k ?l] =>
      pose proof (first_desc_spec k l) as H; destruct (first_desc k l) as [p|]
  end.
  - destruct H as [Hin Hmax]. apply filter_In in Hin. destruct Hin as [Hin Hq].
    apply applicable_filter in Hq. destruct Hq as [Ha Ht].
    split; [exact Hin|]. split; [exact Ha|]. split; [exact Ht|].
    intros q Hq1 Hq2 Hq3.
    assert (Hq4 : (Z.of_nat (hours_before_show q)
                   <= Z.of_nat (hours_before_show p))%Z).
    { apply Hmax. apply filter_In. split; [exact Hq1|].
      apply applicable_filter. now split. }
    lia.
  - intros q Hq1 Hq2.
    apply applicable_filter in Hq2.
    assert (Hin : In q (filter
              (fun p => (Z.of_nat (hours_before_show p)
                         <=? int_of_float (hours_of delta))%Z
                        && policy_is_active p)
              (policies db))).
    { apply filter_In. split; [exact Hq1 | exact Hq2]. }
    rewrite H in Hin. exact Hin.
Qed.

(** C9.  Half an hour after the show has begun, no policy has a threshold
    within the hours left (minus one half), yet the lookup returns the
    policy with threshold zero, because it compares with the hours rounded
    toward zero, and the cancellation is accepted: the booking is
    cancelled. *)
Theorem cancel_after_show_start_applies_policy :
  (show_datetime Scenario.show - Late.now = - minutes 30)%Z
  /\ (forall p, In p (policies Late.stored) ->
        ~ (inject_Z (Z.of_nat (hours_before_show p))
           <= hours_of (- minutes 30))%Q)
  /\ get_applicable_policy Late.stored (hours_of (- minutes 30))
     = Some Late.until_start
  /\ (exists response,
        fst Late.cancelled = Ok response
        /\ status (cancelled_booking response) = Cancelled)
  /\ (exists b, get_booking (snd Late.cancelled) 100 = Some b
                /\ status b = Cancelled).
Proof.
  split; [vm_compute; reflexivity|].
  split.
  { intros p [<- | [<- | []]]; vm_compute; intro H; apply H; reflexivity. }
  split; [vm_compute; reflexivity|].
  split.
  - eexists. split; [vm_compute; reflexivity|]. reflexivity.
  - eexists. split; [vm_compute; reflexivity|]. reflexivity.
Qed.

(** * [Transaction.save] *)

Lemma get_user_booking_row db pk user row :
  consistent db = true ->
  get_user_booking db pk user = Some row ->
  In row (bookings db) /\ booking_id row = pk /\ booking_user row = user
  /\ get_booking db pk = Some row
  /\ is_none (booking_reference row) = false.
Proof.
  intros Hc H. unfold get_user_booking in H. apply find_some in H.
  destruct H as [Hin E]. apply andb_prop in E. destruct E as [E1 E2].
  apply Nat.eqb_eq in E1. apply Nat.eqb_eq in E2.
  destruct (consistent_parts _ Hc) as (_ & Hnd & _ & _ & _ & _ & Href & _).
  repeat split; auto.
  unfold get_booking. rewrite <- E1. now apply find_pk_unique.
Qed.

Lemma get_booking_transaction_row db tid booking trow :
  get_booking_transaction db tid booking = Some trow ->
  In trow (transactions db) /\ transaction_id trow = Some tid
  /\ txn_booking trow = booking.
Proof.
  unfold get_booking_transaction. intro H. apply find_some in H.
  destruct H as [Hin E]. destruct (transaction_id trow) as [i|]; [|discriminate].
  apply andb_prop in E. destruct E as [E1 E2].
  apply Nat.eqb_eq in E1. apply Nat.eqb_eq in E2. subst. auto.
Qed.

Lemma has_row_In (A : Type) (pk : A -> nat) (r : A) (l : list A) :
  In r l -> has_row pk (pk r) l = true.
Proof.
  intro H. unfold has_row. apply existsb_exists. exists r.
  split; [exact H | apply Nat.eqb_refl].
Qed.

(** Saving a successful transaction whose booking is no longer pending
    only writes the transaction row. *)
Lemma Transaction_save_success_settled now t db row :
  is_none (transaction_id (txn_fields t)) = false ->
  txn_status (txn_fields t) = TSuccess ->
  booking_cache t = None ->
  get_booking db (txn_booking (txn_fields t)) = Some row ->
  status row <> Pending ->
  Transaction_save now t db =
  (mkTransactionInstance (txn_fields t) (Some (from_row row)),
   set_transactions (save_row txn_pk (txn_fields t) (transactions db)) db).
Proof.
  intros Hid Hst Hcache Hrow Hnp. unfold Transaction_save.
  destruct (transaction_id (txn_fields t)); [|discriminate].
  unfold handle_successful_payment, handle_failed_payment.
  rewrite Hst. cbn [TransactionStatus_eqb].
  unfold instance_booking. rewrite Hcache.
  unfold get_booking in *. cbn [bookings set_transactions]. rewrite Hrow.
  cbn [from_row fields].
  destruct (status row); try congruence;
    cbn [BookingStatus_eqb txn_fields]; rewrite Hst; reflexivity.
Qed.

(** * Payment confirmation *)

(** The serializer accepts a request exactly when neither field has a
    message, and gives the trimmed identifier of the gateway and the
    response as sent. *)
Lemma confirm_fields_accepted request :
  CharField_errors None (confirm_gateway_transaction_id request) = [] ->
  JSONField_errors (confirm_gateway_response request) = [] ->
  exists response,
    confirm_gateway_response request = Some response
    /\ PaymentConfirmSerializer_is_valid request
       = Ok (CharField_value (confirm_gateway_transaction_id request),
             response).
Proof.
  intros H1 H2. unfold PaymentConfirmSerializer_is_valid.
  rewrite H1, H2.
  destruct (confirm_gateway_response request) as [response|];
    [|discriminate].
  exists response. split; reflexivity.
Qed.

Lemma confirm_fields_refused request :
  CharField_errors None (confirm_gateway_transaction_id request) <> []
  \/ JSONField_errors (confirm_gateway_response request) <> [] ->
  exists errors,
    errors <> []
    /\ PaymentConfirmSerializer_is_valid request = Fail (FieldErrors errors).
Proof.
  intro H. unfold PaymentConfirmSerializer_is_valid, refused.
  cbn [filter snd].
  destruct (CharField_errors None (confirm_gateway_transaction_id request))
    as [|m1 l1];
    destruct (JSONField_errors (confirm_gateway_response request))
      as [|m2 l2] eqn:E2;
    cbn [List.length Nat.eqb negb].
  - destruct H as [H | H]; congruence.
  - eexists. split; [|reflexivity]. discriminate.
  - eexists. split; [|destruct (confirm_gateway_response request); reflexivity].
    discriminate.
  - eexists. split; [|reflexivity]. discriminate.
Qed.

(** C3, as stated, fails: the second confirmation of the same verified
    transaction changes the database, and the history then holds three
    pending-to-confirmed rows (already two after the first confirmation:
    the receiver's and the view's). *)
Lemma confirm_twice_counterexample :
  (exists b, fst Scenario.confirmed = Ok b /\ status b = Confirmed)
  /\ (exists b, fst Scenario.confirmed_again = Ok b /\ status b = Confirmed)
  /\ snd Scenario.confirmed_again <> Scenario.paid
  /\ List.length (transition_rows Scenario.paid 100 (Some Pending) Confirmed)
     = 2
  /\ List.length (transition_rows (snd Scenario.confirmed_again) 100
                                  (Some Pending) Confirmed)
     = 3.
Proof.
  split; [eexists; split; [vm_compute; reflexivity | reflexivity]|].
  split; [eexists; split; [vm_compute; reflexivity | reflexivity]|].
  split; [|split; vm_compute; reflexivity].
  intro H. apply (f_equal (fun db => List.length (history db))) in H.
  vm_compute in H. discriminate.
Qed.

(** C3 (amended).  Confirming again a booking that is already confirmed,
    with the same verified transaction and fields that the serializer
    accepts, is answered as a success and the booking stays confirmed; but
    the call is not without effect: it appends one more pending-to-confirmed
    history row and queues one more confirmation. *)
Theorem confirm_again_logs_again now request db row trow :
  consistent db = true ->
  get_user_booking db (confirm_booking_id request) (confirm_user request)
  = Some row ->
  status row = Confirmed ->
  CharField_errors None (confirm_gateway_transaction_id request) = [] ->
  JSONField_errors (confirm_gateway_response request) = [] ->
  get_booking_transaction db (confirm_transaction_id request) (booking_id row)
  = Some trow ->
  txn_status trow = TSuccess ->
  get_gateway (gateway trow) = true ->
  is_valid request = true ->
  exists booking db',
    ConfirmPaymentView_update now request db = (Ok booking, db')
    /\ status booking = Confirmed
    /\ get_booking db' (booking_id row) = Some booking
    /\ transition_rows db' (booking_id row) (Some Pending) Confirmed
       = transition_rows db (booking_id row) (Some Pending) Confirmed
           ++ [mkBookingHistory (next_uuid db) (booking_id row) (Some Pending)
                                Confirmed (Some (confirm_user request))
                                "Payment completed successfully" now]
    /\ celery db'
       = celery db ++ [send_booking_confirmation_task (booking_id row)].
Proof.
  intros Hc Hrow Hst Hf1 Hf2 Htx Hts Hgw Hvalid.
  destruct (get_user_booking_row _ _ _ Hc Hrow)
    as (Hin & Hpk & Huser & Hget & Href).
  destruct (get_booking_transaction_row _ _ _ Htx) as (Htin & Htid & Htb).
  destruct (confirm_fields_accepted _ Hf1 Hf2) as (response & _ & Hfields).
  unfold ConfirmPaymentView_update.
  rewrite Hrow, Hfields. cbn [from_row fields]. rewrite Htx.
  cbn [txn_fields]. rewrite Hgw, Hvalid. cbn [negb].
  rewrite (@Transaction_save_success_settled now _ db row);
    [ | cbn; now rewrite Htid | reflexivity | reflexivity
      | cbn; rewrite Htb, Hpk; exact Hget
      | rewrite Hst; discriminate ].
  rewrite (@Booking_save_existing now _ _ row);
    [ | unfold get_booking; cbn; rewrite Hpk; exact Hget
      | exact Href
      | reflexivity | reflexivity | reflexivity ].
  cbn [fields on_fields from_row with_confirmed_at with_status status
       booking_id].
  rewrite Hst. cbn [BookingStatus_eqb].
  eexists. eexists. split; [reflexivity|].
  split; [reflexivity|].
  split.
  { unfold get_booking, delay, BookingHistory_create, uuid4. cbn.
    rewrite <- Hpk in Hget. unfold get_booking in Hget.
    exact (find_update_row_same
             booking_id
             (with_confirmed_at (Some now) (with_status Confirmed row))
             (bookings db) Hget). }
  split.
  { unfold transition_rows, delay, BookingHistory_create, uuid4. cbn.
    rewrite filter_app. cbn. now rewrite Nat.eqb_refl. }
  reflexivity.
Qed.

Lemma confirm_again_logs_again_witness :
  exists row trow,
    consistent Scenario.paid = true
    /\ get_user_booking Scenario.paid 100 42 = Some row
    /\ status row = Confirmed
    /\ CharField_errors
         None (confirm_gateway_transaction_id Scenario.confirm_request) = []
    /\ JSONField_errors (confirm_gateway_response Scenario.confirm_request)
       = []
    /\ get_booking_transaction Scenario.paid 105 (booking_id row) = Some trow
    /\ txn_status trow = TSuccess
    /\ get_gateway (gateway trow) = true
    /\ is_valid Scenario.confirm_request = true
    /\ exists booking db',
        Scenario.confirmed_again = (Ok booking, db')
        /\ status booking = Confirmed
        /\ get_booking db' (booking_id row) = Some booking
        /\ transition_rows db' (booking_id row) (Some Pending) Confirmed
           = transition_rows Scenario.paid (booking_id row) (Some Pending)
                             Confirmed
               ++ [mkBookingHistory (next_uuid Scenario.paid) (booking_id row)
                                    (Some Pending) Confirmed (Some 42)
                                    "Payment completed successfully"
                                    (minutes 3)]
        /\ celery db'
           = celery Scenario.paid
               ++ [send_booking_confirmation_task (booking_id row)].
Proof.
  eexists. eexists.
  split; [vm_compute; reflexivity|]. split; [vm_compute; reflexivity|].
  split; [vm_compute; reflexivity|]. split; [vm_compute; reflexivity|].
  split; [vm_compute; reflexivity|]. split; [vm_compute; reflexivity|].
  split; [vm_compute; reflexivity|]. split; [vm_compute; reflexivity|].
  split; [vm_compute; reflexivity|].
  eapply (@confirm_again_logs_again (minutes 3) Scenario.confirm_request
                                    Scenario.paid);
    (vm_compute; reflexivity).
Defined.

(** * Webhook *)

Lemma NoDup_pk_eq (A : Type) (pk : A -> nat) (l : list A) x y :
  NoDup (map pk l) -> In x l -> In y l -> pk x = pk y -> x = y.
Proof.
  induction l as [|a l IH]; simpl; intros Hnd Hx Hy E; [contradiction|].
  inversion Hnd as [|? ? Ha Hl]; subst.
  destruct Hx as [-> | Hx], Hy as [-> | Hy]; auto.
  - exfalso. apply Ha. rewrite E. now apply in_map.
  - exfalso. apply Ha. rewrite <- E. now apply in_map.
Qed.

(** The view hands [request.data] and [request.META] to the gateway, which
    then reports no event: the answer is the acknowledgement, or the error
    of a gateway that is not registered, and nothing is written. *)
Lemma payment_webhook_answer now request db :
  payment_webhook now request db
  = (if get_gateway (webhook_gateway request) then Ok tt
     else Fail (Http500 "error"),
     db).
Proof.
  unfold payment_webhook.
  destruct (get_gateway (webhook_gateway request)); reflexivity.
Qed.

Lemma payment_webhook_unchanged now request db :
  snd (payment_webhook now request db) = db.
Proof. now rewrite payment_webhook_answer. Qed.

(** C5.  A webhook request for a transaction that is already successful
    changes nothing, as every webhook request: the booking, its
    transactions, the history and the queue of notifications are what they
    were, and the request is acknowledged (or answered with the error of an
    unknown gateway).  So is the replay of the event of transaction 105 in
    the scenario, after the payment was confirmed. *)
Theorem webhook_replay_is_noop now request db :
  (fst (payment_webhook now request db) = Ok tt
   \/ fst (payment_webhook now request db) = Fail (Http500 "error"))
  /\ snd (payment_webhook now request db) = db
  /\ map txn_status (transactions Scenario.paid) = [TSuccess]
  /\ Scenario.notified_again = (Ok tt, Scenario.paid).
Proof.
  rewrite payment_webhook_answer. cbn [fst snd].
  split; [destruct (get_gateway (webhook_gateway request)); auto|].
  split; [reflexivity|].
  split; vm_compute; reflexivity.
Qed.

(** * Cancellation *)

Lemma seats_update_available booking db seat :
  In seat (seats (seats_update booking true db)) ->
  In (seat_id seat) (seats_of db booking) ->
  is_available seat = true.
Proof.
  unfold seats_update. cbn [seats set_seats]. intros Hin Hheld.
  apply in_map_iff in Hin. destruct Hin as [s [Hs Hin]].
  destruct (mem (seat_id s) (seats_of db booking)) eqn:E.
  - now subst seat.
  - subst seat. apply mem_In in Hheld. congruence.
Qed.

Lemma seats_update_ids booking v db :
  map seat_id (seats (seats_update booking v db)) = map seat_id (seats db).
Proof.
  unfold seats_update. cbn [seats set_seats]. rewrite map_map.
  apply map_ext. intro s. now destruct (mem _ _).
Qed.

Lemma validate_cancellable db now row policy :
  BookingCancelSerializer_validate db now row = Ok policy ->
  status row = Pending \/ status row = Confirmed.
Proof.
  unfold BookingCancelSerializer_validate.
  destruct (status row); cbn; try discriminate; auto.
Qed.

(** A request whose reason has a message is refused before the policy
    is looked at, and nothing is written. *)
Lemma cancel_reason_refused now request db row :
  get_user_booking db (cancel_booking_id request) (cancel_user request)
  = Some row ->
  reason_errors request <> [] ->
  CancelBookingView_update now request db
  = (Fail (FieldErrors [("reason"%string, reason_errors request)]), db).
Proof.
  intros Hrow Hne. unfold CancelBookingView_update. rewrite Hrow.
  unfold refused. cbn [filter snd].
  destruct (reason_errors request); [congruence | reflexivity].
Qed.

Lemma cancel_reason_accepted request :
  reason_errors request = [] ->
  refused [("reason"%string, reason_errors request)] = [].
Proof. intros ->. reflexivity. Qed.

(** C4, as stated, fails: cancelling the paid, confirmed booking under the
    refundable policy leaves two history rows that end in cancelled, and
    creates no refund although the booking has a successful transaction. *)
Lemma cancel_paid_booking_counterexample :
  (exists b, get_booking Scenario.paid 100 = Some b /\ status b = Confirmed
             /\ BookingCancelSerializer_validate Scenario.paid (minutes 5) b
                = Ok Scenario.four_hours)
  /\ has_successful_transaction Scenario.paid 100 = true
  /\ (exists r, fst Scenario.cancelled = Ok r)
  /\ List.length (rows_to (snd Scenario.cancelled) 100 Cancelled) = 2
  /\ refunds (snd Scenario.cancelled) = []
  /\ (forall r, ~ In (process_refund_task r) (celery (snd Scenario.cancelled))).
Proof.
  split; [eexists; split; [vm_compute; reflexivity
                          | split; vm_compute; reflexivity]|].
  split; [vm_compute; reflexivity|].
  split; [eexists; vm_compute; reflexivity|].
  split; [vm_compute; reflexivity|]. split; [vm_compute; reflexivity|].
  intros r H. vm_compute in H.
  repeat (destruct H as [H | H]; [discriminate|]). exact H.
Qed.

(** C4 (amended).  Cancelling a pending or confirmed booking under a
    refundable applicable policy, with a reason that the serializer accepts
    (not blank, at most 500 characters), is answered as a success; the
    booking is
    stored as cancelled with [cancelled_at] the time of the request, every
    seat of the booking is available afterwards, the cancellation
    confirmation is queued, and the history gains two rows that end in
    cancelled: the one of the [post_save] receiver and the one of the
    view. *)
Theorem cancel_booking_effects now request db row policy :
  consistent db = true ->
  get_user_booking db (cancel_booking_id request) (cancel_user request)
  = Some row ->
  CharField_errors (Some 500) (reason request) = [] ->
  BookingCancelSerializer_validate db now row = Ok policy ->
  exists response db',
    CancelBookingView_update now request db = (Ok response, db')
    /\ status (cancelled_booking response) = Cancelled
    /\ cancelled_at (cancelled_booking response) = Some now
    /\ get_booking db' (booking_id row) = Some (cancelled_booking response)
    /\ map seat_id (seats db') = map seat_id (seats db)
    /\ (forall seat, In seat (seats db') ->
                     In (seat_id seat) (seats_of db (booking_id row)) ->
                     is_available seat = true)
    /\ rows_to db' (booking_id row) Cancelled
       = rows_to db (booking_id row) Cancelled
           ++ [mkBookingHistory
                 (next_uuid db) (booking_id row) (Some (status row)) Cancelled
                 None (status_change_reason (status row) Cancelled) now;
               mkBookingHistory
                 (S (next_uuid db)) (booking_id row) (Some (status row))
                 Cancelled (Some (cancel_user request))
                 (strip (reason request)) now]
    /\ In (send_cancellation_confirmation_task (booking_id row)) (celery db').
Proof.
  intros Hc Hrow Hreason Hval.
  destruct (get_user_booking_row _ _ _ Hc Hrow)
    as (Hin & Hpk & Huser & Hget & Href).
  pose proof (validate_cancellable _ _ _ Hval) as Hst.
  unfold CancelBookingView_update.
  rewrite Hrow, (cancel_reason_accepted _ Hreason), Hval.
  cbn [from_row fields].
  rewrite (@Booking_save_existing now _ _ row);
    [ | unfold get_booking; cbn; rewrite Hpk; exact Hget
      | exact Href
      | reflexivity | reflexivity | reflexivity ].
  cbn [fields on_fields from_row with_cancelled_at with_status status
       booking_id BookingStatus_eqb].
  assert (E : BookingStatus_eqb (status row) Cancelled = false)
    by (destruct Hst as [-> | ->]; reflexivity).
  rewrite E.
  eexists. eexists. split; [reflexivity|].
  cbn [cancelled_booking].
  split; [reflexivity|]. split; [reflexivity|].
  split.
  { unfold get_booking, delay, BookingHistory_create, uuid4, seats_update.
    cbn. rewrite <- Hpk in Hget.
    exact (find_update_row_same
             booking_id
             (with_cancelled_at (Some now) (with_status Cancelled row))
             (bookings db) Hget). }
  split.
  { unfold delay. cbn [seats set_celery].
    unfold BookingHistory_create, uuid4. cbn [seats set_history set_next_uuid].
    rewrite !seats_update_ids. reflexivity. }
  split.
  { intros seat Hseat Hheld.
    unfold delay in Hseat. cbn [seats set_celery] in Hseat.
    unfold BookingHistory_create at 1, uuid4 in Hseat.
    cbn [seats set_history set_next_uuid] in Hseat.
    apply seats_update_available in Hseat; [exact Hseat|].
    exact Hheld. }
  split.
  { unfold rows_to, delay, BookingHistory_create, uuid4, seats_update.
    cbn. rewrite <- app_assoc, filter_app. cbn.
    now rewrite Nat.eqb_refl. }
  unfold delay. cbn [celery set_celery]. apply in_or_app. right. now left.
Qed.

Lemma cancel_booking_effects_witness :
  exists row,
    consistent Scenario.paid = true
    /\ get_user_booking Scenario.paid 100 42 = Some row
    /\ CharField_errors (Some 500) (reason Scenario.cancel_request) = []
    /\ BookingCancelSerializer_validate Scenario.paid (minutes 5) row
       = Ok Scenario.four_hours
    /\ exists response db',
        Scenario.cancelled = (Ok response, db')
        /\ status (cancelled_booking response) = Cancelled
        /\ cancelled_at (cancelled_booking response) = Some (minutes 5)
        /\ get_booking db' (booking_id row) = Some (cancelled_booking response)
        /\ map seat_id (seats db') = map seat_id (seats Scenario.paid)
        /\ (forall seat, In seat (seats db') ->
                         In (seat_id seat)
                            (seats_of Scenario.paid (booking_id row)) ->
                         is_available seat = true)
        /\ rows_to db' (booking_id row) Cancelled
           = rows_to Scenario.paid (booking_id row) Cancelled
               ++ [mkBookingHistory
                     (next_uuid Scenario.paid) (booking_id row)
                     (Some (status row)) Cancelled None
                     (status_change_reason (status row) Cancelled) (minutes 5);
                   mkBookingHistory
                     (S (next_uuid Scenario.paid)) (booking_id row)
                     (Some (status row)) Cancelled (Some 42)
                     "Change of plans" (minutes 5)]
        /\ In (send_cancellation_confirmation_task (booking_id row))
              (celery db').
Proof.
  eexists.
  split; [vm_compute; reflexivity|]. split; [vm_compute; reflexivity|].
  split; [vm_compute; reflexivity|]. split; [vm_compute; reflexivity|].
  eapply (@cancel_booking_effects (minutes 5) Scenario.cancel_request
                                  Scenario.paid);
    (vm_compute; reflexivity).
Defined.

(** * The transactions table *)

Lemma save_prefix_transactions uf now i db :
  transactions (snd (save_prefix uf now i db)) = transactions db.
Proof.
  unfold save_prefix, create_booking_history, write_booking,
    BookingHistory_create, generate_reference, uuid4.
  destruct (booking_reference (fields i));
    destruct uf as [[|]|]; cbn;
    repeat match goal with
           | |- context [if ?c then _ else _] => destruct c; cbn
           | |- context [match ?o with Some _ => _ | None => _ end] =>
               destruct o; cbn
           end; reflexivity.
Qed.

(** [Booking.save] and its receivers never write a transaction. *)
Lemma Booking_save_fuel_transactions fuel :
  forall uf now i db,
    transactions (snd (Booking_save_fuel fuel uf now i db)) = transactions db.
Proof.
  induction fuel as [|fuel IH]; intros uf now i db; [reflexivity|].
  rewrite Booking_save_fuel_unfold.
  pose proof (save_prefix_transactions uf now i db) as Hp.
  destruct (save_prefix uf now i db) as [i1 d1]. cbn [snd] in Hp.
  assert (Hc : transactions
                 (snd (handle_booking_confirmation (Booking_save_fuel fuel)
                                                   now i1 d1))
               = transactions db).
  { unfold handle_booking_confirmation.
    destruct (_ && _); [|exact Hp].
    match goal with
    | |- context [Booking_save_fuel fuel ?u ?n ?j ?d] =>
        pose proof (IH u n j d) as Hn;
        destruct (Booking_save_fuel fuel u n j d) as [i2 d2]
    end.
    cbn [snd] in Hn.
    destruct (get_showtime d2 _); [|cbn; congruence].
    destruct (_ <? _)%Z; cbn; congruence. }
  destruct (handle_booking_confirmation (Booking_save_fuel fuel) now i1 d1)
    as [i3 d3]. cbn [snd] in Hc.
  unfold handle_booking_cancellation.
  destruct (BookingStatus_eqb _ _); [|exact Hc].
  destruct (is_none _); [|exact Hc].
  rewrite IH. exact Hc.
Qed.

Lemma Booking_save_transactions now i db :
  transactions (snd (Booking_save now i db)) = transactions db.
Proof. apply Booking_save_fuel_transactions. Qed.

(** [Transaction.save] writes the row of the instance and no other. *)
Lemma Transaction_save_transactions now t db :
  is_none (transaction_id (txn_fields t)) = false ->
  transactions (snd (Transaction_save now t db))
  = save_row txn_pk (txn_fields t) (transactions db)
  /\ txn_fields (fst (Transaction_save now t db)) = txn_fields t.
Proof.
  intro Hid. unfold Transaction_save.
  destruct (transaction_id (txn_fields t)); [|discriminate].
  set (db1 := set_transactions _ db).
  assert (H1 : transactions (snd (handle_successful_payment now t db1))
               = transactions db1
               /\ txn_fields (fst (handle_successful_payment now t db1))
                  = txn_fields t).
  { unfold handle_successful_payment.
    destruct (TransactionStatus_eqb _ _); [|auto].
    unfold instance_booking.
    destruct (booking_cache t) as [b|].
    - destruct (BookingStatus_eqb _ _); [|auto].
      match goal with
      | |- context [Booking_save ?n ?j ?d] =>
          pose proof (Booking_save_transactions n j d) as Hn;
          destruct (Booking_save n j d) as [i2 d2]
      end.
      cbn in *. auto.
    - destruct (get_booking db1 _) as [r|]; [|auto].
      destruct (BookingStatus_eqb _ _); [|auto].
      match goal with
      | |- context [Booking_save ?n ?j ?d] =>
          pose proof (Booking_save_transactions n j d) as Hn;
          destruct (Booking_save n j d) as [i2 d2]
      end.
      cbn in *. auto. }
  destruct (handle_successful_payment now t db1) as [t2 d2].
  cbn [fst snd] in H1. destruct H1 as [H1 H1'].
  unfold handle_failed_payment.
  destruct (TransactionStatus_eqb _ _); [|cbn; auto].
  unfold instance_booking.
  destruct (booking_cache t2) as [b|];
    [|destruct (get_booking d2 _) as [r|]; [|cbn; auto]];
    cbv zeta;
    (destruct (negb _); [|cbn; auto];
     destruct (_ <? _)%Z; [|cbn; auto];
     match goal with
     | |- context [Booking_save ?n ?j ?d] =>
         pose proof (Booking_save_transactions n j d) as Hn;
         destruct (Booking_save n j d) as [i3 d3]
     end;
     cbn in *; split; congruence).
Qed.

Lemma map_status_save_row (l : list Transaction) (trow t' : Transaction) :
  In trow l ->
  txn_pk t' = txn_pk trow ->
  map txn_status (save_row txn_pk t' l)
  = map (fun t => if txn_pk t =? txn_pk trow then txn_status t'
                  else txn_status t) l.
Proof.
  intros Hin Hpk. unfold save_row. rewrite Hpk.
  rewrite (has_row_In txn_pk trow l Hin).
  unfold update_row. rewrite map_map. apply map_ext. intro x.
  rewrite Hpk. now destruct (txn_pk x =? txn_pk trow).
Qed.

(** C7, as stated, fails: after two payment attempts for one booking, both
    verified by the gateway, both of its transactions are successful. *)
Lemma two_successful_transactions_counterexample :
  (exists b, fst Scenario.first_paid = Ok b)
  /\ (exists b, fst Scenario.second_paid = Ok b)
  /\ map (fun t => (txn_booking t, txn_status t))
         (transactions (snd Scenario.second_paid))
     = [(100, TSuccess); (100, TSuccess)].
Proof.
  split; [eexists; vm_compute; reflexivity|].
  split; [eexists; vm_compute; reflexivity|].
  vm_compute; reflexivity.
Qed.

(** C7 (amended).  The code does not bound the successful transactions of
    a booking: a confirmation whose fields the serializer accepts sets the
    transaction it names to success when the gateway verifies it (to failed
    otherwise), whatever the status of the booking and of its other
    transactions, and leaves the status of every other transaction as it
    was; a webhook request changes no transaction. *)
Theorem payment_marks_named_transaction :
  (forall now request db row trow,
      get_user_booking db (confirm_booking_id request) (confirm_user request)
      = Some row ->
      CharField_errors None (confirm_gateway_transaction_id request) = [] ->
      JSONField_errors (confirm_gateway_response request) = [] ->
      get_booking_transaction db (confirm_transaction_id request)
                              (booking_id row) = Some trow ->
      get_gateway (gateway trow) = true ->
      map txn_status
          (transactions (snd (ConfirmPaymentView_update now request db)))
      = map (fun t => if txn_pk t =? txn_pk trow
                      then if is_valid request then TSuccess else TFailed
                      else txn_status t)
            (transactions db))
  /\
  (forall now request db,
      transactions (snd (payment_webhook now request db)) = transactions db).
Proof.
  split.
  - intros now request db row trow Hrow Hf1 Hf2 Htx Hgw.
    destruct (get_booking_transaction_row _ _ _ Htx) as (Htin & Htid & Htb).
    destruct (confirm_fields_accepted _ Hf1 Hf2) as (response & _ & Hfields).
    unfold ConfirmPaymentView_update.
    rewrite Hrow, Hfields. cbn [from_row fields].
    rewrite Htx. cbn [txn_fields]. rewrite Hgw. cbn [negb].
    destruct (is_valid request).
    + match goal with
      | |- context [Transaction_save now ?t db] =>
          destruct (@Transaction_save_transactions now t db) as [H1 H2];
          [cbn; now rewrite Htid|];
          destruct (Transaction_save now t db) as [t1 d1]
      end.
      cbn [fst snd] in H1, H2.
      match goal with
      | |- context [Booking_save now ?j d1] =>
          pose proof (Booking_save_transactions now j d1) as H3;
          destruct (Booking_save now j d1) as [i2 d2]
      end.
      cbn [snd] in H3. cbn. rewrite H3, H1.
      now rewrite (map_status_save_row _ trow _ Htin).
    + match goal with
      | |- context [Transaction_save now ?t db] =>
          destruct (@Transaction_save_transactions now t db) as [H1 H2];
          [cbn; now rewrite Htid|];
          destruct (Transaction_save now t db) as [t1 d1]
      end.
      cbn [fst snd] in H1. cbn. rewrite H1.
      now rewrite (map_status_save_row _ trow _ Htin).
  - intros now request db. now rewrite payment_webhook_unchanged.
Qed.

Lemma payment_marks_named_transaction_witness :
  exists row trow,
    get_user_booking (snd Scenario.first_paid) 100 42 = Some row
    /\ CharField_errors
         None (confirm_gateway_transaction_id Scenario.retry_request) = []
    /\ JSONField_errors (confirm_gateway_response Scenario.retry_request) = []
    /\ get_booking_transaction (snd Scenario.first_paid) 107 (booking_id row)
       = Some trow
    /\ get_gateway (gateway trow) = true
    /\ map txn_status (transactions (snd Scenario.second_paid))
       = map (fun t => if txn_pk t =? txn_pk trow then TSuccess
                       else txn_status t)
             (transactions (snd Scenario.first_paid))
    /\ transactions (snd Scenario.notified_again)
       = transactions Scenario.paid.
Proof.
  eexists. eexists.
  split; [vm_compute; reflexivity|]. split; [vm_compute; reflexivity|].
  split; [vm_compute; reflexivity|]. split; [vm_compute; reflexivity|].
  split; [vm_compute; reflexivity|].
  split.
  { eapply (proj1 payment_marks_named_transaction
                  (minutes 4) Scenario.retry_request (snd Scenario.first_paid));
      (vm_compute; reflexivity). }
  apply (proj2 payment_marks_named_transaction
               (minutes 3) Scenario.webhook_request Scenario.paid).
Defined.

(** C2.  At the very time a pending booking expires, payment initiation is
    refused, but a verified payment confirmation succeeds and the booking
    becomes confirmed: [ConfirmPaymentView.update] has no expiry check. *)
Theorem confirm_payment_at_expiry :
  (exists b, get_booking (snd Scenario.initiated) 100 = Some b
             /\ status b = Pending /\ expires_at b = minutes 15)
  /\ fst Scenario.initiated_late = Fail (Http400 "Booking has expired")
  /\ (exists b, fst Scenario.confirmed_late = Ok b
                /\ status b = Confirmed
                /\ confirmed_at b = Some (minutes 15)
                /\ get_booking (snd Scenario.confirmed_late) 100 = Some b).
Proof.
  split; [eexists; split; [vm_compute; reflexivity | split; reflexivity]|].
  split; [vm_compute; reflexivity|].
  eexists. split; [vm_compute; reflexivity|].
  repeat split.
Qed.

(** The confirmation view never reads [expires_at]: whatever the deadline
    of the booking, a verified confirmation of one of its transactions,
    with fields that the serializer accepts, is answered with the confirmed
    booking. *)
Lemma confirm_payment_never_expired now request db row trow :
  get_user_booking db (confirm_booking_id request) (confirm_user request)
  = Some row ->
  CharField_errors None (confirm_gateway_transaction_id request) = [] ->
  JSONField_errors (confirm_gateway_response request) = [] ->
  get_booking_transaction db (confirm_transaction_id request) (booking_id row)
  = Some trow ->
  get_gateway (gateway trow) = true ->
  is_valid request = true ->
  exists booking,
    fst (ConfirmPaymentView_update now request db) = Ok booking
    /\ status booking = Confirmed.
Proof.
  intros Hrow Hf1 Hf2 Htx Hgw Hvalid.
  destruct (confirm_fields_accepted _ Hf1 Hf2) as (response & _ & Hfields).
  unfold ConfirmPaymentView_update.
  rewrite Hrow, Hfields. cbn [from_row fields]. rewrite Htx. cbn [txn_fields].
  rewrite Hgw, Hvalid. cbn [negb].
  destruct (Transaction_save _ _ _) as [t1 d1].
  match goal with
  | |- context [Booking_save now ?j d1] =>
      assert (Hq : quiet (fields j) = true) by reflexivity;
      pose proof (@Booking_save_fuel_quiet 2 None now j d1 Hq) as Hs;
      pose proof (create_booking_history_fields now) as Hf;
      unfold Booking_save; destruct (Booking_save_fuel 3 None now j d1)
        as [i2 d2] eqn:E
  end.
  eexists. split; [reflexivity|]. cbn [fst].
  unfold save_prefix in Hs. cbn [fields on_fields from_row] in Hs.
  destruct (booking_reference _) in Hs.
  - match type of Hs with
    | context [create_booking_history ?n ?i ?c ?d] =>
        specialize (Hf i c d);
        destruct (create_booking_history n i c d) as [i3 d3]
    end.
    injection Hs as <- _. cbn [fst] in Hf. rewrite Hf, track_fields.
    reflexivity.
  - cbn in Hs.
    match type of Hs with
    | context [create_booking_history ?n ?i ?c ?d] =>
        specialize (Hf i c d);
        destruct (create_booking_history n i c d) as [i3 d3]
    end.
    injection Hs as <- _. cbn [fst] in Hf. rewrite Hf, track_fields.
    reflexivity.
Qed.

(** The half of C2 that the code keeps: payment initiation for a pending
    booking at or past its deadline is refused, no transaction is created
    and the booking is stored as expired. *)
Lemma initiate_payment_expired now request db row :
  consistent db = true ->
  get_user_booking db (initiate_booking_id request) (initiate_user request)
  = Some row ->
  status row = Pending ->
  (expires_at row <= now)%Z ->
  exists db',
    InitiatePaymentView_create now request db
    = (Fail (Http400 "Booking has expired"), db')
    /\ transactions db' = transactions db
    /\ get_booking db' (booking_id row) = Some (with_status Expired row).
Proof.
  intros Hc Hrow Hst Hexp.
  destruct (get_user_booking_row _ _ _ Hc Hrow)
    as (Hin & Hpk & Huser & Hget & Href).
  unfold InitiatePaymentView_create. rewrite Hrow. cbn [from_row fields].
  rewrite Hst. cbn [BookingStatus_eqb negb].
  apply Z.leb_le in Hexp. rewrite Hexp.
  rewrite (@Booking_save_existing now _ _ row);
    [ | unfold get_booking; cbn; rewrite Hpk; exact Hget
      | exact Href
      | reflexivity | reflexivity | reflexivity ].
  cbn [fields on_fields from_row with_status status booking_id
       BookingStatus_eqb].
  rewrite Hst. cbn [BookingStatus_eqb].
  eexists. split; [reflexivity|]. split; [reflexivity|].
  unfold get_booking, seats_update, BookingHistory_create, uuid4. cbn.
  rewrite <- Hpk in Hget.
  exact (find_update_row_same booking_id (with_status Expired row)
                              (bookings db) Hget).
Qed.

(** C6.  A booking whose timer was extended at minute 14 (one minute before
    its deadline) is extended a second time at minute 23: the second call
    succeeds, where a one-time extension has to refuse it.  A second call
    right after the first is refused, but as too early, not as already
    extended. *)
Theorem extend_timer_twice :
  (exists b, get_booking Scenario.booked 100 = Some b
             /\ status b = Pending /\ expires_at b = minutes 15)
  /\ fst Scenario.extended = Ok (minutes 24)
  /\ fst (extend_booking_timer (minutes 14) Scenario.user 100
                               (snd Scenario.extended))
     = Fail (Http400
               "Timer extension only available when booking is about to expire")
  /\ fst Scenario.extended_again = Ok (minutes 33)
  /\ (exists b, get_booking (snd Scenario.extended_again) 100 = Some b
                /\ status b = Pending /\ expires_at b = minutes 33).
Proof.
  split; [eexists; split; [reflexivity | split; reflexivity]|].
  split; [reflexivity|]. split; [reflexivity|]. split; [reflexivity|].
  eexists. split; [reflexivity | split; reflexivity].
Qed.

(** The mark [_timer_extended] lives on the Python object and every
    request loads a new object: the refusal for a second extension is
    never given. *)
Lemma extend_timer_never_refused_as_extended now user pk db :
  fst (extend_booking_timer now user pk db)
  <> Fail (Http400 "Booking timer can only be extended once").
Proof.
  unfold extend_booking_timer.
  destruct (find _ (bookings db)) as [row|]; [|discriminate].
  cbn [from_row _timer_extended is_none negb].
  destruct (seconds 120 <? _)%Z; [discriminate|].
  destruct (Booking_save _ _ _). discriminate.
Qed.

(** The parts of C6 that the code keeps: with more than 120 seconds left
    the call is refused, and otherwise the answer is the call time plus ten
    minutes. *)
Lemma extend_timer_window now user pk db row :
  find (fun b => (booking_id b =? pk) && (booking_user b =? user)
                 && BookingStatus_eqb (status b) Pending)
       (bookings db) = Some row ->
  if (seconds 120 <? expires_at row - now)%Z
  then extend_booking_timer now user pk db
       = (Fail (Http400
                  "Timer extension only available when booking is about to expire"),
          db)
  else fst (extend_booking_timer now user pk db) = Ok (now + minutes 10)%Z.
Proof.
  intro Hrow. unfold extend_booking_timer. rewrite Hrow.
  cbn [from_row _timer_extended is_none negb fields].
  destruct (seconds 120 <? _)%Z; [reflexivity|].
  assert (Hst : status row = Pending).
  { apply find_some in Hrow. destruct Hrow as [_ E].
    apply andb_prop in E. destruct E as [_ E].
    now destruct (status row). }
  rewrite (@Booking_save_fuel_quiet 2 None now)
    by (unfold quiet; cbn; now rewrite Hst).
  unfold save_prefix. cbn [fields on_fields with_expires_at].
  destruct (booking_reference _).
  - match goal with
    | |- context [create_booking_history ?n ?i ?c ?d] =>
        pose proof (create_booking_history_fields n i c d) as Hf;
        destruct (create_booking_history n i c d) as [i3 d3]
    end.
    cbn [fst] in *. rewrite track_fields in Hf. cbn in Hf. now rewrite Hf.
  - cbn.
    match goal with
    | |- context [create_booking_history ?n ?i ?c ?d] =>
        pose proof (create_booking_history_fields n i c d) as Hf;
        destruct (create_booking_history n i c d) as [i3 d3]
    end.
    cbn [fst] in *. rewrite track_fields in Hf. cbn in Hf. now rewrite Hf.
Qed.

(** * How requests change the database *)

Ltac same_field :=
  first [ reflexivity
        | exists []; now rewrite app_nil_r
        | lia ].

Ltac evolves_frame := constructor; cbn; try same_field.

Lemma Evolves_refl db : Evolves db db.
Proof. evolves_frame. Qed.

Lemma Evolves_trans db1 db2 db3 :
  Evolves db1 db2 -> Evolves db2 db3 -> Evolves db1 db3.
Proof.
  intros [a1 a2 a3 [l4 a4] [l5 a5] [l6 a6] [l7 a7] [l8 a8] [l9 a9] [l10 a10] a11]
         [b1 b2 b3 [m4 b4] [m5 b5] [m6 b6] [m7 b7] [m8 b8] [m9 b9] [m10 b10] b11].
  constructor; try congruence; try lia.
  - exists (l4 ++ m4). now rewrite b4, a4, app_assoc.
  - exists (l5 ++ m5). now rewrite b5, a5, app_assoc.
  - exists (l6 ++ m6). now rewrite b6, a6, app_assoc.
  - exists (l7 ++ m7). now rewrite b7, a7, app_assoc.
  - exists (l8 ++ m8). now rewrite b8, a8, app_assoc.
  - exists (l9 ++ m9). now rewrite b9, a9, app_assoc.
  - exists (l10 ++ m10). now rewrite b10, a10, app_assoc.
Qed.

Lemma Kept_refl db : sound db = true -> Kept db db.
Proof. intro H. split; [exact H | apply Evolves_refl]. Qed.

Lemma Kept_trans db1 db2 db3 : Kept db1 db2 -> Kept db2 db3 -> Kept db1 db3.
Proof.
  intros [_ H1] [H2 H3]. split; [exact H2 | eapply Evolves_trans; eassumption].
Qed.

Lemma Kept_sound db db' : Kept db db' -> sound db' = true.
Proof. now intros [H _]. Qed.

Lemma Kept_uuid db db' : Kept db db' -> next_uuid db <= next_uuid db'.
Proof. intros [_ H]. apply H. Qed.

Lemma NoDup_distinct l : NoDup l -> distinct l = true.
Proof.
  induction 1 as [|x l Hx Hl IH]; cbn; [reflexivity|].
  rewrite IH, andb_true_r. apply negb_true_iff, not_true_is_false.
  intro H. now apply mem_In in H.
Qed.

Lemma consistent_of_parts db :
  NoDup (map seat_id (seats db)) ->
  NoDup (map booking_id (bookings db)) ->
  NoDup (map txn_pk (transactions db)) ->
  (forall b, In b (bookings db) -> booking_id b < next_uuid db) ->
  (forall p, In p (booking_seats db) -> fst p < next_uuid db) ->
  (forall h, In h (history db) -> history_booking h < next_uuid db) ->
  (forall b, In b (bookings db) -> is_none (booking_reference b) = false) ->
  (forall t, In t (transactions db) -> is_none (transaction_id t) = false) ->
  consistent db = true.
Proof.
  intros H1 H2 H3 H4 H5 H6 H7 H8. unfold consistent.
  rewrite !NoDup_distinct by assumption. cbn.
  repeat (apply andb_true_intro; split); apply forallb_forall.
  - intros b Hb. apply Nat.ltb_lt. auto.
  - intros p Hp. apply Nat.ltb_lt. auto.
  - intros h Hh. apply Nat.ltb_lt. auto.
  - intros b Hb. apply negb_true_iff. auto.
  - intros t Ht. apply negb_true_iff. auto.
Qed.

Lemma sound_consistent db : sound db = true -> consistent db = true.
Proof. unfold sound. intro H. apply andb_prop in H. tauto. Qed.

Lemma sound_parts db :
  sound db = true ->
  NoDup (map seat_id (seats db))
  /\ NoDup (map booking_id (bookings db))
  /\ NoDup (map txn_pk (transactions db))
  /\ (forall b, In b (bookings db) -> booking_id b < next_uuid db)
  /\ (forall p, In p (booking_seats db) -> fst p < next_uuid db)
  /\ (forall h, In h (history db) -> history_booking h < next_uuid db)
  /\ (forall b, In b (bookings db) -> is_none (booking_reference b) = false)
  /\ (forall t, In t (transactions db) -> is_none (transaction_id t) = false)
  /\ (forall t, In t (transactions db) -> txn_pk t < next_uuid db).
Proof.
  unfold sound. intro H. apply andb_prop in H. destruct H as [Hc Ht].
  destruct (consistent_parts _ Hc) as (H1 & H2 & H3 & H4 & H5 & H6 & H7 & H8).
  repeat split; try assumption.
  intros t Hin. eapply forallb_forall in Ht; [|exact Hin].
  now apply Nat.ltb_lt.
Qed.

Lemma sound_of_parts db :
  NoDup (map seat_id (seats db)) ->
  NoDup (map booking_id (bookings db)) ->
  NoDup (map txn_pk (transactions db)) ->
  (forall b, In b (bookings db) -> booking_id b < next_uuid db) ->
  (forall p, In p (booking_seats db) -> fst p < next_uuid db) ->
  (forall h, In h (history db) -> history_booking h < next_uuid db) ->
  (forall b, In b (bookings db) -> is_none (booking_reference b) = false) ->
  (forall t, In t (transactions db) -> is_none (transaction_id t) = false) ->
  (forall t, In t (transactions db) -> txn_pk t < next_uuid db) ->
  sound db = true.
Proof.
  intros H1 H2 H3 H4 H5 H6 H7 H8 H9. unfold sound.
  rewrite consistent_of_parts by assumption. cbn.
  apply forallb_forall. intros t Ht. apply Nat.ltb_lt. auto.
Qed.

(** ** The elementary writes *)

Lemma Kept_seats_update booking v db :
  sound db = true -> Kept db (seats_update booking v db).
Proof.
  intro Hc.
  destruct (sound_parts _ Hc) as (H1 & H2 & H3 & H4 & H5 & H6 & H7 & H8 & H9).
  split.
  - apply sound_of_parts; try assumption. now rewrite seats_update_ids.
  - evolves_frame. rewrite map_map. apply map_ext. intro s.
    now destruct (mem _ _).
Qed.

Lemma Kept_delay t db : sound db = true -> Kept db (delay t db).
Proof.
  intro Hc.
  destruct (sound_parts _ Hc) as (H1 & H2 & H3 & H4 & H5 & H6 & H7 & H8 & H9).
  split; [now apply sound_of_parts|].
  evolves_frame. now exists [t].
Qed.

Lemma Kept_uuid4 db : sound db = true -> Kept db (snd (uuid4 db)).
Proof.
  intro Hc.
  destruct (sound_parts _ Hc) as (H1 & H2 & H3 & H4 & H5 & H6 & H7 & H8 & H9).
  split; [|evolves_frame].
  apply sound_of_parts; try assumption; cbn.
  - intros b Hb. specialize (H4 b Hb). lia.
  - intros p Hp. specialize (H5 p Hp). lia.
  - intros h Hh. specialize (H6 h Hh). lia.
  - intros t Ht. specialize (H9 t Ht). lia.
Qed.

Lemma Kept_history_create booking previous new by_user reason now db :
  sound db = true ->
  booking < next_uuid db ->
  Kept db (BookingHistory_create booking previous new by_user reason now db).
Proof.
  intros Hc Hb.
  destruct (sound_parts _ Hc) as (H1 & H2 & H3 & H4 & H5 & H6 & H7 & H8 & H9).
  split.
  - apply sound_of_parts; try assumption; cbn.
    + intros b Hin. specialize (H4 b Hin). lia.
    + intros p Hp. specialize (H5 p Hp). lia.
    + intros h Hh. apply in_app_or in Hh. destruct Hh as [Hh | [<- | []]].
      * specialize (H6 h Hh). lia.
      * cbn. lia.
    + intros t Ht. specialize (H9 t Ht). lia.
  - evolves_frame. eexists. reflexivity.
Qed.

Lemma Kept_notify n db :
  sound db = true ->
  Kept db (set_notifications (notifications db ++ [n]) db).
Proof.
  intro Hc.
  destruct (sound_parts _ Hc) as (H1 & H2 & H3 & H4 & H5 & H6 & H7 & H8 & H9).
  split; [now apply sound_of_parts|].
  evolves_frame. now exists [n].
Qed.

(** Stored rows are rewritten outside their static part. *)
Lemma Kept_bookings_map (g : Booking -> Booking) db :
  sound db = true ->
  (forall b, In b (bookings db) -> booking_static (g b) = booking_static b) ->
  Kept db (set_bookings (map g (bookings db)) db).
Proof.
  intros Hc Hg.
  destruct (sound_parts _ Hc) as (H1 & H2 & H3 & H4 & H5 & H6 & H7 & H8 & H9).
  assert (Hid : forall b, In b (bookings db) -> booking_id (g b) = booking_id b).
  { intros b Hb. specialize (Hg b Hb). unfold booking_static in Hg.
    congruence. }
  assert (Href : forall b, In b (bookings db) ->
                           booking_reference (g b) = booking_reference b).
  { intros b Hb. specialize (Hg b Hb). unfold booking_static in Hg.
    congruence. }
  split.
  - apply sound_of_parts; try assumption; cbn.
    + rewrite map_map. erewrite map_ext_in; [exact H2 | exact Hid].
    + intros b Hb. apply in_map_iff in Hb. destruct Hb as [x [<- Hx]].
      rewrite Hid by exact Hx. auto.
    + intros b Hb. apply in_map_iff in Hb. destruct Hb as [x [<- Hx]].
      rewrite Href by exact Hx. auto.
  - evolves_frame. exists []. rewrite app_nil_r, map_map.
    apply map_ext_in. exact Hg.
Qed.

Lemma NoDup_save_row (A : Type) (pk : A -> nat) (r : A) (l : list A) :
  NoDup (map pk l) -> NoDup (map pk (save_row pk r l)).
Proof.
  intro H. unfold save_row. destruct (has_row pk (pk r) l) eqn:E.
  - now rewrite map_pk_update_row.
  - rewrite map_app. cbn. apply NoDup_app; [exact H | repeat constructor; auto|].
    intros a Ha [<- | []]. apply in_map_iff in Ha. destruct Ha as [x [Hx Hin]].
    assert (has_row pk (pk r) l = true); [|congruence].
    apply existsb_exists. exists x. split; [exact Hin | now apply Nat.eqb_eq].
Qed.

Lemma In_save_row (A : Type) (pk : A -> nat) (r x : A) (l : list A) :
  In x (save_row pk r l) -> x = r \/ In x l.
Proof.
  unfold save_row. destruct (has_row pk (pk r) l).
  - unfold update_row. intro H. apply in_map_iff in H.
    destruct H as [y [Hy Hin]]. destruct (pk y =? pk r); subst; auto.
  - intro H. apply in_app_or in H. destruct H as [H | [<- | []]]; auto.
Qed.

(** Two rows of one key in a table without duplicate keys are one row. *)
Lemma static_by_key (A S : Type) (pk : A -> nat) (st : A -> S) (l : list A)
      (r : A) :
  NoDup (map pk l) ->
  (forall a b, st a = st b -> pk a = pk b) ->
  In (st r) (map st l) ->
  forall x, In x l -> pk x = pk r -> st x = st r.
Proof.
  intros Hnd Hst Hin x Hx E.
  apply in_map_iff in Hin. destruct Hin as [y [Hy Hyin]].
  assert (x = y).
  { apply (NoDup_pk_eq pk l x y Hnd Hx Hyin). rewrite E. symmetry.
    now apply Hst. }
  now subst.
Qed.

Lemma booking_static_id a b :
  booking_static a = booking_static b -> booking_id a = booking_id b.
Proof. unfold booking_static. congruence. Qed.

Lemma txn_static_pk a b : txn_static a = txn_static b -> txn_pk a = txn_pk b.
Proof. unfold txn_static. congruence. Qed.

Lemma stored_row b db : In b (bookings db) -> stored b db.
Proof. intro H. unfold stored. now apply in_map. Qed.

Lemma stored_Evolves b db db' : stored b db -> Evolves db db' -> stored b db'.
Proof.
  unfold stored. intros H [_ _ _ [l E] _ _ _ _ _ _ _]. rewrite E.
  apply in_or_app. now left.
Qed.

Lemma stored_facts b db :
  sound db = true -> stored b db ->
  booking_id b < next_uuid db
  /\ is_none (booking_reference b) = false
  /\ has_row booking_id (booking_id b) (bookings db) = true
  /\ exists old, get_booking db (booking_id b) = Some old
                 /\ booking_static old = booking_static b.
Proof.
  intros Hc Hs.
  destruct (sound_parts _ Hc) as (H1 & H2 & H3 & H4 & H5 & H6 & H7 & H8 & H9).
  unfold stored in Hs. apply in_map_iff in Hs. destruct Hs as [old [Ho Hin]].
  pose proof (booking_static_id Ho) as Hid.
  assert (Href : booking_reference old = booking_reference b)
    by (unfold booking_static in Ho; congruence).
  repeat split.
  - rewrite <- Hid. auto.
  - rewrite <- Href. auto.
  - rewrite <- Hid. now apply has_row_In.
  - exists old. split; [|exact Ho]. unfold get_booking. rewrite <- Hid.
    now apply find_pk_unique.
Qed.

(** Writing the object of a stored booking keeps the static part of every
    row. *)
Lemma Kept_write_booking update_fields b db :
  sound db = true -> stored b db ->
  Kept db (write_booking update_fields b db).
Proof.
  intros Hc Hs.
  destruct update_fields as [[|]|]; cbn [write_booking].
  - apply Kept_bookings_map; [exact Hc|]. intros x _.
    now destruct (booking_id x =? booking_id b).
  - apply Kept_bookings_map; [exact Hc|]. intros x _.
    now destruct (booking_id x =? booking_id b).
  - destruct (@stored_facts b db Hc Hs) as (_ & _ & Hrow & _).
    destruct (sound_parts _ Hc) as (_ & Hnd & _).
    unfold save_row. rewrite Hrow.
    apply Kept_bookings_map; [exact Hc|]. intros x Hx.
    destruct (booking_id x =? booking_id b) eqn:E; [|reflexivity].
    apply Nat.eqb_eq in E. symmetry.
    exact (static_by_key booking_id booking_static (bookings db) b Hnd
                         booking_static_id Hs x Hx E).
Qed.

Lemma Kept_transactions_map (g : Transaction -> Transaction) db :
  sound db = true ->
  (forall t, In t (transactions db) -> txn_static (g t) = txn_static t) ->
  Kept db (set_transactions (map g (transactions db)) db).
Proof.
  intros Hc Hg.
  destruct (sound_parts _ Hc) as (H1 & H2 & H3 & H4 & H5 & H6 & H7 & H8 & H9).
  assert (Hid : forall t, In t (transactions db) -> txn_pk (g t) = txn_pk t).
  { intros t Ht. specialize (Hg t Ht). unfold txn_static in Hg. congruence. }
  assert (Href : forall t, In t (transactions db) ->
                           transaction_id (g t) = transaction_id t).
  { intros t Ht. specialize (Hg t Ht). unfold txn_static in Hg. congruence. }
  split.
  - apply sound_of_parts; try assumption; cbn.
    + rewrite map_map. erewrite map_ext_in; [exact H3 | exact Hid].
    + intros t Ht. apply in_map_iff in Ht. destruct Ht as [x [<- Hx]].
      rewrite Href by exact Hx. auto.
    + intros t Ht. apply in_map_iff in Ht. destruct Ht as [x [<- Hx]].
      rewrite Hid by exact Hx. auto.
  - evolves_frame. exists []. rewrite app_nil_r, map_map.
    apply map_ext_in. exact Hg.
Qed.

Lemma txn_stored_facts t db :
  sound db = true -> txn_stored t db ->
  is_none (transaction_id t) = false
  /\ has_row txn_pk (txn_pk t) (transactions db) = true.
Proof.
  intros Hc Hs.
  destruct (sound_parts _ Hc) as (H1 & H2 & H3 & H4 & H5 & H6 & H7 & H8 & H9).
  unfold txn_stored in Hs. apply in_map_iff in Hs. destruct Hs as [old [Ho Hin]].
  pose proof (txn_static_pk Ho) as Hid.
  assert (Href : transaction_id old = transaction_id t)
    by (unfold txn_static in Ho; congruence).
  split.
  - rewrite <- Href. auto.
  - rewrite <- Hid. now apply has_row_In.
Qed.

Lemma Kept_write_transaction t db :
  sound db = true -> txn_stored t db ->
  Kept db (set_transactions (save_row txn_pk t (transactions db)) db).
Proof.
  intros Hc Hs.
  destruct (@txn_stored_facts t db Hc Hs) as (_ & Hrow).
  destruct (sound_parts _ Hc) as (_ & _ & Hnd & _).
  unfold save_row. rewrite Hrow.
  apply Kept_transactions_map; [exact Hc|]. intros x Hx.
  destruct (txn_pk x =? txn_pk t) eqn:E; [|reflexivity].
  apply Nat.eqb_eq in E. symmetry.
  exact (static_by_key txn_pk txn_static (transactions db) t Hnd
                       txn_static_pk Hs x Hx E).
Qed.

Lemma txn_stored_Evolves t db db' :
  txn_stored t db -> Evolves db db' -> txn_stored t db'.
Proof.
  unfold txn_stored. intros H [_ _ _ _ _ [l E] _ _ _ _ _]. rewrite E.
  apply in_or_app. now left.
Qed.

(** ** [Booking.save] and [Transaction.save] *)

Lemma save_prefix_kept uf now i db :
  sound db = true -> stored (fields i) db ->
  Kept db (snd (save_prefix uf now i db))
  /\ fields (fst (save_prefix uf now i db)) = fields i.
Proof.
  intros Hc Hs.
  destruct (@stored_facts (fields i) db Hc Hs) as (Hlt & Href & Hrow & _).
  unfold save_prefix.
  destruct (booking_reference (fields i)) eqn:R; [|discriminate].
  rewrite track_fields, Hrow, andb_false_r.
  pose proof (@Kept_write_booking uf _ _ Hc Hs) as Hw.
  unfold create_booking_history.
  destruct (_status_changed (track_booking_status_change i db)) as [[|]|];
    try (cbn [fst snd]; split; [exact Hw | apply track_fields]).
  destruct (_old_status (track_booking_status_change i db));
    [|cbn [fst snd]; split; [exact Hw | apply track_fields]].
  cbn [fst snd fields]. split; [|apply track_fields].
  eapply Kept_trans; [exact Hw|].
  apply Kept_history_create; [exact (@Kept_sound _ _ Hw)|].
  rewrite track_fields. pose proof (@Kept_uuid _ _ Hw). lia.
Qed.

Lemma Booking_save_fuel_kept fuel :
  forall uf now i db,
    sound db = true -> stored (fields i) db ->
    Kept db (snd (Booking_save_fuel fuel uf now i db))
    /\ booking_static (fields (fst (Booking_save_fuel fuel uf now i db)))
       = booking_static (fields i).
Proof.
  induction fuel as [|fuel IH]; intros uf now i db Hc Hs.
  - cbn. split; [now apply Kept_refl | reflexivity].
  - rewrite Booking_save_fuel_unfold.
    destruct (@save_prefix_kept uf now i db Hc Hs) as [Hk Hf].
    destruct (save_prefix uf now i db) as [i1 d1]. cbn [fst snd] in Hk, Hf.
    assert (Hs1 : stored (fields i1) d1).
    { rewrite Hf. eapply stored_Evolves; [exact Hs | apply Hk]. }
    (* second receiver *)
    assert (H2 : Kept db (snd (handle_booking_confirmation
                                 (Booking_save_fuel fuel) now i1 d1))
                 /\ booking_static
                      (fields (fst (handle_booking_confirmation
                                      (Booking_save_fuel fuel) now i1 d1)))
                    = booking_static (fields i)).
    { unfold handle_booking_confirmation.
      destruct (_ && _); [|cbn [fst snd]; split; [exact Hk | now rewrite Hf]].
      set (i2 := on_fields (with_confirmed_at (Some now)) i1).
      assert (Hs2 : stored (fields i2) d1) by exact Hs1.
      destruct (IH (Some field_confirmed_at) now i2 d1
                   (@Kept_sound _ _ Hk) Hs2) as [Hk2 Hf2].
      destruct (Booking_save_fuel fuel (Some field_confirmed_at) now i2 d1)
        as [i3 d3]. cbn [fst snd] in Hk2, Hf2.
      assert (Hst : booking_static (fields i3) = booking_static (fields i)).
      { rewrite Hf2. subst i2. cbn. now rewrite Hf. }
      assert (Hk3 : Kept db d3) by (eapply Kept_trans; eassumption).
      destruct (get_showtime d3 _); [|cbn [fst snd]; split; assumption].
      destruct (_ <? _)%Z; [|cbn [fst snd]; split; assumption].
      cbn [fst snd]. split; [|exact Hst].
      eapply Kept_trans; [exact Hk3|].
      apply Kept_delay. exact (@Kept_sound _ _ Hk3). }
    destruct (handle_booking_confirmation (Booking_save_fuel fuel) now i1 d1)
      as [i4 d4]. cbn [fst snd] in H2. destruct H2 as [Hk4 Hf4].
    (* third receiver *)
    unfold handle_booking_cancellation.
    destruct (BookingStatus_eqb _ _); [|cbn [fst snd]; split; assumption].
    assert (Hk5 : Kept db (seats_update (booking_id (fields i4)) true d4)).
    { eapply Kept_trans; [exact Hk4|].
      apply Kept_seats_update. exact (@Kept_sound _ _ Hk4). }
    destruct (is_none _); [|cbn [fst snd]; split; assumption].
    set (i5 := on_fields (with_cancelled_at (Some now)) i4).
    assert (Hs5 : stored (fields i5)
                         (seats_update (booking_id (fields i4)) true d4)).
    { eapply stored_Evolves; [|apply Hk5].
      unfold stored. subst i5. cbn [fields on_fields].
      change (booking_static (with_cancelled_at (Some now) (fields i4)))
        with (booking_static (fields i4)).
      rewrite Hf4. exact Hs. }
    destruct (IH (Some field_cancelled_at) now i5 _
                 (@Kept_sound _ _ Hk5) Hs5) as [Hk6 Hf6].
    split.
    + eapply Kept_trans; eassumption.
    + rewrite Hf6. subst i5. cbn. exact Hf4.
Qed.

Lemma Booking_save_kept now i db :
  sound db = true -> stored (fields i) db ->
  Kept db (snd (Booking_save now i db))
  /\ booking_static (fields (fst (Booking_save now i db)))
     = booking_static (fields i).
Proof. apply Booking_save_fuel_kept. Qed.

Lemma cache_stored_Evolves t db db' :
  cache_stored t db -> Evolves db db' -> cache_stored t db'.
Proof.
  intros H Hev b Hb. eapply stored_Evolves; [apply H; exact Hb | exact Hev].
Qed.

Lemma instance_booking_stored t db :
  cache_stored t db ->
  match instance_booking t db with
  | (Some b, t') =>
      stored (fields b) db /\ txn_fields t' = txn_fields t
      /\ cache_stored t' db
  | (None, t') => t' = t
  end.
Proof.
  intro Hcs. unfold instance_booking.
  destruct (booking_cache t) as [b|] eqn:Hb.
  - repeat split; auto.
  - destruct (get_booking db _) as [r|] eqn:Hr; [|reflexivity].
    apply find_some in Hr. destruct Hr as [Hin _].
    repeat split.
    + now apply stored_row.
    + intros b Hb'. cbn in Hb'. injection Hb' as <-. now apply stored_row.
Qed.

Lemma Transaction_save_kept now t db :
  sound db = true ->
  txn_stored (txn_fields t) db ->
  cache_stored t db ->
  Kept db (snd (Transaction_save now t db))
  /\ txn_fields (fst (Transaction_save now t db)) = txn_fields t
  /\ cache_stored (fst (Transaction_save now t db))
                  (snd (Transaction_save now t db)).
Proof.
  intros Hc Hs Hcs.
  destruct (@txn_stored_facts (txn_fields t) db Hc Hs) as (Hid & Hrow).
  unfold Transaction_save.
  destruct (transaction_id (txn_fields t)); [|discriminate].
  pose proof (@Kept_write_transaction (txn_fields t) db Hc Hs) as Hw.
  set (d1 := set_transactions _ db) in *.
  pose proof (@cache_stored_Evolves t db d1 Hcs (proj2 Hw)) as Hcs1.
  (* first receiver *)
  assert (H1 : Kept db (snd (handle_successful_payment now t d1))
               /\ txn_fields (fst (handle_successful_payment now t d1))
                  = txn_fields t
               /\ cache_stored (fst (handle_successful_payment now t d1))
                               (snd (handle_successful_payment now t d1))).
  { unfold handle_successful_payment.
    destruct (TransactionStatus_eqb _ _); [|cbn [fst snd]; auto].
    pose proof (@instance_booking_stored t d1 Hcs1) as Hib.
    destruct (instance_booking t d1) as [[b|] t1];
      [|subst t1; cbn [fst snd]; auto].
    destruct Hib as (Hb & Ht1 & Hcs2).
    destruct (BookingStatus_eqb _ _);
      [|cbn [fst snd]; rewrite Ht1; auto].
    set (b2 := on_fields (with_confirmed_at (Some now))
                         (on_fields (with_status Confirmed) b)).
    assert (Hb2 : stored (fields b2) d1) by exact Hb.
    destruct (@Booking_save_kept now b2 d1 (@Kept_sound _ _ Hw) Hb2)
      as [Hk Hf].
    destruct (Booking_save now b2 d1) as [b3 d3]. cbn [fst snd] in Hk, Hf.
    cbn [fst snd txn_fields].
    assert (Hk3 : Kept db d3) by (eapply Kept_trans; eassumption).
    assert (Hk4 : Kept d3 (delay (send_booking_confirmation_task
                                    (booking_id (fields b3))) d3))
      by (apply Kept_delay; exact (@Kept_sound _ _ Hk3)).
    split; [eapply Kept_trans; eassumption|]. split; [exact Ht1|].
    intros x Hx. cbn in Hx. injection Hx as <-.
    eapply stored_Evolves; [|apply Hk4].
    unfold stored. rewrite Hf.
    eapply stored_Evolves; [exact Hb2 | apply Hk]. }
  destruct (handle_successful_payment now t d1) as [t2 d2].
  cbn [fst snd] in H1. destruct H1 as (Hk2 & Ht2 & Hcs2).
  (* second receiver *)
  unfold handle_failed_payment.
  destruct (TransactionStatus_eqb _ _); [|cbn [fst snd]; auto].
  pose proof (@instance_booking_stored t2 d2 Hcs2) as Hib.
  destruct (instance_booking t2 d2) as [[b|] t3];
    [|subst t3; cbn [fst snd]; auto].
  destruct Hib as (Hb & Ht3 & Hcs3).
  destruct (negb _); [|cbn [fst snd]; rewrite Ht3; auto].
  assert (Hk5 : Kept db (seats_update (booking_id (fields b)) true d2)).
  { eapply Kept_trans; [exact Hk2|].
    apply Kept_seats_update. exact (@Kept_sound _ _ Hk2). }
  assert (Hev5 : Evolves d2 (seats_update (booking_id (fields b)) true d2))
    by (apply Kept_seats_update; exact (@Kept_sound _ _ Hk2)).
  destruct (_ <? _)%Z.
  - set (b2 := on_fields (with_expires_at (now + minutes 15)%Z) b).
    assert (Hb2 : stored (fields b2)
                         (seats_update (booking_id (fields b)) true d2)).
    { eapply stored_Evolves; [exact Hb | exact Hev5]. }
    destruct (@Booking_save_kept now b2 _ (@Kept_sound _ _ Hk5) Hb2)
      as [Hk Hf].
    destruct (Booking_save now b2 _) as [b3 d3]. cbn [fst snd] in Hk, Hf.
    cbn [fst snd txn_fields].
    split; [eapply Kept_trans; eassumption|].
    split; [now rewrite Ht3|].
    intros x Hx. cbn in Hx. injection Hx as <-.
    unfold stored. rewrite Hf.
    eapply stored_Evolves; [exact Hb2 | apply Hk].
  - cbn [fst snd]. split; [exact Hk5|]. split; [now rewrite Ht3|].
    eapply cache_stored_Evolves; [exact Hcs3 | exact Hev5].
Qed.

(** ** The requests *)

Lemma Kept_create now request db :
  sound db = true ->
  Kept db (snd (CreateBookingView_create now request db)).
Proof.
  intro Hs. rewrite create_booking_unchanged. now apply Kept_refl.
Qed.

(** Saving a transaction that is not stored yet and only initiated: an
    identifier is drawn and the row is added. *)
Lemma Transaction_save_new now t cache db :
  has_row txn_pk (txn_pk t) (transactions db) = false ->
  transaction_id t = None ->
  txn_status t = TInitiated ->
  Transaction_save now (mkTransactionInstance t cache) db
  = (mkTransactionInstance (with_transaction_id (Some (next_uuid db)) t) cache,
     mkDB (seats db) (showtimes db) (bookings db) (booking_seats db)
          (transactions db ++ [with_transaction_id (Some (next_uuid db)) t])
          (history db) (refunds db) (policies db) (notifications db)
          (celery db) (S (next_uuid db))).
Proof.
  intros Hrow Hid Hst. destruct t. cbn in Hid, Hst, Hrow. subst.
  unfold Transaction_save, handle_successful_payment, handle_failed_payment,
    save_row.
  cbn -[has_row]. rewrite Hrow. reflexivity.
Qed.

Lemma Kept_new_transaction t db :
  sound db = true ->
  has_row txn_pk (txn_pk t) (transactions db) = false ->
  is_none (transaction_id t) = false ->
  forall n, next_uuid db <= n -> txn_pk t < n ->
  Kept db (mkDB (seats db) (showtimes db) (bookings db) (booking_seats db)
                (transactions db ++ [t])
                (history db) (refunds db) (policies db) (notifications db)
                (celery db) n).
Proof.
  intros Hs Hrow Hid n Hn Hlt.
  destruct (sound_parts _ Hs) as (H1 & H2 & H3 & H4 & H5 & H6 & H7 & H8 & H9).
  split.
  - apply sound_of_parts; cbn; try assumption.
    + rewrite map_app. cbn. apply NoDup_app; [exact H3 | repeat constructor; auto|].
      intros a Ha [<- | []]. apply in_map_iff in Ha.
      destruct Ha as [x [Hx Hin]].
      assert (has_row txn_pk (txn_pk t) (transactions db) = true);
        [|congruence].
      rewrite <- Hx. now apply has_row_In.
    + intros b Hb. specialize (H4 b Hb). lia.
    + intros p Hp. specialize (H5 p Hp). lia.
    + intros h Hh. specialize (H6 h Hh). lia.
    + intros x Hin. apply in_app_or in Hin. destruct Hin as [Hin | [<- | []]];
        auto.
    + intros x Hin. apply in_app_or in Hin. destruct Hin as [Hin | [<- | []]].
      * specialize (H9 x Hin). lia.
      * lia.
  - constructor; cbn; try same_field.
    rewrite map_app. eexists. reflexivity.
Qed.

Lemma has_row_bound (A : Type) (pk : A -> nat) (l : list A) n :
  (forall x, In x l -> pk x < n) -> has_row pk n l = false.
Proof.
  intro H. unfold has_row. apply not_true_is_false. intro E.
  apply existsb_exists in E. destruct E as [x [Hin Hx]].
  apply Nat.eqb_eq in Hx. specialize (H x Hin). lia.
Qed.

Lemma get_user_booking_In db pk user row :
  get_user_booking db pk user = Some row -> In row (bookings db).
Proof. intro H. apply find_some in H. tauto. Qed.

Lemma Kept_initiate now request db :
  sound db = true ->
  Kept db (snd (InitiatePaymentView_create now request db)).
Proof.
  intro Hs. unfold InitiatePaymentView_create.
  destruct (get_user_booking db _ _) as [row|] eqn:Hrow;
    [|now apply Kept_refl].
  pose proof (stored_row _ _ (get_user_booking_In _ _ _ Hrow)) as Hst.
  cbn [from_row fields].
  destruct (negb _); [now apply Kept_refl|].
  destruct (_ <=? _)%Z.
  - set (b := on_fields (with_status Expired) (from_row row)).
    destruct (@Booking_save_kept now b db Hs Hst) as [Hk Hf].
    destruct (Booking_save now b db) as [b1 d1]. cbn [fst snd] in *.
    eapply Kept_trans; [exact Hk|].
    apply Kept_seats_update. exact (@Kept_sound _ _ Hk).
  - destruct (sound_parts _ Hs)
      as (H1 & H2 & H3 & H4 & H5 & H6 & H7 & H8 & H9).
    cbn [uuid4 fst snd].
    rewrite Transaction_save_new;
      [ | apply has_row_bound; cbn; exact H9 | reflexivity | reflexivity ].
    cbn [next_uuid set_next_uuid].
    match goal with
    | |- context [mkDB _ _ _ _ (_ ++ [?t]) _ _ _ _ _ ?n] =>
        assert (Hk : Kept db (mkDB (seats db) (showtimes db) (bookings db)
                                   (booking_seats db) (transactions db ++ [t])
                                   (history db) (refunds db) (policies db)
                                   (notifications db) (celery db) n))
    end.
    { apply Kept_new_transaction; try assumption; cbn; try lia; try reflexivity.
      apply has_row_bound. exact H9. }
    cbn [set_next_uuid seats showtimes bookings booking_seats transactions
         history refunds policies notifications celery] in *.
    destruct (negb _); [exact Hk|].
    destruct (initiate_order request) as [payment_data|]; exact Hk.
Qed.

Lemma Kept_confirm now request db :
  sound db = true ->
  Kept db (snd (ConfirmPaymentView_update now request db)).
Proof.
  intro Hs. unfold ConfirmPaymentView_update.
  destruct (get_user_booking db _ _) as [row|] eqn:Hrow;
    [|now apply Kept_refl].
  pose proof (stored_row _ _ (get_user_booking_In _ _ _ Hrow)) as Hst.
  cbn [from_row fields].
  destruct (PaymentConfirmSerializer_is_valid request)
    as [[gateway_transaction_id gateway_response]|e];
    [|now apply Kept_refl].
  destruct (get_booking_transaction db _ _) as [trow|] eqn:Htx;
    [|now apply Kept_refl].
  destruct (get_booking_transaction_row _ _ _ Htx) as (Htin & _ & _).
  cbn [txn_fields].
  destruct (negb _); [now apply Kept_refl|].
  assert (Hnone : forall f, cache_stored
                              (mkTransactionInstance f None) db)
    by (intros f x Hx; discriminate).
  destruct (is_valid request).
  - match goal with
    | |- context [Transaction_save now ?t db] =>
        destruct (@Transaction_save_kept now t db Hs) as (Hk1 & _ & _);
          [ unfold txn_stored; cbn;
            change (txn_static (with_gateway_response _ _))
              with (txn_static trow);
            now apply in_map
          | apply Hnone | ];
        destruct (Transaction_save now t db) as [t1 d1]
    end.
    cbn [fst snd] in Hk1.
    set (b := on_fields (with_confirmed_at (Some now))
                        (on_fields (with_status Confirmed) (from_row row))).
    assert (Hb : stored (fields b) d1)
      by (eapply stored_Evolves; [exact Hst | apply Hk1]).
    destruct (@Booking_save_kept now b d1 (@Kept_sound _ _ Hk1) Hb)
      as [Hk2 Hf].
    destruct (Booking_save now b d1) as [b2 d2]. cbn [fst snd] in *.
    assert (Hk3 : Kept db d2) by (eapply Kept_trans; eassumption).
    assert (Hlt : booking_id (fields b2) < next_uuid d2).
    { destruct (@stored_facts (fields b) d1 (@Kept_sound _ _ Hk1) Hb)
        as (Hlt & _).
      rewrite (booking_static_id Hf). pose proof (@Kept_uuid _ _ Hk2). lia. }
    eapply Kept_trans; [exact Hk3|].
    eapply Kept_trans.
    + apply Kept_history_create; [exact (@Kept_sound _ _ Hk3) | exact Hlt].
    + apply Kept_delay.
      apply (@Kept_sound d2). apply Kept_history_create;
        [exact (@Kept_sound _ _ Hk3) | exact Hlt].
  - match goal with
    | |- context [Transaction_save now ?t db] =>
        destruct (@Transaction_save_kept now t db Hs) as (Hk1 & _ & _);
          [ unfold txn_stored; cbn;
            change (txn_static (with_gateway_response _ _))
              with (txn_static trow);
            now apply in_map
          | apply Hnone | ];
        destruct (Transaction_save now t db) as [t1 d1]
    end.
    exact Hk1.
Qed.
Lemma Kept_step db d1 d2 :
  Kept db d1 -> (sound d1 = true -> Kept d1 d2) -> Kept db d2.
Proof.
  intros H1 H2. eapply Kept_trans; [exact H1|]. apply H2.
  exact (@Kept_sound _ _ H1).
Qed.

Lemma Kept_refund r db :
  sound db = true -> Kept db (set_refunds (refunds db ++ [r]) db).
Proof.
  intro Hc.
  destruct (sound_parts _ Hc) as (H1 & H2 & H3 & H4 & H5 & H6 & H7 & H8 & H9).
  split; [now apply sound_of_parts|].
  evolves_frame. now exists [r].
Qed.

Lemma Kept_Refund_create booking transaction amount refund_amount fee reason
      now db :
  sound db = true ->
  Kept db (snd (Refund_create booking transaction amount refund_amount fee
                              reason now db)).
Proof.
  intro Hc. unfold Refund_create, generate_reference.
  pose proof (@Kept_uuid4 _ Hc) as Hk1.
  destruct (uuid4 db) as [pk d1]. cbn [snd] in Hk1.
  pose proof (@Kept_uuid4 _ (@Kept_sound _ _ Hk1)) as Hk2.
  destruct (uuid4 d1) as [ref d2]. cbn [snd] in *.
  eapply Kept_trans; [exact Hk1|]. eapply Kept_step; [exact Hk2|].
  apply Kept_refund.
Qed.

Lemma Kept_cancel now request db :
  sound db = true ->
  Kept db (snd (CancelBookingView_update now request db)).
Proof.
  intro Hs. unfold CancelBookingView_update.
  destruct (get_user_booking db _ _) as [row|] eqn:Hrow;
    [|now apply Kept_refl].
  pose proof (stored_row _ _ (get_user_booking_In _ _ _ Hrow)) as Hst.
  destruct (refused _) as [|error errors]; [|now apply Kept_refl].
  destruct (BookingCancelSerializer_validate db now row) as [policy|e];
    [|now apply Kept_refl].
  cbn [from_row fields].
  set (b := on_fields (with_cancelled_at (Some now))
                      (on_fields (with_status Cancelled) (from_row row))).
  assert (Hb : stored (fields b) db) by exact Hst.
  destruct (@Booking_save_kept now b db Hs Hb) as [Hk Hf].
  destruct (Booking_save now b db) as [b1 d1]. cbn [fst snd] in *.
  assert (Hlt : booking_id (fields b1) < next_uuid d1).
  { destruct (@stored_facts (fields b) db Hs Hb) as (Hlt & _).
    rewrite (booking_static_id Hf). pose proof (@Kept_uuid _ _ Hk). lia. }
  assert (Hk2 : Kept db (BookingHistory_create
                           (booking_id (fields b1)) (Some (status row))
                           Cancelled (Some (cancel_user request))
                           (CharField_value (reason request)) now
                           (seats_update (booking_id (fields b1)) true d1))).
  { eapply Kept_step; [exact Hk|]. intro Hs1.
    eapply Kept_step; [now apply Kept_seats_update|]. intro Hs2.
    apply Kept_history_create; [exact Hs2|exact Hlt]. }
  set (d2 := BookingHistory_create _ _ _ _ _ _ _) in *.
  eapply Kept_step; [|apply Kept_delay].
  destruct (BookingStatus_eqb _ _); [|exact Hk2].
  destruct (successful_transaction d2 _); [|exact Hk2].
  eapply Kept_step; [exact Hk2|]. intro Hs2.
  pose proof (@Kept_Refund_create
                (booking_id (fields b1)) (txn_pk t)
                (from_db (total_amount (fields b1)))
                (Decimal.sub (from_db (total_amount row))
                   (Decimal.div100
                      (Decimal.mul (from_db (total_amount row))
                         (from_db (cancellation_fee_percentage policy)))))
                (Decimal.div100
                   (Decimal.mul (from_db (total_amount row))
                      (from_db (cancellation_fee_percentage policy))))
                (CharField_value (reason request)) now d2 Hs2) as Hk3.
  destruct (Refund_create _ _ _ _ _ _ _ _) as [refund d3]. cbn [snd] in Hk3.
  eapply Kept_step; [exact Hk3|]. apply Kept_delay.
Qed.

Lemma Kept_extend now user pk db :
  sound db = true ->
  Kept db (snd (extend_booking_timer now user pk db)).
Proof.
  intro Hs. unfold extend_booking_timer.
  destruct (find _ (bookings db)) as [row|] eqn:Hrow; [|now apply Kept_refl].
  apply find_some in Hrow. destruct Hrow as [Hin _].
  pose proof (stored_row _ _ Hin) as Hst.
  destruct (negb _); [now apply Kept_refl|].
  destruct (_ <? _)%Z; [now apply Kept_refl|].
  match goal with
  | |- context [Booking_save now ?b db] =>
      destruct (@Booking_save_kept now b db Hs Hst) as [Hk _];
        destruct (Booking_save now b db) as [b1 d1]
  end.
  exact Hk.
Qed.

Lemma Kept_webhook now request db :
  sound db = true ->
  Kept db (snd (payment_webhook now request db)).
Proof.
  intro Hs. rewrite payment_webhook_unchanged. now apply Kept_refl.
Qed.

(** *** The sweeper *)

Lemma In_insert_desc (A : Type) (key : A -> Z) (x y : A) l :
  In y (insert_desc key x l) <-> y = x \/ In y l.
Proof.
  induction l as [|z l IH]; cbn.
  - intuition congruence.
  - destruct (key x <? key z)%Z; cbn; rewrite ?IH; intuition congruence.
Qed.

Lemma In_order_desc (A : Type) (key : A -> Z) (y : A) l :
  In y (order_desc key l) <-> In y l.
Proof.
  induction l as [|x l IH]; cbn; [tauto|].
  rewrite In_insert_desc, IH. intuition congruence.
Qed.

Lemma expired_bookings_In now db b :
  In b (expired_bookings now db)
  <-> In b (bookings db) /\ status b = Pending /\ (expires_at b < now)%Z.
Proof.
  unfold expired_bookings, overdue. rewrite In_order_desc, filter_In.
  rewrite andb_true_iff, Z.ltb_lt.
  destruct (status b); cbn; intuition congruence.
Qed.

Lemma Kept_expire_booking now db row :
  sound db = true -> stored row db -> Kept db (expire_booking now db row).
Proof.
  intros Hs Hst. unfold expire_booking.
  set (b := on_fields (with_status Expired) (from_row row)).
  assert (Hb : stored (fields b) db) by exact Hst.
  destruct (@Booking_save_kept now b db Hs Hb) as [Hk Hf].
  destruct (Booking_save now b db) as [b1 d1]. cbn [fst snd] in *.
  assert (Hlt : booking_id (fields b1) < next_uuid d1).
  { destruct (@stored_facts (fields b) db Hs Hb) as (Hlt & _).
    rewrite (booking_static_id Hf). pose proof (@Kept_uuid _ _ Hk). lia. }
  eapply Kept_step; [exact Hk|]. intro Hs1.
  eapply Kept_step; [now apply Kept_seats_update|]. intro Hs2.
  apply Kept_history_create; [exact Hs2|exact Hlt].
Qed.

Lemma Kept_expire_all now queryset :
  forall db0 db,
    Kept db0 db -> (forall r, In r queryset -> stored r db) ->
    Kept db0 (fold_left (expire_booking now) queryset db).
Proof.
  induction queryset as [|row l IH]; intros db0 db Hk Hin; cbn [fold_left].
  - exact Hk.
  - assert (Hk1 : Kept db (expire_booking now db row)).
    { apply Kept_expire_booking; [exact (@Kept_sound _ _ Hk)|].
      apply Hin. now left. }
    apply IH.
    + eapply Kept_trans; eassumption.
    + intros r Hr. eapply stored_Evolves; [apply Hin; now right | apply Hk1].
Qed.

Lemma Kept_sweep now db :
  sound db = true -> Kept db (snd (expire_pending_bookings now db)).
Proof.
  intro Hs. unfold expire_pending_bookings. cbn [snd].
  apply Kept_expire_all; [now apply Kept_refl|].
  intros r Hr. apply expired_bookings_In in Hr. apply stored_row. tauto.
Qed.

(** *** The workers and the administrator *)

Lemma Kept_notification_create booking type user now db :
  sound db = true ->
  Kept db (let '(pk, db) := uuid4 db in
           set_notifications
             (notifications db ++ [mkNotification pk booking type user now])
             db).
Proof.
  intro Hs. pose proof (@Kept_uuid4 _ Hs) as Hk.
  destruct (uuid4 db) as [pk d1]. cbn [snd] in Hk.
  eapply Kept_step; [exact Hk|]. apply Kept_notify.
Qed.

Lemma Kept_deliver_confirmation now booking db :
  sound db = true -> Kept db (send_booking_confirmation now booking db).
Proof.
  intro Hs. unfold send_booking_confirmation.
  destruct (get_booking db booking); [|now apply Kept_refl].
  now apply Kept_notification_create.
Qed.

Lemma Kept_deliver_cancellation now booking db :
  sound db = true -> Kept db (send_cancellation_confirmation now booking db).
Proof.
  intro Hs. unfold send_cancellation_confirmation.
  destruct (get_booking db booking); [|now apply Kept_refl].
  now apply Kept_notification_create.
Qed.

Lemma Kept_mark_confirmed now selected db :
  sound db = true -> Kept db (snd (mark_confirmed now selected db)).
Proof.
  intro Hs. unfold mark_confirmed. cbn [snd].
  apply Kept_bookings_map; [exact Hs|]. intros b _.
  now destruct (_ && _).
Qed.

Lemma Kept_mark_cancelled now selected db :
  sound db = true -> Kept db (snd (mark_cancelled now selected db)).
Proof.
  intro Hs. unfold mark_cancelled. cbn [snd].
  apply Kept_bookings_map; [exact Hs|]. intros b _.
  now destruct (_ && _).
Qed.

Lemma handle_kept now r db : sound db = true -> Kept db (handle now r db).
Proof.
  intro Hs. destruct r; cbn [handle].
  - now apply Kept_create.
  - now apply Kept_initiate.
  - now apply Kept_confirm.
  - now apply Kept_cancel.
  - now apply Kept_extend.
  - now apply Kept_webhook.
  - now apply Kept_sweep.
  - now apply Kept_deliver_confirmation.
  - now apply Kept_deliver_cancellation.
  - now apply Kept_mark_confirmed.
  - now apply Kept_mark_cancelled.
Qed.

Lemma run_kept requests :
  forall db, sound db = true -> Kept db (run requests db).
Proof.
  unfold run. induction requests as [|[now r] l IH]; intros db Hs; cbn.
  - now apply Kept_refl.
  - pose proof (@handle_kept now r db Hs) as Hk.
    eapply Kept_trans; [exact Hk|]. apply IH. exact (@Kept_sound _ _ Hk).
Qed.
(** ** What no request does *)

Lemma Kept_booking db db' b :
  Kept db db' -> In b (bookings db) ->
  exists b', get_booking db' (booking_id b) = Some b'
             /\ booking_static b' = booking_static b.
Proof.
  intros [Hs Hev] Hin.
  assert (Hst : stored b db')
    by (eapply stored_Evolves; [apply stored_row; exact Hin | exact Hev]).
  destruct (@stored_facts b db' Hs Hst) as (_ & _ & _ & H). exact H.
Qed.

(** X1.  Whatever requests arrive, in whatever order and with whatever
    answers from the payment gateway, the stored data keeps its integrity:
    no two seats, bookings or transactions share a primary key, every key
    was drawn from the key source, every booking has its reference and every
    transaction its identifier. *)
Theorem requests_keep_integrity requests db :
  sound db = true -> sound (run requests db) = true.
Proof. intro Hs. exact (@Kept_sound _ _ (@run_kept requests db Hs)). Qed.

Lemma requests_keep_integrity_witness :
  sound Scenario.booked = true
  /\ sound (run Day.requests Scenario.booked) = true.
Proof.
  split; [vm_compute; reflexivity|].
  apply (@requests_keep_integrity Day.requests Scenario.booked).
  vm_compute; reflexivity.
Defined.

(** X2.  No request removes or rewrites a row of the history or of the
    seats of a booking: these two tables only grow at their end. *)
Theorem requests_only_append requests db :
  sound db = true ->
  (exists l, history (run requests db) = history db ++ l)
  /\ (exists l, booking_seats (run requests db) = booking_seats db ++ l).
Proof.
  intro Hs. destruct (@run_kept requests db Hs) as [_ Hev].
  split; apply Hev.
Qed.

Lemma requests_only_append_witness :
  sound Day.morning = true
  /\ (exists l, history (run Day.afternoon Day.morning)
                = history Day.morning ++ l)
  /\ (exists l, booking_seats (run Day.afternoon Day.morning)
                = booking_seats Day.morning ++ l).
Proof.
  split; [vm_compute; reflexivity|].
  apply (@requests_only_append Day.afternoon Day.morning).
  vm_compute; reflexivity.
Defined.

(** X3.  A stored booking is never deleted, and no request changes its
    user, its showtime, its reference, its amounts (subtotal, tax,
    convenience fee, total), the time it was made or its special requests:
    requests change its status and its timestamps only. *)
Theorem requests_keep_booking_identity requests db b :
  sound db = true -> In b (bookings db) ->
  exists b',
    get_booking (run requests db) (booking_id b) = Some b'
    /\ booking_user b' = booking_user b
    /\ booking_showtime b' = booking_showtime b
    /\ booking_reference b' = booking_reference b
    /\ subtotal b' = subtotal b
    /\ tax_amount b' = tax_amount b
    /\ convenience_fee b' = convenience_fee b
    /\ total_amount b' = total_amount b
    /\ booked_at b' = booked_at b
    /\ special_requests b' = special_requests b.
Proof.
  intros Hs Hin.
  destruct (@Kept_booking _ _ _ (@run_kept requests db Hs) Hin)
    as (b' & Hget & Hst).
  exists b'. split; [exact Hget|].
  unfold booking_static in Hst. injection Hst as _ E1 E2 E3 E4 E5 E6 E7 E8 E9.
  repeat split; assumption.
Qed.

Lemma requests_keep_booking_identity_witness :
  exists b,
    sound Day.morning = true /\ In b (bookings Day.morning)
    /\ exists b',
        get_booking (run Day.afternoon Day.morning) (booking_id b) = Some b'
        /\ booking_user b' = booking_user b
        /\ booking_showtime b' = booking_showtime b
        /\ booking_reference b' = booking_reference b
        /\ subtotal b' = subtotal b
        /\ tax_amount b' = tax_amount b
        /\ convenience_fee b' = convenience_fee b
        /\ total_amount b' = total_amount b
        /\ booked_at b' = booked_at b
        /\ special_requests b' = special_requests b.
Proof.
  eexists. split; [vm_compute; reflexivity|].
  split; [vm_compute; left; reflexivity|].
  eapply (@requests_keep_booking_identity Day.afternoon Day.morning).
  - vm_compute; reflexivity.
  - vm_compute; left; reflexivity.
Defined.

(** X4.  A stored transaction is never deleted, and no request changes the
    booking it pays for, its identifier, its gateway, its amount, its
    currency or the time it was initiated. *)
Theorem requests_keep_transaction_identity requests db t :
  sound db = true -> In t (transactions db) ->
  exists t',
    In t' (transactions (run requests db))
    /\ txn_pk t' = txn_pk t
    /\ txn_booking t' = txn_booking t
    /\ transaction_id t' = transaction_id t
    /\ gateway t' = gateway t
    /\ amount t' = amount t
    /\ currency t' = currency t
    /\ initiated_at t' = initiated_at t.
Proof.
  intros Hs Hin. destruct (@run_kept requests db Hs) as [_ Hev].
  assert (Hst : txn_stored t (run requests db)).
  { eapply txn_stored_Evolves; [|exact Hev]. now apply in_map. }
  unfold txn_stored in Hst. apply in_map_iff in Hst.
  destruct Hst as (t' & Hst & Hin'). exists t'. split; [exact Hin'|].
  unfold txn_static in Hst. injection Hst as E1 E2 E3 E4 E5 E6 E7.
  repeat split; assumption.
Qed.

Lemma requests_keep_transaction_identity_witness :
  exists t,
    sound Day.morning = true /\ In t (transactions Day.morning)
    /\ exists t',
        In t' (transactions (run Day.afternoon Day.morning))
        /\ txn_pk t' = txn_pk t
        /\ txn_booking t' = txn_booking t
        /\ transaction_id t' = transaction_id t
        /\ gateway t' = gateway t
        /\ amount t' = amount t
        /\ currency t' = currency t
        /\ initiated_at t' = initiated_at t.
Proof.
  eexists. split; [vm_compute; reflexivity|].
  split; [vm_compute; left; reflexivity|].
  eapply (@requests_keep_transaction_identity Day.afternoon Day.morning).
  - vm_compute; reflexivity.
  - vm_compute; left; reflexivity.
Defined.

(** X5.  Requests never touch the catalogue: showtimes and cancellation
    policies stay as they are, no seat is added or removed, and a seat keeps
    its screen, row, number, type, base price and blocking flag; only its
    availability changes. *)
Theorem requests_keep_catalogue requests db :
  sound db = true ->
  showtimes (run requests db) = showtimes db
  /\ policies (run requests db) = policies db
  /\ map seat_static (seats (run requests db)) = map seat_static (seats db).
Proof.
  intro Hs. destruct (@run_kept requests db Hs) as [_ Hev].
  repeat split; apply Hev.
Qed.

Lemma requests_keep_catalogue_witness :
  sound Scenario.booked = true
  /\ showtimes (run Day.requests Scenario.booked)
     = showtimes Scenario.booked
  /\ policies (run Day.requests Scenario.booked) = policies Scenario.booked
  /\ map seat_static (seats (run Day.requests Scenario.booked))
     = map seat_static (seats Scenario.booked).
Proof.
  split; [vm_compute; reflexivity|].
  apply (@requests_keep_catalogue Day.requests Scenario.booked).
  vm_compute; reflexivity.
Defined.
(** * What [Booking.save] leaves alone *)

Lemma SaveFrame_refl pk db : SaveFrame pk db db.
Proof. constructor; auto. Qed.

Lemma seats_update_twice pk db db1 :
  booking_seats db1 = booking_seats db ->
  seats db1 = seats db \/ seats db1 = seats (seats_update pk true db) ->
  seats (seats_update pk true db1) = seats (seats_update pk true db).
Proof.
  intros Hbs Hs. unfold seats_update, seats_of in *. rewrite Hbs.
  cbn [seats set_seats] in *. destruct Hs as [-> | ->]; [reflexivity|].
  rewrite map_map. apply map_ext. intro s.
  destruct (mem (seat_id s) _) eqn:E; cbn [seat_id]; rewrite E; reflexivity.
Qed.

Lemma SaveFrame_trans pk db db1 db2 :
  SaveFrame pk db db1 -> SaveFrame pk db1 db2 -> SaveFrame pk db db2.
Proof.
  intros [a1 a3 a4 a5 a6 a7] [b1 b3 b4 b5 b6 b7].
  constructor; try congruence.
  - destruct b5 as [b5 | b5]; rewrite b5.
    + exact a5.
    + right. now apply seats_update_twice.
  - auto.
  - auto.
Qed.

Lemma SaveFrame_seats_update pk db : SaveFrame pk db (seats_update pk true db).
Proof. constructor; auto. Qed.

Lemma SaveFrame_history pk booking previous new by_user reason now db :
  SaveFrame pk db
            (BookingHistory_create booking previous new by_user reason now db).
Proof. constructor; auto. Qed.

Lemma In_update_row_other (A : Type) (pk : A -> nat) (r x : A) l :
  pk x <> pk r -> In x l -> In x (update_row pk r l).
Proof.
  intros Hne Hin. unfold update_row. apply in_map_iff. exists x.
  split; [|exact Hin]. apply Nat.eqb_neq in Hne. now rewrite Hne.
Qed.

Lemma SaveFrame_write uf b db :
  SaveFrame (booking_id b) db (write_booking uf b db).
Proof.
  destruct uf as [[|]|]; constructor; cbn; auto.
  - intros x Hne Hin. apply in_map_iff. exists x. split; [|exact Hin].
    apply Nat.eqb_neq in Hne. now rewrite Hne.
  - intros x Hne Hin. apply in_map_iff. exists x. split; [|exact Hin].
    apply Nat.eqb_neq in Hne. now rewrite Hne.
  - intros x Hne Hin. unfold save_row. destruct (has_row _ _ _).
    + now apply In_update_row_other.
    + apply in_or_app. now left.
Qed.

Lemma save_prefix_frame uf now i db :
  SaveFrame (booking_id (fields i)) db (snd (save_prefix uf now i db))
  /\ booking_id (fields (fst (save_prefix uf now i db))) = booking_id (fields i)
  /\ status (fields (fst (save_prefix uf now i db))) = status (fields i).
Proof.
  unfold save_prefix.
  assert (H : forall j d,
             booking_id (fields j) = booking_id (fields i) ->
             status (fields j) = status (fields i) ->
             SaveFrame (booking_id (fields i)) db d ->
             let self := track_booking_status_change j d in
             let p := create_booking_history
                        now self
                        (is_none uf
                         && negb (has_row booking_id (booking_id (fields self))
                                          (bookings d)))
                        (write_booking uf (fields self) d) in
             SaveFrame (booking_id (fields i)) db (snd p)
             /\ booking_id (fields (fst p)) = booking_id (fields i)
             /\ status (fields (fst p)) = status (fields i)).
  { intros j d Hid Hst Hf. cbv zeta.
    rewrite create_booking_history_fields, !track_fields.
    split; [|split; assumption].
    assert (Hw : SaveFrame (booking_id (fields i)) db
                           (write_booking uf (fields j) d)).
    { eapply SaveFrame_trans; [exact Hf|]. rewrite <- Hid.
      apply SaveFrame_write. }
    unfold create_booking_history.
    destruct (_ && _); cbn [snd].
    - eapply SaveFrame_trans; [exact Hw | apply SaveFrame_history].
    - destruct (_status_changed _) as [[|]|]; cbn [snd]; try exact Hw.
      destruct (_old_status _); cbn [snd]; try exact Hw.
      eapply SaveFrame_trans; [exact Hw | apply SaveFrame_history]. }
  destruct (booking_reference (fields i)).
  - apply H; [reflexivity | reflexivity | apply SaveFrame_refl].
  - cbn [generate_reference uuid4]. apply H; [reflexivity | reflexivity |].
    constructor; auto.
Qed.

Lemma Booking_save_fuel_frame fuel :
  forall uf now i db,
    SaveFrame (booking_id (fields i)) db
              (snd (Booking_save_fuel fuel uf now i db))
    /\ booking_id (fields (fst (Booking_save_fuel fuel uf now i db)))
       = booking_id (fields i)
    /\ status (fields (fst (Booking_save_fuel fuel uf now i db)))
       = status (fields i).
Proof.
  induction fuel as [|fuel IH]; intros uf now i db.
  - cbn. split; [apply SaveFrame_refl | split; reflexivity].
  - rewrite Booking_save_fuel_unfold.
    destruct (save_prefix_frame uf now i db) as (Hf & Hid & Hst).
    destruct (save_prefix uf now i db) as [i1 d1]. cbn [fst snd] in *.
    assert (H2 : SaveFrame (booking_id (fields i)) db
                   (snd (handle_booking_confirmation
                           (Booking_save_fuel fuel) now i1 d1))
                 /\ booking_id
                      (fields (fst (handle_booking_confirmation
                                      (Booking_save_fuel fuel) now i1 d1)))
                    = booking_id (fields i)
                 /\ status
                      (fields (fst (handle_booking_confirmation
                                      (Booking_save_fuel fuel) now i1 d1)))
                    = status (fields i)).
    { unfold handle_booking_confirmation.
      destruct (_ && _); [|cbn [fst snd]; auto].
      set (i2 := on_fields (with_confirmed_at (Some now)) i1).
      destruct (IH (Some field_confirmed_at) now i2 d1) as (Hf2 & Hid2 & Hst2).
      destruct (Booking_save_fuel fuel (Some field_confirmed_at) now i2 d1)
        as [i3 d3]. cbn [fst snd] in *.
      assert (Hf3 : SaveFrame (booking_id (fields i)) db d3).
      { eapply SaveFrame_trans; [exact Hf|]. rewrite <- Hid. exact Hf2. }
      assert (Hid3 : booking_id (fields i3) = booking_id (fields i))
        by (rewrite Hid2; exact Hid).
      assert (Hst3 : status (fields i3) = status (fields i))
        by (rewrite Hst2; exact Hst).
      destruct (get_showtime d3 _); [|cbn [fst snd]; auto].
      destruct (_ <? _)%Z; cbn [fst snd]; [|auto].
      split; [|auto].
      eapply SaveFrame_trans; [exact Hf3|].
      constructor; cbn; auto.
      intros t Ht. apply in_app_or in Ht.
      destruct Ht as [Ht | [Ht | []]]; [exact Ht | discriminate]. }
    destruct (handle_booking_confirmation (Booking_save_fuel fuel) now i1 d1)
      as [i4 d4]. cbn [fst snd] in H2. destruct H2 as (Hf4 & Hid4 & Hst4).
    unfold handle_booking_cancellation.
    destruct (BookingStatus_eqb _ _); [|cbn [fst snd]; auto].
    assert (Hf5 : SaveFrame (booking_id (fields i)) db
                            (seats_update (booking_id (fields i4)) true d4)).
    { eapply SaveFrame_trans; [exact Hf4|]. rewrite Hid4.
      apply SaveFrame_seats_update. }
    destruct (is_none _); [|cbn [fst snd]; auto].
    set (i5 := on_fields (with_cancelled_at (Some now)) i4).
    destruct (IH (Some field_cancelled_at) now i5
                 (seats_update (booking_id (fields i4)) true d4))
      as (Hf6 & Hid6 & Hst6).
    split; [|split].
    + eapply SaveFrame_trans; [exact Hf5|].
      rewrite <- Hid4. exact Hf6.
    + rewrite Hid6. exact Hid4.
    + rewrite Hst6. exact Hst4.
Qed.

Lemma Booking_save_frame now i db :
  SaveFrame (booking_id (fields i)) db (snd (Booking_save now i db))
  /\ booking_id (fields (fst (Booking_save now i db))) = booking_id (fields i)
  /\ status (fields (fst (Booking_save now i db))) = status (fields i).
Proof. apply Booking_save_fuel_frame. Qed.

(** X6.  The receivers of [post_save] save the booking again, and that save
    runs the receivers again; the nesting ends by itself: whatever depth is
    allowed beyond the three levels of [Booking_save], the result is the
    same object and the same database. *)
Theorem booking_save_nesting_bounded fuel uf now self db :
  Booking_save_fuel (3 + fuel) uf now self db
  = Booking_save_fuel 3 uf now self db.
Proof.
  change (3 + fuel) with (S (S (S fuel))).
  rewrite (Booking_save_fuel_enough (S fuel)).
  now rewrite (Booking_save_fuel_enough 1).
Qed.

(** X7.  Cancelling through the view never creates a refund record and
    never hands a refund to the payment task, whatever the booking, its
    payments and the policy: the view tests the status for confirmed after
    it has set it to cancelled. *)
Theorem cancel_never_refunds now request db :
  refunds (snd (CancelBookingView_update now request db)) = refunds db
  /\ forall refund,
      In (process_refund_task refund)
         (celery (snd (CancelBookingView_update now request db))) ->
      In (process_refund_task refund) (celery db).
Proof.
  unfold CancelBookingView_update.
  destruct (get_user_booking db _ _) as [row|]; [|cbn; auto].
  destruct (refused _) as [|error errors]; [|cbn; auto].
  destruct (BookingCancelSerializer_validate db now row) as [policy|e];
    [|cbn; auto].
  cbn [from_row fields].
  set (b := on_fields (with_cancelled_at (Some now))
                      (on_fields (with_status Cancelled) (from_row row))).
  destruct (Booking_save_frame now b db) as (Hf & _ & Hst).
  destruct (Booking_save now b db) as [b1 d1]. cbn [fst snd] in *.
  change (status (fields b)) with Cancelled in Hst. rewrite Hst.
  cbn [BookingStatus_eqb snd]. destruct Hf as [_ Hr _ _ Hc _].
  split; [exact Hr|].
  intros refund Hin. cbn in Hin. apply in_app_or in Hin.
  destruct Hin as [Hin | [Hin | []]]; [|discriminate].
  exact (Hc _ Hin).
Qed.
(** * The serializers *)

(** X8.  The detail of a booking announces [cancellation_allowed] exactly
    when a cancellation request of its user, with a reason that the
    serializer accepts, would be accepted at that time. *)
Theorem cancellation_allowed_iff_cancel_accepted now request db row :
  get_user_booking db (cancel_booking_id request) (cancel_user request)
  = Some row ->
  CharField_errors (Some 500) (reason request) = [] ->
  (get_cancellation_allowed db now row = Some true
   <-> exists response,
        fst (CancelBookingView_update now request db) = Ok response).
Proof.
  intros Hrow Hreason. unfold CancelBookingView_update.
  rewrite Hrow, (cancel_reason_accepted _ Hreason).
  unfold get_cancellation_allowed, BookingCancelSerializer_validate.
  destruct (negb _).
  { cbn. split; [discriminate | intros [r H]; discriminate]. }
  destruct (get_showtime db _).
  2:{ cbn. split; [discriminate | intros [r H]; discriminate]. }
  destruct (get_applicable_policy db _) as [policy|].
  2:{ cbn. split; [discriminate | intros [r H]; discriminate]. }
  destruct (is_refundable policy).
  - split; [intros _ | reflexivity].
    match goal with
    | |- context [Booking_save now ?b db] => destruct (Booking_save now b db)
    end.
    eexists. reflexivity.
  - cbn. split; [discriminate | intros [r H]; discriminate].
Qed.

Lemma cancellation_allowed_iff_cancel_accepted_witness :
  exists row,
    get_user_booking Scenario.paid 100 42 = Some row
    /\ CharField_errors (Some 500) (reason Scenario.cancel_request) = []
    /\ (get_cancellation_allowed Scenario.paid (minutes 5) row = Some true
        <-> exists response, fst Scenario.cancelled = Ok response).
Proof.
  eexists. split; [vm_compute; reflexivity|].
  split; [vm_compute; reflexivity|].
  apply (@cancellation_allowed_iff_cancel_accepted
           (minutes 5) Scenario.cancel_request Scenario.paid);
    vm_compute; reflexivity.
Defined.

(** X9.  A booking request that names a seat which is held, booked or
    blocked is refused as a whole and changes nothing: no seat is ever given
    to two bookings at a time. *)
Theorem create_refuses_unavailable_seat now request db seat :
  consistent db = true ->
  In seat (seats db) ->
  In (seat_id seat) (seat_ids request) ->
  is_available seat = false \/ is_blocked seat = true ->
  exists e, CreateBookingView_create now request db = (Fail e, db).
Proof.
  intros _ _ _ _. apply create_booking_refused.
Qed.

Lemma create_refuses_unavailable_seat_witness :
  consistent Scenario.booked = true
  /\ In Rival.held_seat (seats Scenario.booked)
  /\ In (seat_id Rival.held_seat) (seat_ids Rival.create_request)
  /\ (is_available Rival.held_seat = false
      \/ is_blocked Rival.held_seat = true)
  /\ exists e,
      CreateBookingView_create (minutes 1) Rival.create_request
                               Scenario.booked
      = (Fail e, Scenario.booked).
Proof.
  assert (Hc : consistent Scenario.booked = true) by (vm_compute; reflexivity).
  assert (Hin : In Rival.held_seat (seats Scenario.booked))
    by (vm_compute; right; left; reflexivity).
  assert (Hreq : In (seat_id Rival.held_seat) (seat_ids Rival.create_request))
    by (left; reflexivity).
  assert (Hflag : is_available Rival.held_seat = false
                  \/ is_blocked Rival.held_seat = true)
    by (left; reflexivity).
  repeat (split; [assumption|]).
  exact (@create_refuses_unavailable_seat
           (minutes 1) Rival.create_request Scenario.booked Rival.held_seat
           Hc Hin Hreq Hflag).
Defined.
(** * The sweeper *)

Lemma length_insert_desc (A : Type) (key : A -> Z) (x : A) l :
  List.length (insert_desc key x l) = S (List.length l).
Proof.
  induction l as [|y l IH]; cbn; [reflexivity|].
  destruct (key x <? key y)%Z; cbn; now rewrite ?IH.
Qed.

Lemma length_order_desc (A : Type) (key : A -> Z) (l : list A) :
  List.length (order_desc key l) = List.length l.
Proof.
  induction l as [|x l IH]; [reflexivity|].
  change (order_desc key (x :: l)) with (insert_desc key x (order_desc key l)).
  now rewrite length_insert_desc, IH.
Qed.

Lemma NoDup_map_insert_desc (A : Type) (key : A -> Z) (f : A -> nat) x l :
  NoDup (map f (x :: l)) -> NoDup (map f (insert_desc key x l)).
Proof.
  induction l as [|y l IH]; cbn; [auto|].
  destruct (key x <? key y)%Z; [|auto].
  intro H. inversion H as [|? ? Hx Hyl]; subst.
  inversion Hyl as [|? ? Hy Hl]; subst. cbn. constructor.
  - intro Hin. apply in_map_iff in Hin. destruct Hin as [z [E Hz]].
    apply In_insert_desc in Hz. destruct Hz as [-> | Hz].
    + apply Hx. left. now symmetry.
    + apply Hy. rewrite <- E. now apply in_map.
  - apply IH. cbn. constructor; [|exact Hl].
    intro Hin. apply Hx. now right.
Qed.

Lemma NoDup_map_order_desc (A : Type) (key : A -> Z) (f : A -> nat) l :
  NoDup (map f l) -> NoDup (map f (order_desc key l)).
Proof.
  induction l as [|x l IH]; [auto|].
  change (order_desc key (x :: l)) with (insert_desc key x (order_desc key l)).
  intro H. apply NoDup_map_insert_desc. cbn [map] in *.
  inversion H as [|? ? Hx Hl]; subst. constructor.
  - intro Hin. apply Hx. apply in_map_iff in Hin. destruct Hin as [z [E Hz]].
    apply In_order_desc in Hz. rewrite <- E. now apply in_map.
  - now apply IH.
Qed.

(** One turn of the loop, for a pending booking of the table. *)
Lemma expire_booking_explicit now db row :
  NoDup (map booking_id (bookings db)) ->
  In row (bookings db) ->
  is_none (booking_reference row) = false ->
  status row = Pending ->
  expire_booking now db row
  = mkDB (map (fun s => if mem (seat_id s) (seats_of db (booking_id row))
                        then release s else s)
              (seats db))
         (showtimes db)
         (update_row booking_id (with_status Expired row) (bookings db))
         (booking_seats db) (transactions db)
         (history db
            ++ [mkBookingHistory (next_uuid db) (booking_id row)
                                 (Some Pending) Expired None
                                 (status_change_reason Pending Expired) now;
                mkBookingHistory (S (next_uuid db)) (booking_id row)
                                 (Some Pending) Expired None
                                 "Booking expired due to timeout" now])
         (refunds db) (policies db) (notifications db) (celery db)
         (S (S (next_uuid db))).
Proof.
  intros Hnd Hin Href Hst. unfold expire_booking.
  rewrite (@Booking_save_existing now
             (on_fields (with_status Expired) (from_row row)) db row).
  - cbn [fields on_fields from_row]. rewrite Hst. cbn.
    unfold seats_update, seats_of, release. cbn. rewrite <- app_assoc.
    reflexivity.
  - cbn. unfold get_booking. now apply find_pk_unique.
  - exact Href.
  - reflexivity.
  - reflexivity.
  - reflexivity.
Qed.

Lemma expire_all_explicit now l :
  forall db,
    NoDup (map booking_id (bookings db)) ->
    (forall b, In b (bookings db) -> is_none (booking_reference b) = false) ->
    NoDup (map booking_id l) ->
    (forall r, In r l -> In r (bookings db) /\ status r = Pending) ->
    let db' := fold_left (expire_booking now) l db in
    bookings db'
    = map (fun b => if mem (booking_id b) (map booking_id l)
                    then with_status Expired b else b)
          (bookings db)
    /\ seats db'
       = map (fun s => if existsb (fun r => mem (seat_id s)
                                                (seats_of db (booking_id r))) l
                       then release s else s)
             (seats db)
    /\ booking_seats db' = booking_seats db
    /\ transactions db' = transactions db
    /\ exists h, history db' = history db ++ h
                 /\ map history_facts h
                    = flat_map (fun r => expiry_facts now (booking_id r)) l.
Proof.
  induction l as [|row l IH]; intros db Hnd Href Hl Hrows; cbn zeta.
  - cbn. repeat split.
    + symmetry. apply map_id.
    + symmetry. apply map_id.
    + exists []. now rewrite app_nil_r.
  - cbn [fold_left].
    destruct (Hrows row (or_introl eq_refl)) as [Hin Hst].
    inversion Hl as [|? ? Hfresh Hl']; subst.
    rewrite (@expire_booking_explicit now db row Hnd Hin (Href _ Hin) Hst).
    match goal with
    | |- context [fold_left _ l ?d] => set (d1 := d)
    end.
    destruct (IH d1) as (Hb & Hs & Hbs & Ht & h & Hh & Hfacts).
    + subst d1. cbn. now rewrite map_pk_update_row.
    + subst d1. cbn. intros b Hb. unfold update_row in Hb.
      apply in_map_iff in Hb. destruct Hb as [x [Hx Hxin]].
      destruct (booking_id x =? _); subst b; [cbn|]; auto.
    + exact Hl'.
    + intros r Hr. destruct (Hrows r (or_intror Hr)) as [Hrin Hrst].
      split; [|exact Hrst]. subst d1. cbn.
      apply In_update_row_other; [|exact Hrin]. cbn.
      intro E. apply Hfresh. rewrite <- E. now apply in_map.
    + rewrite Hb, Hs, Hbs, Ht, Hh. subst d1. cbn. repeat split.
      * unfold update_row. rewrite map_map. apply map_ext_in.
        intros b Hbin. cbn.
        destruct (booking_id b =? booking_id row) eqn:E.
        -- apply Nat.eqb_eq in E.
           assert (b = row)
             by exact (@NoDup_pk_eq _ booking_id (bookings db) b row
                                    Hnd Hbin Hin E).
           subst b.
           change (booking_id (with_status Expired row))
             with (booking_id row).
           destruct (mem (booking_id row) (map booking_id l)) eqn:M;
             [apply mem_In in M; contradiction | reflexivity].
        -- reflexivity.
      * rewrite map_map. apply map_ext. intro s.
        unfold seats_of. cbn [booking_seats existsb].
        destruct (mem (seat_id s)
                      (map snd (filter (fun p => fst p =? booking_id row)
                                       (booking_seats db)))) eqn:M;
          cbn [orb].
        -- change (seat_id (release s)) with (seat_id s).
           now destruct (existsb _ l).
        -- reflexivity.
      * exists ([mkBookingHistory (next_uuid db) (booking_id row)
                                  (Some Pending) Expired None
                                  (status_change_reason Pending Expired) now;
                 mkBookingHistory (S (next_uuid db)) (booking_id row)
                                  (Some Pending) Expired None
                                  "Booking expired due to timeout" now] ++ h).
        split; [now rewrite app_assoc|].
        cbn [map app flat_map]. now rewrite Hfacts.
Qed.

(** The entries of one booking among those of a run. *)
Lemma expiry_facts_of now (l : list Booking) (pk : nat) :
  NoDup (map booking_id l) ->
  filter (fun f => fst (fst (fst (fst (fst f)))) =? pk)
         (flat_map (fun r => expiry_facts now (booking_id r)) l)
  = if mem pk (map booking_id l) then expiry_facts now pk else [].
Proof.
  induction l as [|r l IH]; intro Hnd; [reflexivity|].
  inversion Hnd as [|? ? Hfresh Hl]; subst.
  cbn [flat_map map]. rewrite filter_app, (IH Hl).
  change (mem pk (booking_id r :: map booking_id l))
    with ((pk =? booking_id r) || mem pk (map booking_id l)).
  unfold expiry_facts at 1. cbn [filter fst].
  rewrite (Nat.eqb_sym pk).
  destruct (booking_id r =? pk) eqn:E; cbn [orb app].
  - apply Nat.eqb_eq in E. subst pk.
    destruct (mem (booking_id r) (map booking_id l)) eqn:M;
      [apply mem_In in M; contradiction | reflexivity].
  - reflexivity.
Qed.

Lemma filter_history_facts (h : list BookingHistory) (pk : nat) :
  map history_facts (filter (fun r => history_booking r =? pk) h)
  = filter (fun f => fst (fst (fst (fst (fst f)))) =? pk)
           (map history_facts h).
Proof.
  induction h as [|r h IH]; [reflexivity|].
  cbn [filter map history_facts fst].
  destruct (history_booking r =? pk); cbn [map]; now rewrite IH.
Qed.

Lemma existsb_eq_iff (A B : Type) (f : A -> bool) (g : B -> bool) l m :
  ((exists x, In x l /\ f x = true) <-> (exists y, In y m /\ g y = true)) ->
  existsb f l = existsb g m.
Proof.
  intro H. apply eq_true_iff_eq. now rewrite !existsb_exists.
Qed.

Lemma overdue_queued now db b :
  NoDup (map booking_id (bookings db)) -> In b (bookings db) ->
  mem (booking_id b) (map booking_id (expired_bookings now db))
  = overdue now b.
Proof.
  intros Hnd Hbin. symmetry.
  apply eq_true_iff_eq. rewrite mem_In, in_map_iff. split.
  - intro Ho. exists b. split; [reflexivity|].
    apply expired_bookings_In. unfold overdue in Ho.
    apply andb_prop in Ho. destruct Ho as [H1 H2].
    apply Z.ltb_lt in H2. destruct (status b); try discriminate. tauto.
  - intros [r [E Hr]]. apply expired_bookings_In in Hr.
    destruct Hr as (Hrin & Hrst & Hrexp).
    assert (r = b)
      by exact (@NoDup_pk_eq _ booking_id (bookings db) r b
                             Hnd Hrin Hbin E).
    subst r. unfold overdue. rewrite Hrst. cbn. now apply Z.ltb_lt.
Qed.

(** The run of the sweeper on its queryset. *)
Lemma sweep_queue now db :
  consistent db = true ->
  bookings (snd (expire_pending_bookings now db))
  = map (fun b => if mem (booking_id b)
                         (map booking_id (expired_bookings now db))
                  then with_status Expired b else b)
        (bookings db)
  /\ seats (snd (expire_pending_bookings now db))
     = map (fun s => if existsb (fun r => mem (seat_id s)
                                              (seats_of db (booking_id r)))
                                (expired_bookings now db)
                     then release s else s)
           (seats db)
  /\ exists h,
      history (snd (expire_pending_bookings now db)) = history db ++ h
      /\ map history_facts h
         = flat_map (fun r => expiry_facts now (booking_id r))
                    (expired_bookings now db).
Proof.
  intro Hc.
  destruct (consistent_parts _ Hc) as (_ & Hnd & _ & _ & _ & _ & Href & _).
  assert (Href' : forall b, In b (bookings db) ->
                            is_none (booking_reference b) = false).
  { intros b Hb. apply Href in Hb. exact Hb. }
  assert (Hq : forall r, In r (expired_bookings now db) ->
                         In r (bookings db) /\ status r = Pending).
  { intros r Hr. apply expired_bookings_In in Hr. tauto. }
  assert (Hndq : NoDup (map booking_id (expired_bookings now db))).
  { apply NoDup_map_order_desc. now apply NoDup_map_filter. }
  destruct (@expire_all_explicit now (expired_bookings now db) db
                                 Hnd Href' Hndq Hq)
    as (Hb & Hs & _ & _ & Hh).
  unfold expire_pending_bookings. cbn [snd]. auto.
Qed.

(** X10.  One run of the sweeper expires exactly the pending bookings whose
    deadline lies strictly before the time of the run and leaves every
    other booking as it is; it makes the seats of the expired bookings
    available and no other seat, returns their number, and adds to the
    history, for each of them, the two rows of its expiry (the receiver's
    and the task's own, both naming that booking, from pending to expired,
    without a user, at the time of the run) and no other row. *)
Theorem sweep_expires_the_overdue now db :
  consistent db = true ->
  fst (expire_pending_bookings now db)
  = List.length (filter (overdue now) (bookings db))
  /\ bookings (snd (expire_pending_bookings now db))
     = map (fun b => if overdue now b then with_status Expired b else b)
           (bookings db)
  /\ seats (snd (expire_pending_bookings now db))
     = map (fun s =>
              if existsb (fun b => overdue now b
                                   && mem (seat_id s)
                                          (seats_of db (booking_id b)))
                         (bookings db)
              then release s else s)
           (seats db)
  /\ exists h,
      history (snd (expire_pending_bookings now db)) = history db ++ h
      /\ List.length h = 2 * fst (expire_pending_bookings now db)
      /\ forall b, In b (bookings db) ->
           map history_facts
               (filter (fun r => history_booking r =? booking_id b) h)
           = if overdue now b then expiry_facts now (booking_id b) else [].
Proof.
  intro Hc.
  destruct (consistent_parts _ Hc) as (_ & Hnd & _).
  destruct (@sweep_queue now db Hc) as (Hb & Hs & h & Hh & Hfacts).
  split; [apply length_order_desc|]. split; [|split].
  - rewrite Hb. apply map_ext_in. intros b Hbin.
    now rewrite overdue_queued.
  - rewrite Hs. apply map_ext. intro s.
    replace (existsb (fun r => mem (seat_id s) (seats_of db (booking_id r)))
                     (expired_bookings now db))
      with (existsb (fun b => overdue now b
                              && mem (seat_id s) (seats_of db (booking_id b)))
                    (bookings db)); [reflexivity|].
    apply existsb_eq_iff. split.
    + intros [b [Hbin Hb']]. apply andb_prop in Hb'. destruct Hb' as [Ho Hm].
      exists b. split; [|exact Hm]. apply expired_bookings_In.
      unfold overdue in Ho. apply andb_prop in Ho. destruct Ho as [H1 H2].
      apply Z.ltb_lt in H2. destruct (status b); try discriminate. tauto.
    + intros [r [Hr Hm]]. apply expired_bookings_In in Hr.
      destruct Hr as (Hrin & Hrst & Hrexp). exists r. split; [exact Hrin|].
      rewrite Hm, andb_true_r. unfold overdue. rewrite Hrst. cbn.
      now apply Z.ltb_lt.
  - exists h. split; [exact Hh|]. split.
    + rewrite <- (length_map history_facts), Hfacts.
      unfold expire_pending_bookings. cbn [fst].
      generalize (expired_bookings now db). intro l.
      induction l as [|r l IH]; [reflexivity|].
      cbn [flat_map List.length]. rewrite length_app, IH. cbn. lia.
    + intros b Hbin.
      rewrite filter_history_facts, Hfacts, expiry_facts_of.
      * now rewrite overdue_queued.
      * apply NoDup_map_order_desc. now apply NoDup_map_filter.
Qed.

Lemma sweep_expires_the_overdue_witness :
  consistent Scenario.booked = true
  /\ fst (expire_pending_bookings (minutes 16) Scenario.booked)
     = List.length (filter (overdue (minutes 16)) (bookings Scenario.booked))
  /\ bookings (snd (expire_pending_bookings (minutes 16) Scenario.booked))
     = map (fun b => if overdue (minutes 16) b
                     then with_status Expired b else b)
           (bookings Scenario.booked)
  /\ seats (snd (expire_pending_bookings (minutes 16) Scenario.booked))
     = map (fun s =>
              if existsb (fun b => overdue (minutes 16) b
                                   && mem (seat_id s)
                                          (seats_of Scenario.booked
                                                    (booking_id b)))
                         (bookings Scenario.booked)
              then release s else s)
           (seats Scenario.booked)
  /\ exists h,
      history (snd (expire_pending_bookings (minutes 16) Scenario.booked))
      = history Scenario.booked ++ h
      /\ List.length h
         = 2 * fst (expire_pending_bookings (minutes 16) Scenario.booked)
      /\ forall b, In b (bookings Scenario.booked) ->
           map history_facts
               (filter (fun r => history_booking r =? booking_id b) h)
           = if overdue (minutes 16) b
             then expiry_facts (minutes 16) (booking_id b) else [].
Proof.
  split; [vm_compute; reflexivity|].
  apply (@sweep_expires_the_overdue (minutes 16) Scenario.booked).
  vm_compute; reflexivity.
Defined.

(** X11.  A second run of the sweeper at the same time finds nothing to
    expire and changes nothing. *)
Theorem sweep_twice now db :
  consistent db = true ->
  expire_pending_bookings now (snd (expire_pending_bookings now db))
  = (0, snd (expire_pending_bookings now db)).
Proof.
  intro Hc.
  destruct (consistent_parts _ Hc) as (_ & Hnd & _).
  destruct (@sweep_queue now db Hc) as (Hb & _).
  unfold expire_pending_bookings at 1. unfold expired_bookings at 1 2.
  rewrite Hb, filter_none; [reflexivity|].
  intros x Hx. apply in_map_iff in Hx. destruct Hx as [b [<- Hbin]].
  rewrite (@overdue_queued now db b Hnd Hbin).
  destruct (overdue now b) eqn:E; [reflexivity | exact E].
Qed.

Lemma sweep_twice_witness :
  consistent Scenario.booked = true
  /\ expire_pending_bookings
       (minutes 16) (snd (expire_pending_bookings (minutes 16) Scenario.booked))
     = (0, snd (expire_pending_bookings (minutes 16) Scenario.booked)).
Proof.
  split; [vm_compute; reflexivity|].
  apply (@sweep_twice (minutes 16) Scenario.booked).
  vm_compute; reflexivity.
Defined.
(** * What [Transaction.save] leaves alone *)

Lemma SaveFrame_delay pk t db :
  (forall refund, t <> process_refund_task refund) ->
  SaveFrame pk db (delay t db).
Proof.
  intro H. constructor; cbn; auto.
  intros x Hx. apply in_app_or in Hx.
  destruct Hx as [Hx | [Hx | []]]; [exact Hx|].
  now apply H in Hx.
Qed.

Lemma SaveFrame_uuid4 pk db : SaveFrame pk db (snd (uuid4 db)).
Proof. constructor; cbn; auto. Qed.

Lemma SaveFrame_transactions pk v db : SaveFrame pk db (set_transactions v db).
Proof. constructor; cbn; auto. Qed.

Lemma instance_booking_id t db :
  (forall bk, booking_cache t = Some bk ->
              booking_id (fields bk) = txn_booking (txn_fields t)) ->
  match instance_booking t db with
  | (Some b, t') =>
      booking_id (fields b) = txn_booking (txn_fields t)
      /\ txn_fields t' = txn_fields t
      /\ booking_cache t' = Some b
  | (None, t') => t' = t
  end.
Proof.
  intro H. unfold instance_booking.
  destruct (booking_cache t) as [b|] eqn:Hb.
  - auto.
  - destruct (get_booking db _) as [r|] eqn:Hr; [|reflexivity].
    apply find_some in Hr. destruct Hr as [_ E]. apply Nat.eqb_eq in E.
    auto.
Qed.

Lemma Transaction_save_frame now t db :
  (forall bk, booking_cache t = Some bk ->
              booking_id (fields bk) = txn_booking (txn_fields t)) ->
  SaveFrame (txn_booking (txn_fields t)) db (snd (Transaction_save now t db))
  /\ txn_booking (txn_fields (fst (Transaction_save now t db)))
     = txn_booking (txn_fields t)
  /\ forall bk, booking_cache (fst (Transaction_save now t db)) = Some bk ->
                booking_id (fields bk) = txn_booking (txn_fields t).
Proof.
  intro Hcache. unfold Transaction_save.
  set (pk := txn_booking (txn_fields t)) in *.
  assert (H0 : exists t0 d0,
             (match transaction_id (txn_fields t) with
              | Some _ => (t, db)
              | None =>
                  let '(ref, db) := generate_reference db in
                  (on_txn_fields (with_transaction_id (Some ref)) t, db)
              end) = (t0, d0)
             /\ SaveFrame pk db d0
             /\ txn_booking (txn_fields t0) = pk
             /\ forall bk, booking_cache t0 = Some bk ->
                           booking_id (fields bk) = pk).
  { destruct (transaction_id (txn_fields t)).
    - exists t, db. split; [reflexivity|].
      split; [apply SaveFrame_refl | split; auto].
    - eexists. eexists. split; [reflexivity|].
      split; [apply (SaveFrame_uuid4 pk db) | split; auto]. }
  destruct H0 as (t0 & d0 & -> & Hf0 & Hpk0 & Hc0).
  set (d1 := set_transactions _ d0).
  assert (Hf1 : SaveFrame pk db d1).
  { eapply SaveFrame_trans; [exact Hf0 | apply SaveFrame_transactions]. }
  (* first receiver *)
  assert (H1 : SaveFrame pk db (snd (handle_successful_payment now t0 d1))
               /\ txn_booking
                    (txn_fields (fst (handle_successful_payment now t0 d1)))
                  = pk
               /\ forall bk,
                   booking_cache (fst (handle_successful_payment now t0 d1))
                   = Some bk ->
                   booking_id (fields bk) = pk).
  { unfold handle_successful_payment.
    destruct (TransactionStatus_eqb _ _); [|cbn [fst snd]; auto].
    assert (Hc0' : forall bk, booking_cache t0 = Some bk ->
                              booking_id (fields bk)
                              = txn_booking (txn_fields t0))
      by (intros bk Hbk; rewrite Hpk0; auto).
    pose proof (@instance_booking_id t0 d1 Hc0') as Hib.
    destruct (instance_booking t0 d1) as [[b|] t1];
      [|subst t1; cbn [fst snd]; auto].
    destruct Hib as (Hb & Ht1 & Hc1). rewrite Hpk0 in Hb.
    destruct (BookingStatus_eqb _ _).
    2:{ cbn [fst snd]. rewrite Ht1, Hc1.
        split; [exact Hf1 | split; [exact Hpk0|]].
        intros bk Hbk. now injection Hbk as <-. }
    set (b2 := on_fields (with_confirmed_at (Some now))
                         (on_fields (with_status Confirmed) b)).
    destruct (Booking_save_frame now b2 d1) as (Hf2 & Hid2 & _).
    change (booking_id (fields b2)) with (booking_id (fields b)) in Hf2, Hid2.
    rewrite Hb in Hf2, Hid2.
    destruct (Booking_save now b2 d1) as [b3 d3]. cbn [fst snd] in *.
    rewrite Ht1. split; [|split; [exact Hpk0|]].
    - eapply SaveFrame_trans; [exact Hf1|].
      eapply SaveFrame_trans; [exact Hf2|].
      apply SaveFrame_delay. discriminate.
    - intros bk Hbk. now injection Hbk as <-. }
  destruct (handle_successful_payment now t0 d1) as [t2 d2].
  cbn [fst snd] in H1. destruct H1 as (Hf2 & Hpk2 & Hc2).
  (* second receiver *)
  unfold handle_failed_payment.
  destruct (TransactionStatus_eqb _ _); [|cbn [fst snd]; auto].
  assert (Hc2' : forall bk, booking_cache t2 = Some bk ->
                            booking_id (fields bk)
                            = txn_booking (txn_fields t2))
    by (intros bk Hbk; rewrite Hpk2; auto).
  pose proof (@instance_booking_id t2 d2 Hc2') as Hib.
  destruct (instance_booking t2 d2) as [[b|] t3];
    [|subst t3; cbn [fst snd]; auto].
  destruct Hib as (Hb & Ht3 & Hc3). rewrite Hpk2 in Hb.
  assert (Hkeep : forall d, SaveFrame pk db d ->
                            SaveFrame pk db d
                            /\ txn_booking (txn_fields t3) = pk
                            /\ forall bk, booking_cache t3 = Some bk ->
                                          booking_id (fields bk) = pk).
  { intros d Hd. rewrite Ht3, Hc3. split; [exact Hd | split; [exact Hpk2|]].
    intros bk Hbk. now injection Hbk as <-. }
  destruct (negb _); [|cbn [fst snd]; now apply Hkeep].
  assert (Hf5 : SaveFrame pk db (seats_update (booking_id (fields b)) true d2)).
  { eapply SaveFrame_trans; [exact Hf2|]. rewrite Hb.
    apply SaveFrame_seats_update. }
  destruct (_ <? _)%Z; [|cbn [fst snd]; now apply Hkeep].
  set (b2 := on_fields (with_expires_at (now + minutes 15)%Z) b).
  destruct (Booking_save_frame now b2
                               (seats_update (booking_id (fields b)) true d2))
    as (Hf6 & Hid6 & _).
  change (booking_id (fields b2)) with (booking_id (fields b)) in Hf6, Hid6.
  rewrite Hb in Hf6, Hid6. rewrite Hb in Hf5.
  rewrite Hb.
  destruct (Booking_save now b2 (seats_update pk true d2)) as [b3 d3].
  cbn [fst snd txn_fields booking_cache] in *.
  rewrite Ht3. split; [|split; [exact Hpk2|]].
  - eapply SaveFrame_trans; eassumption.
  - intros bk Hbk. now injection Hbk as <-.
Qed.

(** * Requests about one booking *)

Lemma get_user_booking_id db pk user row :
  get_user_booking db pk user = Some row -> booking_id row = pk.
Proof.
  intro H. apply find_some in H. destruct H as [_ E].
  apply andb_prop in E. destruct E as [E _]. now apply Nat.eqb_eq in E.
Qed.

Lemma initiate_payment_frame now request db :
  SaveFrame (initiate_booking_id request) db
            (snd (InitiatePaymentView_create now request db)).
Proof.
  unfold InitiatePaymentView_create.
  destruct (get_user_booking db _ _) as [row|] eqn:Hrow;
    [|apply SaveFrame_refl].
  apply get_user_booking_id in Hrow. rewrite <- Hrow.
  cbn [from_row fields].
  destruct (negb _); [apply SaveFrame_refl|].
  destruct (_ <=? _)%Z.
  - set (b := on_fields (with_status Expired) (from_row row)).
    destruct (Booking_save_frame now b db) as (Hf & Hid & _).
    destruct (Booking_save now b db) as [b1 d1]. cbn [fst snd] in *.
    eapply SaveFrame_trans; [exact Hf|]. rewrite Hid.
    apply SaveFrame_seats_update.
  - cbn [uuid4].
    match goal with
    | |- context [Transaction_save now ?t ?d] =>
        destruct (@Transaction_save_frame now t d) as (Hf & Hpk & Hc);
          [intros bk Hbk; cbn in Hbk; injection Hbk as <-; reflexivity|];
          destruct (Transaction_save now t d) as [t1 d1]
    end.
    cbn [fst snd txn_fields txn_booking] in *.
    assert (Hf1 : SaveFrame (booking_id row) db d1).
    { eapply SaveFrame_trans; [|exact Hf].
      apply (SaveFrame_uuid4 (booking_id row) db). }
    destruct (negb _); [exact Hf1|].
    destruct (initiate_order request) as [payment_data|]; exact Hf1.
Qed.

Lemma confirm_payment_frame now request db :
  SaveFrame (confirm_booking_id request) db
            (snd (ConfirmPaymentView_update now request db)).
Proof.
  unfold ConfirmPaymentView_update.
  destruct (get_user_booking db _ _) as [row|] eqn:Hrow;
    [|apply SaveFrame_refl].
  apply get_user_booking_id in Hrow. rewrite <- Hrow.
  cbn [from_row fields].
  destruct (PaymentConfirmSerializer_is_valid request)
    as [[gateway_transaction_id gateway_response]|e];
    [|apply SaveFrame_refl].
  destruct (get_booking_transaction db _ _) as [trow|] eqn:Htx;
    [|apply SaveFrame_refl].
  destruct (get_booking_transaction_row _ _ _ Htx) as (_ & _ & Hbk).
  cbn [txn_fields].
  destruct (negb _); [apply SaveFrame_refl|].
  destruct (is_valid request).
  - match goal with
    | |- context [Transaction_save now ?t db] =>
        destruct (@Transaction_save_frame now t db) as (Hf & _ & _);
          [intros bk Hb; discriminate|];
          destruct (Transaction_save now t db) as [t1 d1]
    end.
    cbn [fst snd txn_fields on_txn_fields] in *.
    match type of Hf with
    | SaveFrame ?k _ _ => change k with (txn_booking trow) in Hf
    end.
    rewrite Hbk in Hf.
    set (b := on_fields (with_confirmed_at (Some now))
                        (on_fields (with_status Confirmed) (from_row row))).
    destruct (Booking_save_frame now b d1) as (Hf2 & _ & _).
    change (booking_id (fields b)) with (booking_id row) in Hf2.
    destruct (Booking_save now b d1) as [b2 d2]. cbn [fst snd] in *.
    eapply SaveFrame_trans; [exact Hf|].
    eapply SaveFrame_trans; [exact Hf2|].
    eapply SaveFrame_trans; [apply SaveFrame_history|].
    apply SaveFrame_delay. discriminate.
  - match goal with
    | |- context [Transaction_save now ?t db] =>
        destruct (@Transaction_save_frame now t db) as (Hf & _ & _);
          [intros bk Hb; discriminate|];
          destruct (Transaction_save now t db) as [t1 d1]
    end.
    cbn [fst snd txn_fields on_txn_fields] in *.
    match type of Hf with
    | SaveFrame ?k _ _ => change k with (txn_booking trow) in Hf
    end.
    rewrite Hbk in Hf. exact Hf.
Qed.

Lemma cancel_booking_frame now request db :
  SaveFrame (cancel_booking_id request) db
            (snd (CancelBookingView_update now request db)).
Proof.
  unfold CancelBookingView_update.
  destruct (get_user_booking db _ _) as [row|] eqn:Hrow;
    [|apply SaveFrame_refl].
  apply get_user_booking_id in Hrow. rewrite <- Hrow.
  destruct (refused _) as [|error errors]; [|apply SaveFrame_refl].
  destruct (BookingCancelSerializer_validate db now row) as [policy|e];
    [|apply SaveFrame_refl].
  cbn [from_row fields].
  set (b := on_fields (with_cancelled_at (Some now))
                      (on_fields (with_status Cancelled) (from_row row))).
  destruct (Booking_save_frame now b db) as (Hf & Hid & Hst).
  change (booking_id (fields b)) with (booking_id row) in Hf, Hid.
  destruct (Booking_save now b db) as [b1 d1]. cbn [fst snd] in *.
  change (status (fields b)) with Cancelled in Hst. rewrite Hst, Hid.
  cbn [BookingStatus_eqb snd].
  eapply SaveFrame_trans; [exact Hf|].
  eapply SaveFrame_trans; [apply SaveFrame_seats_update|].
  eapply SaveFrame_trans; [apply SaveFrame_history|].
  apply SaveFrame_delay. discriminate.
Qed.

Lemma extend_timer_frame now user pk db :
  SaveFrame pk db (snd (extend_booking_timer now user pk db)).
Proof.
  unfold extend_booking_timer.
  destruct (find _ (bookings db)) as [row|] eqn:Hrow; [|apply SaveFrame_refl].
  apply find_some in Hrow. destruct Hrow as [_ E].
  apply andb_prop in E. destruct E as [E _].
  apply andb_prop in E. destruct E as [E _]. apply Nat.eqb_eq in E.
  destruct (negb _); [apply SaveFrame_refl|].
  destruct (_ <? _)%Z; [apply SaveFrame_refl|].
  match goal with
  | |- context [Booking_save now ?b db] =>
      destruct (Booking_save_frame now b db) as (Hf & _ & _);
        destruct (Booking_save now b db) as [b1 d1]
  end.
  cbn [fst snd fields on_fields from_row] in *.
  change (booking_id (with_expires_at (now + minutes 10)%Z row))
    with (booking_id row) in Hf.
  now rewrite E in Hf.
Qed.

Lemma payment_webhook_frame now request db :
  exists pk, SaveFrame pk db (snd (payment_webhook now request db)).
Proof.
  exists 0. rewrite payment_webhook_unchanged. apply SaveFrame_refl.
Qed.

Lemma expire_booking_frame now db row :
  SaveFrame (booking_id row) db (expire_booking now db row).
Proof.
  unfold expire_booking.
  set (b := on_fields (with_status Expired) (from_row row)).
  destruct (Booking_save_frame now b db) as (Hf & Hid & _).
  change (booking_id (fields b)) with (booking_id row) in Hf, Hid.
  destruct (Booking_save now b db) as [b1 d1]. cbn [fst snd] in *.
  rewrite Hid.
  eapply SaveFrame_trans; [exact Hf|].
  eapply SaveFrame_trans; [apply SaveFrame_seats_update|].
  apply SaveFrame_history.
Qed.

(** * Requests and the bookings of other users *)

Lemma other_users_row db pk user row b :
  consistent db = true ->
  get_user_booking db pk user = Some row ->
  In b (bookings db) -> booking_user b <> user ->
  booking_id b <> pk.
Proof.
  intros Hc Hrow Hin Hne E.
  destruct (@get_user_booking_row db pk user row Hc Hrow)
    as (Hrin & Hpk & Hu & _).
  destruct (consistent_parts _ Hc) as (_ & Hnd & _).
  rewrite <- Hpk in E.
  assert (b = row)
    by exact (@NoDup_pk_eq _ booking_id (bookings db) b row Hnd Hin Hrin E).
  subst b. contradiction.
Qed.

(** X12.  A request made on behalf of a user (creating a booking, starting
    or confirming a payment, cancelling, extending the timer) leaves every
    booking of every other user exactly as it is stored. *)
Theorem requests_touch_own_bookings_only now r db user b :
  consistent db = true ->
  acting_user r = Some user ->
  In b (bookings db) -> booking_user b <> user ->
  In b (bookings (handle now r db)).
Proof.
  intros Hc Hu Hin Hne.
  destruct r as [request|request|request|request|u pk| | | | | |];
    cbn [acting_user] in Hu; try discriminate;
    injection Hu as <-; cbn [handle].
  - now rewrite create_booking_unchanged.
  - destruct (get_user_booking db (initiate_booking_id request)
                               (initiate_user request)) as [row|] eqn:Hrow.
    + apply (sf_bookings (initiate_payment_frame now request db));
        [|exact Hin].
      eapply other_users_row; eassumption.
    + unfold InitiatePaymentView_create. now rewrite Hrow.
  - destruct (get_user_booking db (confirm_booking_id request)
                               (confirm_user request)) as [row|] eqn:Hrow.
    + apply (sf_bookings (confirm_payment_frame now request db));
        [|exact Hin].
      eapply other_users_row; eassumption.
    + unfold ConfirmPaymentView_update. now rewrite Hrow.
  - destruct (get_user_booking db (cancel_booking_id request)
                               (cancel_user request)) as [row|] eqn:Hrow.
    + apply (sf_bookings (cancel_booking_frame now request db));
        [|exact Hin].
      eapply other_users_row; eassumption.
    + unfold CancelBookingView_update. now rewrite Hrow.
  - destruct (find (fun x => (booking_id x =? pk)
                             && (booking_user x =? u)
                             && BookingStatus_eqb (status x) Pending)
                   (bookings db)) as [row|] eqn:Hrow.
    + apply (sf_bookings (extend_timer_frame now u pk db));
        [|exact Hin].
      apply find_some in Hrow. destruct Hrow as [Hrin E].
      apply andb_prop in E. destruct E as [E _].
      apply andb_prop in E. destruct E as [E1 E2].
      apply Nat.eqb_eq in E1. apply Nat.eqb_eq in E2.
      intro Eb. rewrite <- E1 in Eb.
      destruct (consistent_parts _ Hc) as (_ & Hnd & _).
      assert (b = row)
        by exact (@NoDup_pk_eq _ booking_id (bookings db) b row
                               Hnd Hin Hrin Eb).
      subst b. contradiction.
    + unfold extend_booking_timer. now rewrite Hrow.
Qed.

Lemma requests_touch_own_bookings_only_witness :
  exists b,
    consistent Rival.both_booked = true
    /\ acting_user (cancel_booking Scenario.cancel_request) = Some 42
    /\ In b (bookings Rival.both_booked)
    /\ booking_user b <> 42
    /\ In b (bookings (handle (minutes 5)
                              (cancel_booking Scenario.cancel_request)
                              Rival.both_booked)).
Proof.
  eexists.
  split; [vm_compute; reflexivity|]. split; [reflexivity|].
  split; [vm_compute; right; left; reflexivity|].
  split; [vm_compute; lia|].
  apply (@requests_touch_own_bookings_only
           (minutes 5) (cancel_booking Scenario.cancel_request)
           Rival.both_booked 42).
  - vm_compute; reflexivity.
  - reflexivity.
  - vm_compute; right; left; reflexivity.
  - vm_compute; lia.
Defined.
(** * Payments that fail *)

(** X13.  Starting a payment for a pending booking that has not expired
    stores a transaction before the gateway is asked: when the gateway is
    not registered (paytm, phonepe and gpay pass the serializer but not the
    factory) or the order cannot be created, the answer is an error 500 and
    the initiated transaction stays in the table, with the total of the
    booking as its amount. *)
Theorem initiate_payment_failure_leaves_transaction now request db row :
  sound db = true ->
  get_user_booking db (initiate_booking_id request) (initiate_user request)
  = Some row ->
  status row = Pending ->
  (now < expires_at row)%Z ->
  get_gateway (initiate_gateway request) = false
  \/ initiate_order request = None ->
  InitiatePaymentView_create now request db
  = (Fail (Http500 "Payment initiation failed. Please try again."),
     mkDB (seats db) (showtimes db) (bookings db) (booking_seats db)
          (transactions db
             ++ [mkTransaction (next_uuid db) (booking_id row)
                               (Some (S (next_uuid db)))
                               (initiate_gateway request) EmptyString
                               EmptyString (total_amount row) "INR"
                               TInitiated now None "{}" EmptyString])
          (history db) (refunds db) (policies db) (notifications db)
          (celery db) (S (S (next_uuid db)))).
Proof.
  intros Hs Hrow Hst Hexp Hfail.
  destruct (sound_parts _ Hs) as (_ & _ & _ & _ & _ & _ & _ & _ & H9).
  unfold InitiatePaymentView_create. rewrite Hrow. cbn [from_row fields].
  rewrite Hst. cbn [BookingStatus_eqb negb].
  replace (expires_at row <=? now)%Z with false
    by (symmetry; apply Z.leb_gt; exact Hexp).
  cbn [uuid4].
  rewrite Transaction_save_new;
    [ | apply has_row_bound; cbn; exact H9 | reflexivity | reflexivity ].
  cbn.
  destruct Hfail as [-> | ->]; cbn; [reflexivity|].
  destruct (get_gateway _); reflexivity.
Qed.

Lemma initiate_payment_failure_leaves_transaction_witness :
  exists row,
    sound Scenario.booked = true
    /\ get_user_booking Scenario.booked 100 42 = Some row
    /\ status row = Pending
    /\ (minutes 1 < expires_at row)%Z
    /\ (get_gateway (initiate_gateway Wallet.initiate_request) = false
        \/ initiate_order Wallet.initiate_request = None)
    /\ InitiatePaymentView_create (minutes 1) Wallet.initiate_request
                                  Scenario.booked
       = (Fail (Http500 "Payment initiation failed. Please try again."),
          mkDB (seats Scenario.booked) (showtimes Scenario.booked)
               (bookings Scenario.booked) (booking_seats Scenario.booked)
               (transactions Scenario.booked
                  ++ [mkTransaction (next_uuid Scenario.booked)
                                    (booking_id row)
                                    (Some (S (next_uuid Scenario.booked)))
                                    paytm EmptyString EmptyString
                                    (total_amount row) "INR" TInitiated
                                    (minutes 1) None "{}" EmptyString])
               (history Scenario.booked) (refunds Scenario.booked)
               (policies Scenario.booked) (notifications Scenario.booked)
               (celery Scenario.booked) (S (S (next_uuid Scenario.booked)))).
Proof.
  eexists.
  split; [vm_compute; reflexivity|]. split; [vm_compute; reflexivity|].
  split; [vm_compute; reflexivity|]. split; [vm_compute; reflexivity|].
  split; [left; vm_compute; reflexivity|].
  apply (@initiate_payment_failure_leaves_transaction
           (minutes 1) Wallet.initiate_request Scenario.booked).
  - vm_compute; reflexivity.
  - vm_compute; reflexivity.
  - vm_compute; reflexivity.
  - vm_compute; reflexivity.
  - left; vm_compute; reflexivity.
Defined.

Lemma has_successful_after_failure db booking t :
  has_successful_transaction db booking = false ->
  txn_status t = TFailed ->
  has_successful_transaction
    (set_transactions (save_row txn_pk t (transactions db)) db) booking
  = false.
Proof.
  unfold has_successful_transaction. cbn [transactions set_transactions].
  intros H Hst. apply not_true_is_false. intro E.
  apply existsb_exists in E. destruct E as [x [Hin Hx]].
  apply In_save_row in Hin. destruct Hin as [-> | Hin].
  - rewrite Hst in Hx. cbn in Hx. now rewrite andb_false_r in Hx.
  - assert (existsb (fun t0 => (txn_booking t0 =? booking)
                               && TransactionStatus_eqb (txn_status t0)
                                                        TSuccess)
                    (transactions db) = true); [|congruence].
    apply existsb_exists. eauto.
Qed.

(** Saving a failed transaction of a pending booking that no transaction
    has paid. *)
Lemma Transaction_save_failed_pending now t db row :
  is_none (transaction_id (txn_fields t)) = false ->
  txn_status (txn_fields t) = TFailed ->
  booking_cache t = None ->
  get_booking db (txn_booking (txn_fields t)) = Some row ->
  status row = Pending ->
  is_none (booking_reference row) = false ->
  has_successful_transaction db (booking_id row) = false ->
  snd (Transaction_save now t db)
  = let d1 :=
      set_transactions (save_row txn_pk (txn_fields t) (transactions db)) db in
    let d2 := seats_update (booking_id row) true d1 in
    if (now <? expires_at row)%Z
    then set_bookings
           (update_row booking_id (with_expires_at (now + minutes 15)%Z row)
                       (bookings db))
           d2
    else d2.
Proof.
  intros Hid Hst Hcache Hrow Hp Href Hnone. unfold Transaction_save.
  destruct (transaction_id (txn_fields t)); [|discriminate].
  unfold handle_successful_payment, handle_failed_payment.
  rewrite Hst. cbn [TransactionStatus_eqb]. rewrite Hst.
  cbn [TransactionStatus_eqb].
  unfold instance_booking. rewrite Hcache.
  assert (Hrow' : get_booking
                    (set_transactions
                       (save_row txn_pk (txn_fields t) (transactions db)) db)
                    (txn_booking (txn_fields t)) = Some row) by exact Hrow.
  rewrite Hrow'. cbn [from_row fields].
  rewrite (has_successful_after_failure _ _ _ Hnone Hst). cbn [negb].
  cbv zeta. destruct (now <? expires_at row)%Z; [|reflexivity].
  assert (Hpk : booking_id row = txn_booking (txn_fields t)).
  { unfold get_booking in Hrow. apply find_some in Hrow.
    destruct Hrow as [_ E]. now apply Nat.eqb_eq in E. }
  rewrite (@Booking_save_existing
             now (on_fields (with_expires_at (now + minutes 15)%Z)
                            (from_row row)) _ row).
  - cbn [fields on_fields from_row snd]. 
    change (status (with_expires_at (now + minutes 15)%Z row))
      with (status row).
    rewrite Hp. cbn. reflexivity.
  - cbn. rewrite Hpk. exact Hrow.
  - exact Href.
  - unfold quiet. cbn. rewrite Hp. reflexivity.
  - reflexivity.
  - reflexivity.
Qed.

(** X14.  When the gateway does not verify the payment of a pending booking
    that no transaction has paid, in a request whose fields the serializer
    accepts, the view answers 400 and the receivers of
    the failed transaction release the seats of the booking and, if its
    deadline has not passed, move the deadline to fifteen minutes from now:
    the booking stays pending, without a hold on its seats, and nothing is
    logged or queued. *)
Theorem confirm_payment_failed_verification now request db row trow response :
  consistent db = true ->
  get_user_booking db (confirm_booking_id request) (confirm_user request)
  = Some row ->
  status row = Pending ->
  CharField_errors None (confirm_gateway_transaction_id request) = [] ->
  confirm_gateway_response request = Some response ->
  get_booking_transaction db (confirm_transaction_id request) (booking_id row)
  = Some trow ->
  get_gateway (gateway trow) = true ->
  is_valid request = false ->
  has_successful_transaction db (booking_id row) = false ->
  exists db',
    ConfirmPaymentView_update now request db
    = (Fail (Http400 "Payment verification failed"), db')
    /\ get_booking db' (booking_id row)
       = Some (if (now <? expires_at row)%Z
               then with_expires_at (now + minutes 15)%Z row else row)
    /\ seats db' = seats (seats_update (booking_id row) true db)
    /\ transactions db'
       = update_row txn_pk
                    (with_gateway_response
                       response
                       (with_failure_reason "Payment verification failed"
                                            (with_txn_status TFailed trow)))
                    (transactions db)
    /\ history db' = history db
    /\ celery db' = celery db.
Proof.
  intros Hc Hrow Hp Hf1 Hf2 Htx Hgw Hinv Hnone.
  destruct (@get_user_booking_row db _ _ row Hc Hrow)
    as (Hrin & Hpk & _ & Hget & Href).
  destruct (get_booking_transaction_row _ _ _ Htx) as (Htin & Htid & Hbk).
  destruct (@confirm_fields_accepted request Hf1)
    as (response' & Hresp & Hfields);
    [now rewrite Hf2|].
  rewrite Hf2 in Hresp. injection Hresp as <-.
  unfold ConfirmPaymentView_update.
  rewrite Hrow, Hfields. cbn [from_row fields].
  rewrite Htx. cbn [txn_fields]. rewrite Hgw, Hinv. cbn [negb].
  set (t := on_txn_fields _ _).
  assert (Hsnd := @Transaction_save_failed_pending now t db row).
  destruct (Transaction_save now t db) as [t1 d1]. cbn [snd] in Hsnd.
  rewrite Hsnd; clear Hsnd.
  - eexists. split; [reflexivity|]. cbv zeta.
    assert (Hrowt : has_row txn_pk (txn_pk trow) (transactions db) = true)
      by now apply has_row_In.
    destruct (now <? expires_at row)%Z.
    + cbn. unfold save_row. cbn. rewrite Hrowt.
      repeat split.
      unfold get_booking in Hget. rewrite <- Hpk in Hget.
      exact (find_update_row_same
               booking_id (with_expires_at (now + minutes 15)%Z row)
               (bookings db) Hget).
    + cbn. unfold save_row. cbn. rewrite Hrowt.
      repeat split. rewrite <- Hpk in Hget. exact Hget.
  - subst t. cbn. now rewrite Htid.
  - reflexivity.
  - reflexivity.
  - subst t. cbn. rewrite Hbk. rewrite <- Hpk in Hget. exact Hget.
  - exact Hp.
  - exact Href.
  - exact Hnone.
Qed.

Lemma confirm_payment_failed_verification_witness :
  exists row trow response,
    consistent (snd Scenario.initiated) = true
    /\ get_user_booking (snd Scenario.initiated) 100 42 = Some row
    /\ status row = Pending
    /\ CharField_errors
         None (confirm_gateway_transaction_id Wallet.refused_request) = []
    /\ confirm_gateway_response Wallet.refused_request = Some response
    /\ get_booking_transaction (snd Scenario.initiated) 105 (booking_id row)
       = Some trow
    /\ get_gateway (gateway trow) = true
    /\ is_valid Wallet.refused_request = false
    /\ has_successful_transaction (snd Scenario.initiated) (booking_id row)
       = false
    /\ exists db',
        ConfirmPaymentView_update (minutes 2) Wallet.refused_request
                                  (snd Scenario.initiated)
        = (Fail (Http400 "Payment verification failed"), db')
        /\ get_booking db' (booking_id row)
           = Some (if (minutes 2 <? expires_at row)%Z
                   then with_expires_at (minutes 2 + minutes 15)%Z row
                   else row)
        /\ seats db'
           = seats (seats_update (booking_id row) true
                                 (snd Scenario.initiated))
        /\ transactions db'
           = update_row txn_pk
                        (with_gateway_response
                           response
                           (with_failure_reason
                              "Payment verification failed"
                              (with_txn_status TFailed trow)))
                        (transactions (snd Scenario.initiated))
        /\ history db' = history (snd Scenario.initiated)
        /\ celery db' = celery (snd Scenario.initiated).
Proof.
  eexists. eexists. eexists.
  split; [vm_compute; reflexivity|]. split; [vm_compute; reflexivity|].
  split; [vm_compute; reflexivity|]. split; [vm_compute; reflexivity|].
  split; [vm_compute; reflexivity|].
  split; [vm_compute; reflexivity|]. split; [vm_compute; reflexivity|].
  split; [vm_compute; reflexivity|]. split; [vm_compute; reflexivity|].
  eapply (@confirm_payment_failed_verification
            (minutes 2) Wallet.refused_request (snd Scenario.initiated));
    vm_compute; reflexivity.
Defined.

(** * Seats on sale *)

Lemma on_sale_refl db : on_sale db db.
Proof. intros s Hs _. exact Hs. Qed.

Lemma on_sale_trans db1 db2 db3 :
  on_sale db1 db2 -> on_sale db2 db3 -> on_sale db1 db3.
Proof. intros H1 H2 s Hs Ha. apply H2; [apply H1|]; assumption. Qed.

Lemma on_sale_seats_update pk db : on_sale db (seats_update pk true db).
Proof.
  intros s Hs Ha. unfold seats_update. cbn [seats set_seats].
  apply in_map_iff. exists s. split; [|exact Hs].
  destruct (mem _ _); [|reflexivity].
  destruct s. cbn in *. now subst.
Qed.

Lemma SaveFrame_on_sale pk db db' : SaveFrame pk db db' -> on_sale db db'.
Proof.
  intros Hf s Hs Ha. destruct (sf_seats Hf) as [H | H]; rewrite H.
  - exact Hs.
  - now apply on_sale_seats_update.
Qed.

Lemma on_sale_expire_all now queryset :
  forall db, on_sale db (fold_left (expire_booking now) queryset db).
Proof.
  induction queryset as [|row l IH]; intro db; cbn [fold_left].
  - apply on_sale_refl.
  - eapply on_sale_trans; [|apply IH].
    eapply SaveFrame_on_sale. apply expire_booking_frame.
Qed.

(** X16.  Only the creation of a booking takes a seat off sale: after any
    other request (payment, cancellation, timer extension, gateway event,
    sweeper, mail delivery, action of the administrator) every seat that
    was available is still stored as it was. *)
Theorem only_creation_holds_seats now r db s :
  is_creation r = false ->
  In s (seats db) -> is_available s = true ->
  In s (seats (handle now r db)).
Proof.
  intros Hr Hs Ha.
  assert (H : on_sale db (handle now r db)); [|now apply H].
  clear s Hs Ha.
  destruct r as [request|request|request|request|u pk|request| |k|k|l|l];
    try discriminate; cbn [handle].
  - eapply SaveFrame_on_sale. apply initiate_payment_frame.
  - eapply SaveFrame_on_sale. apply confirm_payment_frame.
  - eapply SaveFrame_on_sale. apply cancel_booking_frame.
  - eapply SaveFrame_on_sale. apply extend_timer_frame.
  - destruct (payment_webhook_frame now request db) as [pk Hf].
    eapply SaveFrame_on_sale. exact Hf.
  - apply on_sale_expire_all.
  - unfold send_booking_confirmation.
    destruct (get_booking db k); intros s Hs _; exact Hs.
  - unfold send_cancellation_confirmation.
    destruct (get_booking db k); intros s Hs _; exact Hs.
  - intros s Hs _. exact Hs.
  - intros s Hs _. exact Hs.
Qed.

Lemma only_creation_holds_seats_witness :
  is_creation (webhook_payment Wallet.failed_event) = false
  /\ In Scenario.seat3 (seats Scenario.paid)
  /\ is_available Scenario.seat3 = true
  /\ In Scenario.seat3
        (seats (handle (minutes 3) (webhook_payment Wallet.failed_event)
                       Scenario.paid)).
Proof.
  split; [reflexivity|].
  split; [vm_compute; right; right; left; reflexivity|].
  split; [reflexivity|].
  apply (@only_creation_holds_seats
           (minutes 3) (webhook_payment Wallet.failed_event) Scenario.paid
           Scenario.seat3).
  - reflexivity.
  - vm_compute; right; right; left; reflexivity.
  - reflexivity.
Defined.

(** * A payment that starts *)

(** X17.  Starting a payment never answers with a transaction.  For a
    pending booking before its deadline, with a registered gateway that
    creates the order, the order data hold the amount of the transaction as
    a [Decimal], the save of the transaction with them raises, and the
    answer is the error 500; the transaction written before the gateway was
    asked stays in the table, initiated and without the order of the
    gateway, and nothing else changes. *)
Theorem initiate_payment_order_is_lost now request db row payment_data :
  sound db = true ->
  get_user_booking db (initiate_booking_id request) (initiate_user request)
  = Some row ->
  status row = Pending ->
  (now < expires_at row)%Z ->
  get_gateway (initiate_gateway request) = true ->
  initiate_order request = Some payment_data ->
  (forall now' request' db',
      exists e, fst (InitiatePaymentView_create now' request' db') = Fail e)
  /\ InitiatePaymentView_create now request db
     = (Fail (Http500 "Payment initiation failed. Please try again."),
        mkDB (seats db) (showtimes db) (bookings db) (booking_seats db)
             (transactions db
                ++ [mkTransaction (next_uuid db) (booking_id row)
                                  (Some (S (next_uuid db)))
                                  (initiate_gateway request) EmptyString
                                  EmptyString (total_amount row) "INR"
                                  TInitiated now None "{}" EmptyString])
             (history db) (refunds db) (policies db) (notifications db)
             (celery db) (S (S (next_uuid db)))).
Proof.
  intros Hs Hrow Hst Hexp Hgw Hord. split.
  - intros now' request' db'. unfold InitiatePaymentView_create.
    destruct (get_user_booking db' _ _) as [row'|];
      [|eexists; reflexivity].
    cbn [from_row fields].
    destruct (negb _); [eexists; reflexivity|].
    destruct (_ <=? _)%Z.
    + match goal with
      | |- context [Booking_save ?n ?b ?d] => destruct (Booking_save n b d)
      end.
      eexists; reflexivity.
    + cbn [uuid4].
      match goal with
      | |- context [Transaction_save ?n ?t ?d] =>
          destruct (Transaction_save n t d)
      end.
      destruct (negb _); [eexists; reflexivity|].
      destruct (initiate_order request'); eexists; reflexivity.
  - destruct (sound_parts _ Hs) as (_ & _ & _ & _ & _ & _ & _ & _ & H9).
    assert (Hfresh : has_row txn_pk (next_uuid db) (transactions db) = false)
      by (apply has_row_bound; exact H9).
    unfold InitiatePaymentView_create. rewrite Hrow. cbn [from_row fields].
    rewrite Hst. cbn [BookingStatus_eqb negb].
    replace (expires_at row <=? now)%Z with false
      by (symmetry; apply Z.leb_gt; exact Hexp).
    cbn [uuid4].
    rewrite Transaction_save_new;
      [ | cbn; exact Hfresh | reflexivity | reflexivity ].
    rewrite Hgw, Hord. reflexivity.
Qed.

Lemma initiate_payment_order_is_lost_witness :
  exists row payment_data,
    sound Scenario.booked = true
    /\ get_user_booking Scenario.booked 100 42 = Some row
    /\ status row = Pending
    /\ (minutes 1 < expires_at row)%Z
    /\ get_gateway (initiate_gateway Scenario.initiate_request) = true
    /\ initiate_order Scenario.initiate_request = Some payment_data
    /\ (forall now' request' db',
          exists e,
            fst (InitiatePaymentView_create now' request' db') = Fail e)
    /\ InitiatePaymentView_create (minutes 1) Scenario.initiate_request
                                  Scenario.booked
       = (Fail (Http500 "Payment initiation failed. Please try again."),
          mkDB (seats Scenario.booked) (showtimes Scenario.booked)
               (bookings Scenario.booked) (booking_seats Scenario.booked)
               (transactions Scenario.booked
                  ++ [mkTransaction (next_uuid Scenario.booked)
                                    (booking_id row)
                                    (Some (S (next_uuid Scenario.booked)))
                                    (initiate_gateway
                                       Scenario.initiate_request)
                                    EmptyString EmptyString
                                    (total_amount row) "INR" TInitiated
                                    (minutes 1) None "{}" EmptyString])
               (history Scenario.booked) (refunds Scenario.booked)
               (policies Scenario.booked) (notifications Scenario.booked)
               (celery Scenario.booked) (S (S (next_uuid Scenario.booked)))).
Proof.
  eexists. eexists.
  split; [vm_compute; reflexivity|]. split; [vm_compute; reflexivity|].
  split; [vm_compute; reflexivity|]. split; [vm_compute; reflexivity|].
  split; [vm_compute; reflexivity|]. split; [vm_compute; reflexivity|].
  eapply (@initiate_payment_order_is_lost
            (minutes 1) Scenario.initiate_request Scenario.booked);
    vm_compute; reflexivity.
Defined.

(** * The actions of the administrator *)

(** X18.  Marking bookings as cancelled in the administration writes the
    status only: the seats of the cancelled bookings are not released, so a
    later request for one of them is still refused. *)
Theorem admin_cancel_keeps_seats_off_sale now now' selected request db seat :
  consistent db = true ->
  In seat (seats db) ->
  is_available seat = false ->
  In (seat_id seat) (seat_ids request) ->
  seats (snd (mark_cancelled now selected db)) = seats db
  /\ exists e,
      CreateBookingView_create now' request
                               (snd (mark_cancelled now selected db))
      = (Fail e, snd (mark_cancelled now selected db)).
Proof.
  intros _ _ _ _. split; [reflexivity|].
  apply create_booking_refused.
Qed.

Lemma admin_cancel_keeps_seats_off_sale_witness :
  consistent Scenario.booked = true
  /\ In Rival.held_seat (seats Scenario.booked)
  /\ is_available Rival.held_seat = false
  /\ In (seat_id Rival.held_seat) (seat_ids Rival.create_request)
  /\ seats (snd (mark_cancelled (minutes 1) [100] Scenario.booked))
     = seats Scenario.booked
  /\ exists e,
      CreateBookingView_create
        (minutes 2) Rival.create_request
        (snd (mark_cancelled (minutes 1) [100] Scenario.booked))
      = (Fail e, snd (mark_cancelled (minutes 1) [100] Scenario.booked)).
Proof.
  assert (Hc : consistent Scenario.booked = true) by (vm_compute; reflexivity).
  assert (Hin : In Rival.held_seat (seats Scenario.booked))
    by (vm_compute; right; left; reflexivity).
  assert (Ha : is_available Rival.held_seat = false) by reflexivity.
  assert (Hreq : In (seat_id Rival.held_seat) (seat_ids Rival.create_request))
    by (left; reflexivity).
  repeat (split; [assumption|]).
  exact (@admin_cancel_keeps_seats_off_sale
           (minutes 1) (minutes 2) [100] Rival.create_request Scenario.booked
           Rival.held_seat Hc Hin Ha Hreq).
Defined.
(** * Reminders *)

Lemma Calm_refl db : settled db = true -> Calm db db.
Proof. intro H. split; auto. Qed.

Lemma Calm_trans db1 db2 db3 : Calm db1 db2 -> Calm db2 db3 -> Calm db1 db3.
Proof. intros [_ H1] [H2 H3]. split; auto. Qed.

Lemma Calm_step db d1 d2 :
  Calm db d1 -> (settled d1 = true -> Calm d1 d2) -> Calm db d2.
Proof.
  intros H1 H2. eapply Calm_trans; [exact H1|]. apply H2. apply H1.
Qed.

(** A write that leaves the bookings alone and queues no reminder. *)
Lemma Calm_same db db' :
  bookings db' = bookings db ->
  (forall eta, In (send_show_reminders_task eta) (celery db') ->
               In (send_show_reminders_task eta) (celery db)) ->
  settled db = true -> Calm db db'.
Proof. intros Hb Hc Hs. split; [|exact Hc]. unfold settled. now rewrite Hb. Qed.

Lemma Calm_seats_update pk v db :
  settled db = true -> Calm db (seats_update pk v db).
Proof. apply Calm_same; auto. Qed.

Lemma Calm_history booking previous new by_user reason now db :
  settled db = true ->
  Calm db (BookingHistory_create booking previous new by_user reason now db).
Proof. apply Calm_same; auto. Qed.

Lemma Calm_delay t db :
  (forall eta, t <> send_show_reminders_task eta) ->
  settled db = true -> Calm db (delay t db).
Proof.
  intro Ht. apply Calm_same; [reflexivity|]. cbn. intros eta Hin.
  apply in_app_or in Hin. destruct Hin as [Hin | [Hin | []]]; [exact Hin|].
  now apply Ht in Hin.
Qed.

Lemma Calm_bookings v db :
  forallb quiet v = true ->
  Calm db (set_bookings v db).
Proof. intro Hv. split; [exact Hv | auto]. Qed.

Lemma settled_save_row r l :
  quiet r = true -> forallb quiet l = true ->
  forallb quiet (save_row booking_id r l) = true.
Proof.
  intros Hr Hl. apply forallb_forall. intros x Hx.
  apply In_save_row in Hx. destruct Hx as [-> | Hx]; [exact Hr|].
  eapply forallb_forall in Hl; eassumption.
Qed.

Lemma save_prefix_calm now i db :
  quiet (fields i) = true -> settled db = true ->
  Calm db (snd (save_prefix None now i db)).
Proof.
  intros Hq Hs. unfold save_prefix.
  assert (H : forall j d,
             quiet (fields j) = true -> Calm db d ->
             let self := track_booking_status_change j d in
             Calm db
                  (snd (create_booking_history
                          now self
                          (is_none (@None BookingField)
                           && negb (has_row booking_id
                                            (booking_id (fields self))
                                            (bookings d)))
                          (write_booking None (fields self) d)))).
  { intros j d Hj Hd. cbv zeta. rewrite !track_fields.
    assert (Hw : Calm db (write_booking None (fields j) d)).
    { eapply Calm_trans; [exact Hd|]. apply Calm_bookings.
      apply settled_save_row; [exact Hj | apply Hd]. }
    unfold create_booking_history.
    destruct (_ && _); cbn [snd].
    - eapply Calm_step; [exact Hw | apply Calm_history].
    - destruct (_status_changed _) as [[|]|]; cbn [snd]; try exact Hw.
      destruct (_old_status _); cbn [snd]; exact Hw. }
  destruct (booking_reference (fields i)).
  - apply H; [exact Hq | now apply Calm_refl].
  - cbn [generate_reference uuid4]. apply H.
    + exact Hq.
    + apply Calm_same; auto.
Qed.

Lemma Booking_save_calm now i db :
  quiet (fields i) = true -> settled db = true ->
  Calm db (snd (Booking_save now i db))
  /\ fields (fst (Booking_save now i db))
     = fields (fst (save_prefix None now i db)).
Proof.
  intros Hq Hs. unfold Booking_save.
  rewrite (@Booking_save_fuel_quiet 2 None now i db Hq).
  pose proof (@save_prefix_calm now i db Hq Hs) as Hp.
  destruct (save_prefix None now i db) as [i1 d1]. cbn [fst snd] in *.
  split; [|reflexivity].
  destruct (BookingStatus_eqb _ _); [|exact Hp].
  eapply Calm_step; [exact Hp | apply Calm_seats_update].
Qed.

Lemma save_prefix_fields uf now i db :
  status (fields (fst (save_prefix uf now i db))) = status (fields i)
  /\ confirmed_at (fields (fst (save_prefix uf now i db)))
     = confirmed_at (fields i)
  /\ cancelled_at (fields (fst (save_prefix uf now i db)))
     = cancelled_at (fields i).
Proof.
  unfold save_prefix.
  destruct (booking_reference (fields i));
    cbn [generate_reference uuid4];
    rewrite create_booking_history_fields, track_fields; auto.
Qed.

Lemma Booking_save_quiet now i db :
  quiet (fields i) = true -> settled db = true ->
  Calm db (snd (Booking_save now i db))
  /\ quiet (fields (fst (Booking_save now i db))) = true.
Proof.
  intros Hq Hs. destruct (@Booking_save_calm now i db Hq Hs) as [Hc Hf].
  split; [exact Hc|]. rewrite Hf.
  destruct (save_prefix_fields None now i db) as (E1 & E2 & E3).
  unfold quiet in *. now rewrite E1, E2, E3.
Qed.

Lemma settled_row db pk r :
  settled db = true -> get_booking db pk = Some r -> quiet r = true.
Proof.
  intros Hs Hr. apply find_some in Hr. destruct Hr as [Hin _].
  unfold settled in Hs. eapply forallb_forall in Hs; eassumption.
Qed.

Lemma instance_booking_quiet t db :
  settled db = true ->
  (forall bk, booking_cache t = Some bk -> quiet (fields bk) = true) ->
  match instance_booking t db with
  | (Some b, t') =>
      quiet (fields b) = true /\ txn_fields t' = txn_fields t
      /\ booking_cache t' = Some b
  | (None, t') => t' = t
  end.
Proof.
  intros Hs Hc. unfold instance_booking.
  destruct (booking_cache t) as [b|] eqn:Hb.
  - auto.
  - destruct (get_booking db _) as [r|] eqn:Hr; [|reflexivity].
    split; [|auto]. eapply settled_row; eassumption.
Qed.

Lemma Transaction_save_calm now t db :
  settled db = true ->
  (forall bk, booking_cache t = Some bk -> quiet (fields bk) = true) ->
  Calm db (snd (Transaction_save now t db))
  /\ forall bk, booking_cache (fst (Transaction_save now t db)) = Some bk ->
                quiet (fields bk) = true.
Proof.
  intros Hs Hcache. unfold Transaction_save.
  assert (H0 : exists t0 d0,
             (match transaction_id (txn_fields t) with
              | Some _ => (t, db)
              | None =>
                  let '(ref, db) := generate_reference db in
                  (on_txn_fields (with_transaction_id (Some ref)) t, db)
              end) = (t0, d0)
             /\ Calm db d0
             /\ forall bk, booking_cache t0 = Some bk ->
                           quiet (fields bk) = true).
  { destruct (transaction_id (txn_fields t)).
    - exists t, db. split; [reflexivity|]. split; [now apply Calm_refl|auto].
    - eexists. eexists. split; [reflexivity|]. split; [|exact Hcache].
      apply Calm_same; auto. }
  destruct H0 as (t0 & d0 & -> & Hc0 & Hq0).
  set (d1 := set_transactions _ d0).
  assert (Hc1 : Calm db d1).
  { eapply Calm_step; [exact Hc0|]. apply Calm_same; auto. }
  (* first receiver *)
  assert (H1 : Calm db (snd (handle_successful_payment now t0 d1))
               /\ forall bk,
                   booking_cache (fst (handle_successful_payment now t0 d1))
                   = Some bk ->
                   quiet (fields bk) = true).
  { unfold handle_successful_payment.
    destruct (TransactionStatus_eqb _ _); [|cbn [fst snd]; auto].
    pose proof (@instance_booking_quiet t0 d1 (proj1 Hc1) Hq0) as Hib.
    destruct (instance_booking t0 d1) as [[b|] t1];
      [|subst t1; cbn [fst snd]; auto].
    destruct Hib as (Hb & Ht1 & Hb1).
    destruct (BookingStatus_eqb _ _).
    2:{ cbn [fst snd]. split; [exact Hc1|]. rewrite Hb1.
        intros bk Hbk. now injection Hbk as <-. }
    set (b2 := on_fields (with_confirmed_at (Some now))
                         (on_fields (with_status Confirmed) b)).
    destruct (@Booking_save_quiet now b2 d1) as [Hc2 Hq2];
      [reflexivity | apply Hc1 |].
    destruct (Booking_save now b2 d1) as [b3 d3]. cbn [fst snd] in *.
    split.
    - eapply Calm_trans; [exact Hc1|].
      eapply Calm_step; [exact Hc2|]. apply Calm_delay. discriminate.
    - intros bk Hbk. now injection Hbk as <-. }
  destruct (handle_successful_payment now t0 d1) as [t2 d2].
  cbn [fst snd] in H1. destruct H1 as (Hc2 & Hq2).
  (* second receiver *)
  unfold handle_failed_payment.
  destruct (TransactionStatus_eqb _ _); [|cbn [fst snd]; auto].
  pose proof (@instance_booking_quiet t2 d2 (proj1 Hc2) Hq2) as Hib.
  destruct (instance_booking t2 d2) as [[b|] t3];
    [|subst t3; cbn [fst snd]; auto].
  destruct Hib as (Hb & Ht3 & Hb3).
  assert (Hkeep : forall bk, booking_cache t3 = Some bk ->
                             quiet (fields bk) = true).
  { rewrite Hb3. intros bk Hbk. now injection Hbk as <-. }
  destruct (negb _); [|cbn [fst snd]; auto].
  assert (Hc5 : Calm db (seats_update (booking_id (fields b)) true d2)).
  { eapply Calm_step; [exact Hc2 | apply Calm_seats_update]. }
  destruct (_ <? _)%Z; [|cbn [fst snd]; auto].
  set (b2 := on_fields (with_expires_at (now + minutes 15)%Z) b).
  destruct (@Booking_save_quiet now b2
              (seats_update (booking_id (fields b)) true d2))
    as [Hc6 Hq6]; [exact Hb | apply Hc5 |].
  destruct (Booking_save now b2 _) as [b3 d3]. cbn [fst snd] in *.
  split.
  - eapply Calm_trans; eassumption.
  - intros bk Hbk. now injection Hbk as <-.
Qed.

Lemma Calm_create now request db :
  settled db = true ->
  Calm db (snd (CreateBookingView_create now request db)).
Proof.
  intro Hs. rewrite create_booking_unchanged. now apply Calm_refl.
Qed.

Lemma get_user_booking_quiet db pk user row :
  settled db = true -> get_user_booking db pk user = Some row ->
  quiet row = true.
Proof.
  intros Hs Hr. apply find_some in Hr. destruct Hr as [Hin _].
  unfold settled in Hs. eapply forallb_forall in Hs; eassumption.
Qed.

Lemma Calm_initiate now request db :
  settled db = true ->
  Calm db (snd (InitiatePaymentView_create now request db)).
Proof.
  intro Hs. unfold InitiatePaymentView_create.
  destruct (get_user_booking db _ _) as [row|] eqn:Hrow;
    [|now apply Calm_refl].
  pose proof (get_user_booking_quiet _ _ _ Hs Hrow) as Hq.
  cbn [from_row fields].
  destruct (negb _); [now apply Calm_refl|].
  destruct (_ <=? _)%Z.
  - set (b := on_fields (with_status Expired) (from_row row)).
    destruct (@Booking_save_quiet now b db) as [Hc _];
      [reflexivity | exact Hs |].
    destruct (Booking_save now b db) as [b1 d1]. cbn [fst snd] in *.
    eapply Calm_step; [exact Hc | apply Calm_seats_update].
  - cbn [uuid4].
    match goal with
    | |- context [Transaction_save now ?t ?d] =>
        destruct (@Transaction_save_calm now t d) as (Hc & Hcache);
          [exact Hs
          |intros bk Hbk; cbn in Hbk; injection Hbk as <-; exact Hq|];
          destruct (Transaction_save now t d) as [t1 d1]
    end.
    cbn [fst snd] in *.
    assert (Hc1 : Calm db d1).
    { eapply Calm_trans; [|exact Hc]. apply Calm_same; auto. }
    destruct (negb _); [exact Hc1|].
    destruct (initiate_order request) as [payment_data|]; exact Hc1.
Qed.

Lemma Calm_confirm now request db :
  settled db = true ->
  Calm db (snd (ConfirmPaymentView_update now request db)).
Proof.
  intro Hs. unfold ConfirmPaymentView_update.
  destruct (get_user_booking db _ _) as [row|] eqn:Hrow;
    [|now apply Calm_refl].
  cbn [from_row fields].
  destruct (PaymentConfirmSerializer_is_valid request)
    as [[gateway_transaction_id gateway_response]|e];
    [|now apply Calm_refl].
  destruct (get_booking_transaction db _ _) as [trow|];
    [|now apply Calm_refl].
  cbn [txn_fields].
  destruct (negb _); [now apply Calm_refl|].
  destruct (is_valid request).
  - match goal with
    | |- context [Transaction_save now ?t db] =>
        destruct (@Transaction_save_calm now t db) as (Hc & _);
          [exact Hs | intros bk Hbk; discriminate |];
          destruct (Transaction_save now t db) as [t1 d1]
    end.
    cbn [fst snd] in *.
    set (b := on_fields (with_confirmed_at (Some now))
                        (on_fields (with_status Confirmed) (from_row row))).
    destruct (@Booking_save_quiet now b d1) as [Hc2 _];
      [reflexivity | apply Hc |].
    destruct (Booking_save now b d1) as [b2 d2]. cbn [fst snd] in *.
    eapply Calm_trans; [exact Hc|].
    eapply Calm_step; [exact Hc2|]. intro Hs2.
    eapply Calm_step; [now apply Calm_history|].
    apply Calm_delay. discriminate.
  - match goal with
    | |- context [Transaction_save now ?t db] =>
        destruct (@Transaction_save_calm now t db) as (Hc & _);
          [exact Hs | intros bk Hbk; discriminate |];
          destruct (Transaction_save now t db) as [t1 d1]
    end.
    exact Hc.
Qed.

Lemma Calm_cancel now request db :
  settled db = true ->
  Calm db (snd (CancelBookingView_update now request db)).
Proof.
  intro Hs. unfold CancelBookingView_update.
  destruct (get_user_booking db _ _) as [row|]; [|now apply Calm_refl].
  destruct (refused _) as [|error errors]; [|now apply Calm_refl].
  destruct (BookingCancelSerializer_validate db now row) as [policy|e];
    [|now apply Calm_refl].
  cbn [from_row fields].
  set (b := on_fields (with_cancelled_at (Some now))
                      (on_fields (with_status Cancelled) (from_row row))).
  destruct (@Booking_save_quiet now b db) as [Hc _];
    [reflexivity | exact Hs |].
  destruct (Booking_save_frame now b db) as (_ & _ & Hst).
  destruct (Booking_save now b db) as [b1 d1]. cbn [fst snd] in *.
  change (status (fields b)) with Cancelled in Hst. rewrite Hst.
  cbn [BookingStatus_eqb snd].
  eapply Calm_step; [exact Hc|]. intro Hs1.
  eapply Calm_step; [now apply Calm_seats_update|]. intro Hs2.
  eapply Calm_step; [now apply Calm_history|].
  apply Calm_delay. discriminate.
Qed.

Lemma Calm_extend now user pk db :
  settled db = true ->
  Calm db (snd (extend_booking_timer now user pk db)).
Proof.
  intro Hs. unfold extend_booking_timer.
  destruct (find _ (bookings db)) as [row|] eqn:Hrow; [|now apply Calm_refl].
  apply find_some in Hrow. destruct Hrow as [Hin _].
  assert (Hq : quiet row = true).
  { unfold settled in Hs. eapply forallb_forall in Hs; eassumption. }
  destruct (negb _); [now apply Calm_refl|].
  destruct (_ <? _)%Z; [now apply Calm_refl|].
  match goal with
  | |- context [Booking_save now ?b db] =>
      destruct (@Booking_save_quiet now b db) as [Hc _];
        [exact Hq | exact Hs |];
        destruct (Booking_save now b db) as [b1 d1]
  end.
  exact Hc.
Qed.

Lemma Calm_webhook now request db :
  settled db = true ->
  Calm db (snd (payment_webhook now request db)).
Proof.
  intro Hs. rewrite payment_webhook_unchanged. now apply Calm_refl.
Qed.

Lemma Calm_expire_booking now db row :
  settled db = true -> Calm db (expire_booking now db row).
Proof.
  intro Hs. unfold expire_booking.
  set (b := on_fields (with_status Expired) (from_row row)).
  destruct (@Booking_save_quiet now b db) as [Hc _];
    [reflexivity | exact Hs |].
  destruct (Booking_save now b db) as [b1 d1]. cbn [fst snd] in *.
  eapply Calm_step; [exact Hc|]. intro Hs1.
  eapply Calm_step; [now apply Calm_seats_update|].
  apply Calm_history.
Qed.

Lemma Calm_expire_all now queryset :
  forall db0 db, Calm db0 db ->
                 Calm db0 (fold_left (expire_booking now) queryset db).
Proof.
  induction queryset as [|row l IH]; intros db0 db Hc; cbn [fold_left].
  - exact Hc.
  - apply IH. eapply Calm_step; [exact Hc | apply Calm_expire_booking].
Qed.

Lemma handle_calm now r db : settled db = true -> Calm db (handle now r db).
Proof.
  intro Hs.
  destruct r as [request|request|request|request|u pk|request| |k|k|l|l];
    cbn [handle].
  - now apply Calm_create.
  - now apply Calm_initiate.
  - now apply Calm_confirm.
  - now apply Calm_cancel.
  - now apply Calm_extend.
  - now apply Calm_webhook.
  - apply Calm_expire_all. now apply Calm_refl.
  - unfold send_booking_confirmation.
    destruct (get_booking db k); [|now apply Calm_refl].
    apply Calm_same; auto.
  - unfold send_cancellation_confirmation.
    destruct (get_booking db k); [|now apply Calm_refl].
    apply Calm_same; auto.
  - apply Calm_bookings. apply forallb_forall. intros x Hx.
    apply in_map_iff in Hx. destruct Hx as [b [<- Hb]].
    destruct (_ && _); [reflexivity|].
    unfold settled in Hs. eapply forallb_forall in Hs; eassumption.
  - apply Calm_bookings. apply forallb_forall. intros x Hx.
    apply in_map_iff in Hx. destruct Hx as [b [<- Hb]].
    destruct (_ && _); [reflexivity|].
    unfold settled in Hs. eapply forallb_forall in Hs; eassumption.
Qed.

(** X19.  Every request that confirms a booking sets its confirmation time
    before it saves it, so the receiver that would complete the timestamp
    and schedule the show reminder never finds work: if every stored
    confirmed booking has its confirmation time and every cancelled one its
    cancellation time, this stays so after any sequence of requests, and no
    show reminder is ever scheduled. *)
Theorem no_request_schedules_a_reminder requests db :
  settled db = true ->
  settled (run requests db) = true
  /\ forall eta,
      In (send_show_reminders_task eta) (celery (run requests db)) ->
      In (send_show_reminders_task eta) (celery db).
Proof.
  revert db. unfold run.
  induction requests as [|[now r] l IH]; intros db Hs; cbn [fold_left fst snd].
  - auto.
  - pose proof (@handle_calm now r db Hs) as [Hs1 Hc1].
    destruct (IH _ Hs1) as [Hs2 Hc2]. auto.
Qed.

Lemma no_request_schedules_a_reminder_witness :
  settled Scenario.booked = true
  /\ settled (run Day.requests Scenario.booked) = true
  /\ forall eta,
      In (send_show_reminders_task eta)
         (celery (run Day.requests Scenario.booked)) ->
      In (send_show_reminders_task eta) (celery Scenario.booked).
Proof.
  split; [vm_compute; reflexivity|].
  apply (@no_request_schedules_a_reminder Day.requests Scenario.booked).
  vm_compute; reflexivity.
Defined.
(** * The cancellation policy in time *)

(** X20.  For a pending or confirmed booking, [BookingCancelSerializer]
    accepts the cancellation with the first active policy of greatest
    threshold among those in time, when that policy is refundable, and
    refuses it with the message of the policy check when no active policy
    is in time or that policy is not refundable.  A policy is in time when
    its threshold in hours is at most the time left before the show, or,
    the lookup rounding the hours toward zero, when its threshold is zero
    and the show began less than an hour ago. *)
Theorem cancel_policy_selection now db booking showtime :
  get_showtime db (booking_showtime booking) = Some showtime ->
  status booking = Pending \/ status booking = Confirmed ->
  match BookingCancelSerializer_validate db now booking with
  | Ok p =>
      In p (policies db) /\ policy_is_active p = true
      /\ is_refundable p = true
      /\ in_time (show_datetime showtime - now) p
      /\ forall q, In q (policies db) -> policy_is_active q = true ->
                   in_time (show_datetime showtime - now) q ->
                   hours_before_show q <= hours_before_show p
  | Fail e =>
      e = ValidationError "Cancellation not allowed at this time"
      /\ ((forall q, In q (policies db) ->
                     ~ (policy_is_active q = true
                        /\ in_time (show_datetime showtime - now) q))
          \/ exists p,
              In p (policies db) /\ policy_is_active p = true
              /\ is_refundable p = false
              /\ in_time (show_datetime showtime - now) p
              /\ forall q, In q (policies db) -> policy_is_active q = true ->
                           in_time (show_datetime showtime - now) q ->
                           hours_before_show q <= hours_before_show p)
  end.
Proof.
  intros Hs Hst. unfold BookingCancelSerializer_validate. rewrite Hs.
  replace (negb (BookingStatus_eqb (status booking) Confirmed
                 || BookingStatus_eqb (status booking) Pending)) with false
    by (destruct Hst as [-> | ->]; reflexivity).
  pose proof (get_applicable_policy_spec db (show_datetime showtime - now))
    as Hp.
  destruct (get_applicable_policy db _) as [p|].
  - destruct Hp as (Hin & Ha & Ht & Hmax).
    destruct (is_refundable p) eqn:Hr.
    + repeat split; assumption.
    + split; [reflexivity|]. right. exists p. repeat split; assumption.
  - split; [reflexivity|]. left. exact Hp.
Qed.

(** Five minutes after the booking was paid, two days before the show, the
    policy of four hours applies. *)
Lemma cancel_policy_selection_witness :
  exists booking,
    get_booking Scenario.paid 100 = Some booking
    /\ get_showtime Scenario.paid (booking_showtime booking)
       = Some Scenario.show
    /\ (status booking = Pending \/ status booking = Confirmed)
    /\ BookingCancelSerializer_validate Scenario.paid (minutes 5) booking
       = Ok Scenario.four_hours
    /\ in_time (show_datetime Scenario.show - minutes 5) Scenario.four_hours.
Proof.
  eexists. split; [vm_compute; reflexivity|].
  split; [vm_compute; reflexivity|].
  split; [right; vm_compute; reflexivity|].
  pose proof (@cancel_policy_selection
                (minutes 5) Scenario.paid
                (mkBooking 100 42 10 (Some 101) 30000 5400 2000 37400
                           Confirmed 0 (minutes 15) (Some (minutes 2)) None
                           EmptyString)
                Scenario.show) as H.
  assert (E : BookingCancelSerializer_validate
                Scenario.paid (minutes 5)
                (mkBooking 100 42 10 (Some 101) 30000 5400 2000 37400
                           Confirmed 0 (minutes 15) (Some (minutes 2)) None
                           EmptyString)
              = Ok Scenario.four_hours) by (vm_compute; reflexivity).
  rewrite E in H.
  split; [exact E|].
  apply H; [vm_compute; reflexivity | right; reflexivity].
Defined.

(** * Requests that the serializers refuse *)

(** What a [CharField] accepts: a text that is not blank once trimmed, has
    no more than the allowed number of characters and no null character. *)
Lemma CharField_accepts max_length data :
  CharField_errors max_length data = []
  <-> strip data <> EmptyString
      /\ (forall n, max_length = Some n -> String.length (strip data) <= n)
      /\ has_null (strip data) = false.
Proof.
  unfold CharField_errors, CharField_value.
  destruct (String.eqb_spec (strip data) EmptyString) as [E | E].
  - split; [discriminate | tauto].
  - destruct max_length as [n|].
    + destruct (Nat.ltb_spec n (String.length (strip data))) as [Hn | Hn].
      * split; [discriminate|]. intros (_ & H & _).
        specialize (H n eq_refl). lia.
      * cbn [List.app]. destruct (has_null (strip data)).
        -- split; [discriminate | intros (_ & _ & H); discriminate].
        -- split; [|reflexivity]. intros _. repeat split; [exact E|].
           intros m Hm. injection Hm as <-. exact Hn.
    + cbn [List.app]. destruct (has_null (strip data)).
      * split; [discriminate | intros (_ & _ & H); discriminate].
      * split; [|reflexivity]. intros _. repeat split; [exact E|].
        discriminate.
Qed.

(** X21.  A cancellation whose reason is blank once trimmed, longer than
    500 characters or holds a null character is answered with the messages
    of the field, before the policy is looked at; a cancellation that the
    policy check refuses is answered with its error.  Neither writes
    anything. *)
Theorem cancel_refusals_write_nothing now request db row :
  get_user_booking db (cancel_booking_id request) (cancel_user request)
  = Some row ->
  (strip (reason request) = EmptyString
   \/ 500 < String.length (strip (reason request))
   \/ has_null (strip (reason request)) = true ->
   CancelBookingView_update now request db
   = (Fail (FieldErrors
              [("reason"%string,
                CharField_errors (Some 500) (reason request))]),
      db))
  /\ (forall e,
        CharField_errors (Some 500) (reason request) = [] ->
        BookingCancelSerializer_validate db now row = Fail e ->
        CancelBookingView_update now request db = (Fail e, db)).
Proof.
  intro Hrow. split.
  - intro H. apply (@cancel_reason_refused now request db row Hrow).
    unfold reason_errors. intro E. apply CharField_accepts in E.
    destruct E as (E1 & E2 & E3). specialize (E2 500 eq_refl).
    destruct H as [H | [H | H]]; [contradiction | lia | congruence].
  - intros e Hreason Hval. unfold CancelBookingView_update.
    now rewrite Hrow, (cancel_reason_accepted _ Hreason), Hval.
Qed.

Lemma cancel_refusals_write_nothing_witness :
  exists row,
    get_user_booking Scenario.paid 100 42 = Some row
    /\ (strip (reason Wallet.blank_cancel) = EmptyString
        \/ 500 < String.length (strip (reason Wallet.blank_cancel))
        \/ has_null (strip (reason Wallet.blank_cancel)) = true)
    /\ CharField_errors (Some 500) (reason Scenario.cancel_request) = []
    /\ BookingCancelSerializer_validate Scenario.paid (hours 46) row
       = Fail (ValidationError "Cancellation not allowed at this time")
    /\ CancelBookingView_update
         (minutes 5) Wallet.blank_cancel Scenario.paid
       = (Fail (FieldErrors
                  [("reason"%string, ["This field may not be blank."%string])]),
          Scenario.paid)
    /\ Scenario.cancelled_late
       = (Fail (ValidationError "Cancellation not allowed at this time"),
          Scenario.paid).
Proof.
  eexists. split; [vm_compute; reflexivity|].
  destruct (@cancel_refusals_write_nothing
              (minutes 5) Wallet.blank_cancel Scenario.paid
              (mkBooking 100 42 10 (Some 101) 30000 5400 2000 37400
                         Confirmed 0 (minutes 15) (Some (minutes 2)) None
                         EmptyString))
    as [H1 _]; [vm_compute; reflexivity|].
  destruct (@cancel_refusals_write_nothing
              (hours 46) Scenario.cancel_request Scenario.paid
              (mkBooking 100 42 10 (Some 101) 30000 5400 2000 37400
                         Confirmed 0 (minutes 15) (Some (minutes 2)) None
                         EmptyString))
    as [_ H2]; [vm_compute; reflexivity|].
  split; [left; vm_compute; reflexivity|].
  split; [vm_compute; reflexivity|].
  split; [vm_compute; reflexivity|].
  split.
  - apply H1. left. vm_compute; reflexivity.
  - apply H2; vm_compute; reflexivity.
Defined.

(** X22.  A payment confirmation whose [gateway_transaction_id] is blank
    once trimmed or whose [gateway_response] is null is answered with the
    messages of the refused fields before the transaction is read, and
    writes nothing. *)
Theorem confirm_refused_fields_write_nothing now request db row :
  get_user_booking db (confirm_booking_id request) (confirm_user request)
  = Some row ->
  strip (confirm_gateway_transaction_id request) = EmptyString
  \/ confirm_gateway_response request = None ->
  exists errors,
    errors <> []
    /\ ConfirmPaymentView_update now request db
       = (Fail (FieldErrors errors), db).
Proof.
  intros Hrow H.
  destruct (@confirm_fields_refused request) as (errors & Hne & Hfields).
  { destruct H as [H | H].
    - left. intro E. apply CharField_accepts in E. tauto.
    - right. rewrite H. discriminate. }
  exists errors. split; [exact Hne|].
  unfold ConfirmPaymentView_update. now rewrite Hrow, Hfields.
Qed.

Lemma confirm_refused_fields_write_nothing_witness :
  exists row,
    get_user_booking (snd Scenario.initiated) 100 42 = Some row
    /\ (strip (confirm_gateway_transaction_id Wallet.blank_request)
        = EmptyString
        \/ confirm_gateway_response Wallet.blank_request = None)
    /\ exists errors,
        errors <> []
        /\ ConfirmPaymentView_update
             (minutes 2)
             Wallet.blank_request
             (snd Scenario.initiated)
           = (Fail (FieldErrors errors), snd Scenario.initiated).
Proof.
  eexists. split; [vm_compute; reflexivity|].
  split; [left; reflexivity|].
  apply (@confirm_refused_fields_write_nothing
           (minutes 2)
           Wallet.blank_request
           (snd Scenario.initiated)
           (mkBooking 100 42 10 (Some 101) 30000 5400 2000 37400
                      Pending 0 (minutes 15) None None EmptyString)).
  - vm_compute; reflexivity.
  - left. reflexivity.
Defined.
(** * [BookingCreateSerializer.create] *)

(** X15.  The amounts of the booking that [BookingCreateSerializer.create]
    builds for a non-empty list of seats: the subtotal is the sum, over the
    seats it holds, of the price of the showtime for the type of the seat
    (the recliner price, the premium price, the base price for every other
    type); the tax is 18% of the subtotal rounded to the hundredth, ties to
    even; the fee is 20.00 and the total is their sum. *)
Theorem serializer_create_pricing now request db booking db' :
  consistent db = true ->
  seat_ids request <> [] ->
  BookingCreateSerializer_create
    now (create_user request) (create_showtime_id request) (seat_ids request)
    (create_special_requests request) db = (Ok booking, db') ->
  exists showtime held,
    get_showtime db (booking_showtime (fields booking)) = Some showtime
    /\ incl held (seats db)
    /\ map seat_id held = seats_of db' (booking_id (fields booking))
    /\ subtotal (fields booking)
       = sumZ (map (fun seat => type_price showtime (seat_type seat)) held)
    /\ tax_amount (fields booking)
       = Decimal.round_half_even (18 * subtotal (fields booking)) 100
    /\ (2 * Z.abs (100 * tax_amount (fields booking)
                   - 18 * subtotal (fields booking)) <= 100)%Z
    /\ convenience_fee (fields booking) = 2000%Z
    /\ total_amount (fields booking)
       = (subtotal (fields booking) + tax_amount (fields booking)
          + convenience_fee (fields booking))%Z.
Proof.
  intros Hc Hne Hrun.
  destruct (serializer_create_success _ _ _ Hc Hrun)
    as (showtime & Hs & Hlen & Hb & Hdb).
  destruct (consistent_parts _ Hc) as (_ & _ & _ & _ & Hbs & _).
  set (held := filter (lockable showtime (seat_ids request)) (seats db)) in *.
  set (price := fun seat : Seat => type_price showtime (seat_type seat)).
  assert (Hheld : held <> []).
  { intro E. rewrite E in Hlen. destruct (seat_ids request); [congruence|].
    discriminate. }
  assert (Hsum : Decimal.sum (map (get_price_for_seat showtime) held)
                 = from_db (sumZ (map price held))).
  { rewrite <- sum_from_db.
    - rewrite map_map. f_equal. apply map_ext. intro seat.
      apply get_price_for_seat_from_db.
    - destruct held; [congruence | discriminate]. }
  destruct (amounts_from_subtotal (sumZ (map price held)))
    as (Hsub & Htax & Hfee & Htot).
  assert (Esub : subtotal (fields booking) = sumZ (map price held)).
  { rewrite Hb. unfold created_booking. cbn [subtotal]. now rewrite Hsum. }
  assert (Etax : tax_amount (fields booking)
                 = Decimal.round_half_even (18 * subtotal (fields booking))
                                           100).
  { rewrite Esub, Hb. unfold created_booking. cbn [tax_amount].
    now rewrite Hsum. }
  assert (Efee : convenience_fee (fields booking) = 2000%Z) by now rewrite Hb.
  assert (Etot : total_amount (fields booking)
                 = (subtotal (fields booking) + tax_amount (fields booking)
                    + convenience_fee (fields booking))%Z).
  { rewrite Etax, Efee, Esub, Hb. unfold created_booking. cbn [total_amount].
    now rewrite Hsum. }
  exists showtime, held.
  split; [now rewrite Hb|].
  split; [intros seat Hin; apply filter_In in Hin; tauto|].
  split.
  { rewrite Hdb, Hb. unfold seats_of.
    cbn [booking_seats created_booking booking_id].
    rewrite filter_app, map_app.
    rewrite (filter_none _ (booking_seats db)).
    - cbn [map app]. clearbody held. clear.
      induction held as [|x l IH]; cbn; [reflexivity|].
      rewrite Nat.eqb_refl. cbn. now rewrite <- IH.
    - intros p Hp. apply Hbs in Hp. apply Nat.eqb_neq. lia. }
  split; [exact Esub|]. split; [exact Etax|].
  split.
  { rewrite Etax.
    pose proof (@round_half_even_nearest (18 * subtotal (fields booking)) 100
                                         ltac:(lia)). lia. }
  split; [exact Efee | exact Etot].
Qed.

(** A regular seat at 150.00 and a premium seat at 200.00: 350.00, 63.00,
    20.00 and 433.00. *)
Lemma serializer_create_pricing_witness :
  exists booking db',
    consistent Scenario.initial = true
    /\ seat_ids Mixed.request <> []
    /\ Mixed.created = (Ok booking, db')
    /\ subtotal (fields booking) = 35000%Z
    /\ tax_amount (fields booking) = 6300%Z
    /\ convenience_fee (fields booking) = 2000%Z
    /\ total_amount (fields booking) = 43300%Z
    /\ exists showtime held,
        get_showtime Scenario.initial (booking_showtime (fields booking))
        = Some showtime
        /\ incl held (seats Scenario.initial)
        /\ map seat_id held = seats_of db' (booking_id (fields booking))
        /\ subtotal (fields booking)
           = sumZ (map (fun seat => type_price showtime (seat_type seat))
                       held)
        /\ tax_amount (fields booking)
           = Decimal.round_half_even (18 * subtotal (fields booking)) 100
        /\ (2 * Z.abs (100 * tax_amount (fields booking)
                       - 18 * subtotal (fields booking)) <= 100)%Z
        /\ convenience_fee (fields booking) = 2000%Z
        /\ total_amount (fields booking)
           = (subtotal (fields booking) + tax_amount (fields booking)
              + convenience_fee (fields booking))%Z.
Proof.
  eexists. eexists.
  split; [vm_compute; reflexivity|]. split; [discriminate|].
  split; [vm_compute; reflexivity|].
  split; [vm_compute; reflexivity|]. split; [vm_compute; reflexivity|].
  split; [vm_compute; reflexivity|]. split; [vm_compute; reflexivity|].
  apply (@serializer_create_pricing 0 Mixed.request Scenario.initial).
  - vm_compute; reflexivity.
  - discriminate.
  - vm_compute; reflexivity.
Defined.

(** X23.  [BookingCreateSerializer.create] holds all the seats it is given
    or none: either it returns a new pending booking, which was not stored
    before and owns exactly the seats of the list, each of which was on
    sale (available and not blocked) and is held afterwards; or it fails
    and the database is what it was. *)
Theorem serializer_create_all_or_nothing now request db res db' :
  consistent db = true ->
  BookingCreateSerializer_create
    now (create_user request) (create_showtime_id request) (seat_ids request)
    (create_special_requests request) db = (res, db') ->
  (exists booking,
      res = Ok booking
      /\ status (fields booking) = Pending
      /\ get_booking db (booking_id (fields booking)) = None
      /\ get_booking db' (booking_id (fields booking)) = Some (fields booking)
      /\ (forall s, In s (seats_of db' (booking_id (fields booking)))
                    <-> In s (seat_ids request))
      /\ (forall s, In s (seat_ids request) ->
            exists seat seat',
              get_seat db s = Some seat /\ is_available seat = true
              /\ is_blocked seat = false
              /\ get_seat db' s = Some seat' /\ is_available seat' = false))
  \/ (exists e, res = Fail e /\ db' = db).
Proof.
  intros Hc Hrun. destruct res as [booking|e].
  2:{ right. exists e. split; [reflexivity|].
      eapply serializer_create_failure; eassumption. }
  left. exists booking. split; [reflexivity|].
  destruct (serializer_create_success _ _ _ Hc Hrun)
    as (showtime & Hs & Hlen & Hb & Hdb).
  destruct (consistent_parts _ Hc) as (Hseats & _ & _ & Hbk & Hbs & _).
  set (held := filter (lockable showtime (seat_ids request)) (seats db)) in *.
  assert (Hfresh : get_booking db (next_uuid db) = None).
  { apply find_pk_fresh. intros b Hin. apply Hbk in Hin. lia. }
  assert (Hid : booking_id (fields booking) = next_uuid db) by now rewrite Hb.
  rewrite Hid. repeat split.
  - now rewrite Hb.
  - exact Hfresh.
  - rewrite Hdb. unfold get_booking. cbn [bookings].
    rewrite find_app_fresh by exact Hfresh.
    cbn. now rewrite Hid, Nat.eqb_refl.
  - rewrite Hdb. unfold seats_of. cbn [booking_seats].
    rewrite filter_app, map_app.
    assert (Hold : filter (fun p => fst p =? next_uuid db) (booking_seats db)
                   = []).
    { apply filter_none. intros p Hp. apply Hbs in Hp.
      apply Nat.eqb_neq. lia. }
    rewrite Hold. cbn [map app].
    assert (Hnew : forall l,
               map snd (filter (fun p => fst p =? next_uuid db)
                               (map (fun s => (next_uuid db, seat_id s)) l))
               = map seat_id l).
    { induction l as [|x l IH]; cbn; [reflexivity|].
      rewrite Nat.eqb_refl. cbn. now rewrite IH. }
    rewrite Hnew. intro Hin.
    now apply (locked_all_requested db showtime (seat_ids request) Hseats Hlen).
  - rewrite Hdb. unfold seats_of. cbn [booking_seats].
    rewrite filter_app, map_app.
    intro Hin.
    apply (locked_all_requested db showtime (seat_ids request) Hseats Hlen)
      in Hin.
    apply in_or_app. right.
    apply in_map_iff in Hin. destruct Hin as [seat [Hsid Hin]].
    apply in_map_iff. exists (next_uuid db, seat_id seat). split; [exact Hsid|].
    apply filter_In. split; [|cbn; apply Nat.eqb_refl].
    apply in_map_iff. exists seat. auto.
  - intros s Hin.
    apply (locked_all_requested db showtime (seat_ids request) Hseats Hlen)
      in Hin.
    apply in_map_iff in Hin. destruct Hin as [seat [Hsid Hin]].
    apply filter_In in Hin. destruct Hin as [Hin Hlock].
    exists seat, (hold seat).
    assert (Hget : get_seat db s = Some seat).
    { unfold get_seat. rewrite <- Hsid. now apply find_pk_unique. }
    assert (Hl := Hlock). unfold lockable in Hl.
    apply andb_prop in Hl. destruct Hl as [Hl Hnb].
    apply andb_prop in Hl. destruct Hl as [_ Hav].
    repeat split.
    + exact Hget.
    + exact Hav.
    + now apply negb_true_iff.
    + rewrite Hdb. unfold get_seat in *. cbn [seats].
      rewrite find_pk_map.
      * rewrite Hget. cbn. now rewrite Hlock.
      * intro x. now destruct (lockable showtime (seat_ids request) x).
Qed.

Lemma serializer_create_all_or_nothing_witness :
  consistent Scenario.initial = true
  /\ exists booking,
      fst Mixed.created = Ok booking
      /\ status (fields booking) = Pending
      /\ get_booking Scenario.initial (booking_id (fields booking)) = None
      /\ get_booking (snd Mixed.created) (booking_id (fields booking))
         = Some (fields booking)
      /\ (forall s, In s (seats_of (snd Mixed.created)
                                   (booking_id (fields booking)))
                    <-> In s (seat_ids Mixed.request))
      /\ (forall s, In s (seat_ids Mixed.request) ->
            exists seat seat',
              get_seat Scenario.initial s = Some seat
              /\ is_available seat = true /\ is_blocked seat = false
              /\ get_seat (snd Mixed.created) s = Some seat'
              /\ is_available seat' = false).
Proof.
  split; [vm_compute; reflexivity|].
  destruct (@serializer_create_all_or_nothing
              0 Mixed.request Scenario.initial
              (fst Mixed.created) (snd Mixed.created))
    as [H | (e & He & _)].
  - vm_compute; reflexivity.
  - vm_compute; reflexivity.
  - exact H.
  - vm_compute in He. discriminate.
Defined.
